(** * S2T Accelerators MCP server: dispatcher, handlers and HTTP sessions

    A shallow embedding of the TypeScript sources

      - [src/handlers.ts]      (tool handlers: validate, call, render),
      - [src/server-setup.ts]  (tool registry, [createApiClient],
                                [createMcpServer] and its call-tool handler),
      - [src/http-server.ts]   (CORS middleware, streamable-HTTP and legacy
                                SSE session stores, graceful shutdown),

    followed by the properties of the dispatch path and of the session
    lifecycle.

    Conventions.  JavaScript values are the JSON fragment the code handles
    (argument bags and remote responses are JSON).  Numbers are the
    integer-valued ones; a string is a sequence of code units, one [ascii]
    each.  Promises are run to completion: an [async] function is a
    computation in an exception monad, [await] is sequencing, a rejected
    promise is a thrown value.  A remote call that never settles has no
    counterpart in this model. *)

From Stdlib Require Import ZArith List String Ascii Bool Lia.
From Stdlib Require Import DecimalString DecimalZ DecimalPos.
Import ListNotations.
Open Scope string_scope.

#[local] Set Warnings "-register-all".

(* ------------------------------------------------------------------------- *)
(** ** JavaScript values *)
(* ------------------------------------------------------------------------- *)

Module JS.

Inductive primitive : Type :=
| PUndefined
| PNull
| PBool (b : bool)
| PNumber (n : Z)
| PString (s : string).

Inductive value : Type :=
| Prim (p : primitive)
| VArr (items : list value)
| VObj (fields : list (string * value)).

Abbreviation VUndef := (Prim PUndefined).
Abbreviation VNull := (Prim PNull).
Abbreviation VBool b := (Prim (PBool b)).
Abbreviation VNum n := (Prim (PNumber n)).
Abbreviation VStr s := (Prim (PString s)).

(** What a [throw] (or a rejected promise) carries: an [Error] instance
    with its [message] -- every [throw new Error(...)] of the sources and
    the runtime's own TypeError and SyntaxError -- or a primitive. *)
Inductive thrown : Type :=
| ErrorObject (message : string)
| ThrownPrimitive (p : primitive).

Inductive outcome (A : Type) : Type :=
| Return (a : A)
| Throw (e : thrown).
Arguments Return {A} a.
Arguments Throw {A} e.

Definition obind {A B} (m : outcome A) (k : A -> outcome B) : outcome B :=
  match m with
  | Return a => k a
  | Throw e => Throw e
  end.

Definition TypeError {A} (message : string) : outcome A :=
  Throw (ErrorObject message).

(** [ToBoolean]. *)
Definition truthy (v : value) : bool :=
  match v with
  | VUndef | VNull => false
  | VBool b => b
  | VNum n => negb (n =? 0)%Z
  | VStr s => negb (s =? "")
  | VArr _ | VObj _ => true
  end.

(** [typeof v]. *)
Definition typeof (v : value) : string :=
  match v with
  | VUndef => "undefined"
  | VNull => "object"
  | VBool _ => "boolean"
  | VNum _ => "number"
  | VStr _ => "string"
  | VArr _ | VObj _ => "object"
  end.

(** [a || b] and [a ?? b]. *)
Definition or_else (a b : value) : value := if truthy a then a else b.

Definition nullish (v : value) : bool :=
  match v with
  | VUndef | VNull => true
  | _ => false
  end.

Definition coalesce (a b : value) : value := if nullish a then b else a.

(** Own property of an object literal or of a parsed JSON object (an
    object lists each of its keys once). *)
Fixpoint lookup (k : string) (fields : list (string * value)) : option value :=
  match fields with
  | [] => None
  | (k', v) :: rest => if k' =? k then Some v else lookup k rest
  end.

Definition string_of_Z (n : Z) : string := NilZero.string_of_int (Z.to_int n).

(** [v.k] for a property name [k] that is not a prototype member (the
    sources read data fields only; method calls have their own
    operations below). *)
Definition getProp (v : value) (k : string) : outcome value :=
  match v with
  | VUndef =>
      TypeError ("Cannot read properties of undefined (reading '" ++ k ++ "')")
  | VNull =>
      TypeError ("Cannot read properties of null (reading '" ++ k ++ "')")
  | VObj fields =>
      Return (match lookup k fields with Some x => x | None => VUndef end)
  | VStr s =>
      Return (if k =? "length" then VNum (Z.of_nat (String.length s)) else VUndef)
  | VArr items =>
      Return (if k =? "length" then VNum (Z.of_nat (List.length items)) else VUndef)
  | VBool _ | VNum _ => Return VUndef
  end.

(** [v?.k]. *)
Definition getPropOpt (v : value) (k : string) : outcome value :=
  if nullish v then Return VUndef else getProp v k.

Definition prim_to_string (p : primitive) : string :=
  match p with
  | PUndefined => "undefined"
  | PNull => "null"
  | PBool true => "true"
  | PBool false => "false"
  | PNumber n => string_of_Z n
  | PString s => s
  end.

(** [ToString], as used by template literals and by [new Error(v)].  A
    parsed JSON object has no callable own property: one that shadows
    [toString] cannot be converted. *)
Fixpoint ToString (v : value) : outcome string :=
  match v with
  | Prim p => Return (prim_to_string p)
  | VArr items =>
      (fix join (l : list value) : outcome string :=
         match l with
         | [] => Return ""
         | x :: rest =>
             obind (if nullish x then Return "" else ToString x) (fun sx =>
             match rest with
             | [] => Return sx
             | _ => obind (join rest) (fun sr => Return (sx ++ "," ++ sr))
             end)
         end) items
  | VObj fields =>
      match lookup "toString" fields with
      | Some _ => TypeError "Cannot convert object to primitive value"
      | None => Return "[object Object]"
      end
  end.

(** [String(p)] on a primitive. *)
Definition String_ (p : primitive) : string := prim_to_string p.

(** [s.substring(0, n)]. *)
Definition substring0 (n : nat) (s : string) : string := String.substring 0 n s.

(** *** [JSON.stringify] *)

Definition chr (n : nat) : string := String (ascii_of_nat n) "".
Definition DQUOTE : string := chr 34.
Definition BACKSLASH : string := chr 92.
Definition NEWLINE : string := chr 10.

Definition hex_digit (n : nat) : string :=
  nth n ["0"; "1"; "2"; "3"; "4"; "5"; "6"; "7"; "8"; "9";
         "a"; "b"; "c"; "d"; "e"; "f"] "0".

Definition quote_unit (c : ascii) : string :=
  let n := nat_of_ascii c in
  if (n =? 34)%nat then BACKSLASH ++ DQUOTE
  else if (n =? 92)%nat then BACKSLASH ++ BACKSLASH
  else if (n =? 8)%nat then BACKSLASH ++ "b"
  else if (n =? 12)%nat then BACKSLASH ++ "f"
  else if (n =? 10)%nat then BACKSLASH ++ "n"
  else if (n =? 13)%nat then BACKSLASH ++ "r"
  else if (n =? 9)%nat then BACKSLASH ++ "t"
  else if (n <? 32)%nat then
    BACKSLASH ++ "u00" ++ hex_digit (n / 16) ++ hex_digit (n mod 16)
  else String c "".

Fixpoint quote_units (s : string) : string :=
  match s with
  | EmptyString => ""
  | String c rest => quote_unit c ++ quote_units rest
  end.

Definition QuoteJSONString (s : string) : string :=
  DQUOTE ++ quote_units s ++ DQUOTE.

Fixpoint join_with (sep : string) (parts : list string) : string :=
  match parts with
  | [] => ""
  | [p] => p
  | p :: rest => p ++ sep ++ join_with sep rest
  end.

(** Brackets around the serialized members, with or without a gap. *)
Definition wrap (opening closing gap indent : string) (parts : list string)
  : string :=
  match parts with
  | [] => opening ++ closing
  | _ =>
      if gap =? "" then opening ++ join_with "," parts ++ closing
      else
        let stepped := indent ++ gap in
        opening ++ NEWLINE ++ stepped
        ++ join_with ("," ++ NEWLINE ++ stepped) parts
        ++ NEWLINE ++ indent ++ closing
  end.

(** [SerializeJSONProperty]: [None] stands for [undefined], which an
    object omits and an array prints as [null]. *)
Fixpoint serialize (gap indent : string) (v : value) {struct v} : option string :=
  match v with
  | VUndef => None
  | Prim (PString s) => Some (QuoteJSONString s)
  | Prim p => Some (prim_to_string p)
  | VArr items =>
      Some (wrap "[" "]" gap indent
              (map (fun x =>
                      match serialize gap (indent ++ gap) x with
                      | Some s => s
                      | None => "null"
                      end) items))
  | VObj fields =>
      Some (wrap "{" "}" gap indent
              (flat_map (fun kv =>
                           match serialize gap (indent ++ gap) (snd kv) with
                           | Some s =>
                               [QuoteJSONString (fst kv)
                                ++ (if gap =? "" then ":" else ": ") ++ s]
                           | None => []
                           end) fields))
  end.

Fixpoint spaces (n : nat) : string :=
  match n with
  | O => ""
  | S m => " " ++ spaces m
  end.

(** [JSON.stringify(v, null, space)] for a numeric [space]. *)
Definition JSON_stringify (v : value) (space : nat) : option string :=
  serialize (spaces (Nat.min 10 space)) "" v.

End JS.

Import JS.

(* ------------------------------------------------------------------------- *)
(** ** The remote call client as the handlers see it ([handlers.ts]) *)
(* ------------------------------------------------------------------------- *)

(** One invocation [callApi(endpoint, method, body)]; an omitted [method]
    is [None], an omitted [body] is [undefined]. *)
Record call : Type := mkCall {
  endpoint : string;
  method : option string;
  body : value
}.

(** [interface ApiClient]: whatever stands behind it has a state of type
    [World]; a rejected promise is a [Throw]. *)
Record ApiClient (World : Type) : Type := mkApiClient {
  callApi : string -> option string -> value -> World -> outcome value * World
}.
Arguments callApi {World} _ _ _ _ _.
Arguments mkApiClient {World} _.

(** Handlers run in a state-and-exception monad.  The state carries the
    world behind the client and a journal of the calls issued so far (the
    journal is how the statements below speak of "no remote call"). *)
Record state (World : Type) : Type := mkState {
  world : World;
  calls : list call
}.
Arguments mkState {World} _ _.
Arguments world {World} _.
Arguments calls {World} _.

Definition M (World A : Type) : Type := state World -> outcome A * state World.

Definition ret {W A} (a : A) : M W A := fun s => (Return a, s).

Definition raise {W A} (e : thrown) : M W A := fun s => (Throw e, s).

Definition bind {W A B} (m : M W A) (k : A -> M W B) : M W B :=
  fun s =>
    match m s with
    | (Return a, s') => k a s'
    | (Throw e, s') => (Throw e, s')
    end.

Definition lift {W A} (o : outcome A) : M W A := fun s => (o, s).

(** [try { body } catch (error) { handler }]. *)
Definition try_catch {W A} (m : M W A) (h : thrown -> M W A) : M W A :=
  fun s =>
    match m s with
    | (Return a, s') => (Return a, s')
    | (Throw e, s') => h e s'
    end.

Declare Scope js_scope.
Delimit Scope js_scope with js.
Notation "x <- m ;; k" := (bind m (fun x => k))
  (at level 61, m at next level, right associativity) : js_scope.
Notation "m ;;; k" := (bind m (fun _ => k))
  (at level 61, right associativity) : js_scope.
Notation "'new_Error' msg" := (ErrorObject msg) (at level 10) : js_scope.
Open Scope js_scope.

(** [await apiClient.callApi(endpoint, method, body)], journalled. *)
Definition await_callApi {W} (apiClient : ApiClient W)
  (endpoint : string) (method : option string) (body : value) : M W value :=
  fun s =>
    let (r, w') := callApi apiClient endpoint method body (world s) in
    (r, mkState w' (calls s ++ [mkCall endpoint method body])).

(** An object literal [{ k1: e1, k2: e2, ... }]: members are evaluated
    in order and the first one that throws aborts the literal. *)
Fixpoint literal (members : list (string * outcome value))
  : outcome (list (string * value)) :=
  match members with
  | [] => Return []
  | (k, e) :: rest =>
      obind e (fun v =>
      obind (literal rest) (fun vs => Return ((k, v) :: vs)))
  end.

Definition object (members : list (string * outcome value)) : outcome value :=
  obind (literal members) (fun fs => Return (VObj fs)).

(** [args.k], [args.k || d], [args.k ?? d]. *)
Definition arg (args : value) (k : string) : outcome value := getProp args k.

Definition arg_or (args : value) (k : string) (d : value) : outcome value :=
  obind (getProp args k) (fun v => Return (or_else v d)).

Definition arg_coalesce (args : value) (k : string) (d : value) : outcome value :=
  obind (getProp args k) (fun v => Return (coalesce v d)).

(** The guard repeated at the head of the newer handlers:
[[
  if (!args.k || typeof args.k !== "string") {
    throw new Error("Required parameter 'k' must be a non-empty string");
  }
]] *)
Definition required_message (k : string) : string :=
  "Required parameter '" ++ k ++ "' must be a non-empty string".

Definition require_string {W} (args : value) (k : string) : M W unit :=
  v <- lift (getProp args k) ;;
  if negb (truthy v) || negb (typeof v =? "string")
  then raise (new_Error (required_message k))
  else ret tt.

(* ------------------------------------------------------------------------- *)
(** ** Tool handlers ([handlers.ts]) *)
(* ------------------------------------------------------------------------- *)

Notation "x <~ o ;; k" := (obind o (fun x => k))
  (at level 61, o at next level, right associativity) : js_scope.

(** Calling the method [name] on a receiver (read as the expression
    [expr]) that does not have it. *)
Definition no_method {A} (expr name : string) (recv : value) : outcome A :=
  match recv with
  | VUndef =>
      TypeError ("Cannot read properties of undefined (reading '" ++ name ++ "')")
  | VNull =>
      TypeError ("Cannot read properties of null (reading '" ++ name ++ "')")
  | _ => TypeError (expr ++ "." ++ name ++ " is not a function")
  end.

(** [recv.map((c, i) => f(c, i))] where [recv] was read as [expr]. *)
Fixpoint map_from {A} (f : A -> nat -> outcome value) (l : list A) (i : nat)
  : outcome (list value) :=
  match l with
  | [] => Return []
  | c :: rest =>
      y <~ f c i ;;
      ys <~ map_from f rest (S i) ;;
      Return (y :: ys)
  end.

Definition call_map (expr : string) (recv : value)
  (f : value -> nat -> outcome value) : outcome value :=
  match recv with
  | VArr items => ys <~ map_from f items 0 ;; Return (VArr ys)
  | _ => no_method expr "map" recv
  end.

(** The callback of [response.chunks.map] in [handleEmbed]:
[[
  (c, i) => ({
    index: i,
    text_preview: c.text.substring(0, 100) + (c.text.length > 100 ? "..." : ""),
    word_count: c.metadata.word_count,
    has_embedding: true,
  })
]]
    Once [substring] has succeeded [c.text] is a string, so its [length]
    is the number of its code units. *)
Definition text_preview (text : string) : string :=
  substring0 100 text ++ (if (100 <? String.length text)%nat then "..." else "").

Definition embed_chunk (c : value) (i : nat) : outcome value :=
  text <~ getProp c "text" ;;
  preview <~ match text with
             | VStr s => Return (text_preview s)
             | _ => no_method "c.text" "substring" text
             end ;;
  metadata <~ getProp c "metadata" ;;
  word_count <~ getProp metadata "word_count" ;;
  Return (VObj [("index", VNum (Z.of_nat i));
                ("text_preview", VStr preview);
                ("word_count", word_count);
                ("has_embedding", VBool true)]).

Definition EMBED_NOTE : string :=
  "Full embeddings available in API response. Use for vector database indexing.".

(** The object handed to [JSON.stringify(..., null, 2)] by [handleEmbed]. *)
Definition embed_document (response : value) : outcome value :=
  summary1 <~ getProp response "summary" ;;
  total_chunks <~ getProp summary1 "total_chunks" ;;
  s_total <~ ToString total_chunks ;;
  summary2 <~ getProp response "summary" ;;
  model <~ getProp summary2 "model" ;;
  s_model <~ ToString model ;;
  summary3 <~ getProp response "summary" ;;
  dimensions <~ getProp summary3 "dimensions" ;;
  chunks <~ getProp response "chunks" ;;
  mapped <~ call_map "response.chunks" chunks embed_chunk ;;
  usage <~ getProp response "usage" ;;
  Return (VObj [("summary",
                 VStr ("Generated " ++ s_total ++ " embedding(s) using " ++ s_model));
                ("dimensions", dimensions);
                ("chunks", mapped);
                ("usage", usage);
                ("note", VStr EMBED_NOTE)]).

(** [JSON.stringify] of a value known to be an object or an array is a
    string, never [undefined]. *)
Definition stringify (v : value) (space : nat) : string :=
  match JSON_stringify v space with
  | Some s => s
  | None => "undefined"
  end.

Definition render_embed (response : value) : outcome string :=
  doc <~ embed_document response ;;
  Return (stringify doc 2).

Definition embed_payload (args : value) : outcome value :=
  object [("text", arg args "text");
          ("model", arg_or args "model" (VStr "amazon.titan-embed-text-v2:0"));
          ("chunk_size", arg_or args "chunk_size" (VNum 512));
          ("chunk_overlap", arg_or args "chunk_overlap" (VNum 50))].

Definition handleEmbed {W} (args : value) (apiClient : ApiClient W) : M W string :=
  payload <- lift (embed_payload args) ;;
  result <- await_callApi apiClient "/embed" (Some "POST") payload ;;
  lift (render_embed result).

(** The operations of the registry, under the names the dispatcher
    switches on. *)
Inductive tool : Type :=
| s2t_embed | s2t_analyze_error_patterns | s2t_generate_cloudformation
| s2t_validate_oauth | s2t_generate_dynamodb_design
| s2t_check_data_lake_readiness | s2t_validate_iam_policy
| s2t_validate_mfa_compliance | s2t_validate_cli_readiness
| s2t_catalog | s2t_usage
| s2t_classify_action_risk | s2t_route_task_to_agent
| s2t_predict_system_issues | s2t_attempt_auto_recovery
| s2t_execute_with_resilience | s2t_manage_agent_memory
| s2t_submit_agent_task | s2t_create_trace_context | s2t_acquire_file_lock
| aci_classify_decision | aci_financial_gate | aci_compliance_check
| aci_route_domain | aci_parallel_review | aci_synthesize_reviews
| aci_log_decision | aci_recall_precedent | aci_record_outcome
| aci_estimate_blast_radius | aci_generate_rollback | aci_governance_health
| s2t_interview_create | s2t_interview_message | s2t_interview_summary
| s2t_interview_list.

Section Handlers.

Variable World : Type.

(** The text rendering that follows [const response = result as ...] in
    each handler other than [handleEmbed]: a function of the response
    alone, which returns the document or throws on a missing field. *)
Variable render : tool -> value -> outcome string.

(** The handlers that [server-setup.ts] imports and whose code is not at
    hand: the twelve [handleAci...], called with the arguments and the
    client, and the four [handleInterview...] of [local-handlers.ts],
    called with the arguments alone.  Any computation. *)
Variable aci_handler : tool -> value -> ApiClient World -> M World string.
Variable local_handler : tool -> value -> M World string.

Local Abbreviation Handler := (value -> ApiClient World -> M World string).

(** A handler of the common shape: guards, one call, rendering. *)
Definition guarded_call (t : tool) (args : value) (guards : list string)
  (endpoint : string) (method : string) (payload : outcome value)
  (apiClient : ApiClient World) : M World string :=
  fold_right (fun g k => require_string args g ;;; k)
    (body <- lift payload ;;
     result <- await_callApi apiClient endpoint (Some method) body ;;
     lift (render t result))
    guards.

Definition handleCloudFormation : Handler := fun args apiClient =>
  guarded_call s2t_generate_cloudformation args []
    "/generate/cloudformation" "POST"
    (object [("description", arg args "description");
             ("format", arg_or args "format" (VStr "sam"));
             ("include_parameters",
              arg_coalesce args "include_parameters" (VBool true));
             ("include_outputs",
              arg_coalesce args "include_outputs" (VBool true))])
    apiClient.

Definition handleOAuthValidate : Handler := fun args apiClient =>
  guarded_call s2t_validate_oauth args [] "/validate/oauth" "POST"
    (object [("provider", arg args "provider");
             ("client_id", arg args "client_id");
             ("redirect_uris", arg args "redirect_uris");
             ("scopes", arg args "scopes");
             ("token_endpoint", arg args "token_endpoint");
             ("authorization_endpoint", arg args "authorization_endpoint")])
    apiClient.

Definition handleCatalog (apiClient : ApiClient World) : M World string :=
  result <- await_callApi apiClient "/catalog" (Some "GET") VUndef ;;
  lift (render s2t_catalog result).

Definition handleUsage (apiClient : ApiClient World) : M World string :=
  result <- await_callApi apiClient "/usage" (Some "GET") VUndef ;;
  lift (render s2t_usage result).

Definition handleMfaCompliance : Handler := fun args apiClient =>
  guarded_call s2t_validate_mfa_compliance args []
    "/validate/mfa-compliance" "POST"
    (object [("users", arg args "users");
             ("root_account", arg args "root_account");
             ("policies", arg args "policies")])
    apiClient.

Definition handleDynamoDbDesign : Handler := fun args apiClient =>
  guarded_call s2t_generate_dynamodb_design args []
    "/generate/dynamodb-design" "POST"
    (object [("entities", arg args "entities");
             ("access_patterns", arg args "access_patterns");
             ("options", arg args "options")])
    apiClient.

Definition handleErrorPatterns : Handler := fun args apiClient =>
  guarded_call s2t_analyze_error_patterns args []
    "/analyze/error-patterns" "POST"
    (object [("errors", arg args "errors");
             ("include_ai_analysis",
              arg_coalesce args "include_ai_analysis" (VBool true))])
    apiClient.

Definition handleDataLakeReadiness : Handler := fun args apiClient =>
  guarded_call s2t_check_data_lake_readiness args []
    "/check/data-lake-readiness" "POST"
    (object [("storage", arg args "storage");
             ("catalog", arg args "catalog");
             ("security", arg args "security");
             ("performance", arg args "performance");
             ("operations", arg args "operations")])
    apiClient.

Definition handleIamPolicyValidate : Handler := fun args apiClient =>
  guarded_call s2t_validate_iam_policy args [] "/validate/iam-policy" "POST"
    (object [("policy_document", arg args "policy_document");
             ("resource_type", arg_or args "resource_type" (VStr "general"));
             ("suggest_improvements",
              arg_coalesce args "suggest_improvements" (VBool true))])
    apiClient.

Definition handleRiskClassify : Handler := fun args apiClient =>
guarded_call s2t_classify_action_risk args ["action"]
  "/accelerators/risk/classify" "POST"
  (object [("action", arg args "action");
           ("environment", arg_or args "environment" (VStr "local"));
           ("context", arg_or args "context" (VStr "development"))])
  apiClient.

Definition handleTaskRouting : Handler := fun args apiClient =>
guarded_call s2t_route_task_to_agent args ["task_description"]
  "/accelerators/agent/route" "POST"
  (object [("task_description", arg args "task_description");
           ("top_k", arg_or args "top_k" (VNum 5));
           ("include_capabilities",
            arg_coalesce args "include_capabilities" (VBool true))])
  apiClient.

Definition handlePredictIssues : Handler := fun args apiClient =>
guarded_call s2t_predict_system_issues args []
  "/accelerators/predict/issues" "POST"
  (object [("system_state", arg args "system_state");
           ("analysis_window_days",
            arg_or args "analysis_window_days" (VNum 30))])
  apiClient.

Definition handleAutoRecovery : Handler := fun args apiClient =>
guarded_call s2t_attempt_auto_recovery args ["error_message"]
  "/accelerators/recovery/attempt" "POST"
  (object [("error_message", arg args "error_message");
           ("error_source", arg args "error_source");
           ("stack_trace", arg args "stack_trace");
           ("auto_execute", arg_coalesce args "auto_execute" (VBool false))])
  apiClient.

Definition handleResilienceExecute : Handler := fun args apiClient =>
guarded_call s2t_execute_with_resilience args ["operation_id"]
  "/accelerators/resilience/execute" "POST"
  (object [("operation_id", arg args "operation_id");
           ("max_retries", arg_or args "max_retries" (VNum 3));
           ("base_delay_ms", arg_or args "base_delay_ms" (VNum 1000));
           ("circuit_breaker_threshold",
            arg_or args "circuit_breaker_threshold" (VNum 5))])
  apiClient.

Definition handleAgentMemory : Handler := fun args apiClient =>
guarded_call s2t_manage_agent_memory args ["operation"; "agent_id"]
  "/accelerators/agent/memory" "POST"
  (object [("operation", arg args "operation");
           ("agent_id", arg args "agent_id");
           ("key", arg args "key");
           ("value", arg args "value");
           ("namespace", arg_or args "namespace" (VStr "default"));
           ("search_query", arg args "search_query")])
  apiClient.

Definition handleAgentTask : Handler := fun args apiClient =>
guarded_call s2t_submit_agent_task args ["agent_id"; "prompt"]
  "/accelerators/agent/task" "POST"
  (object [("agent_id", arg args "agent_id");
           ("prompt", arg args "prompt");
           ("priority", arg_or args "priority" (VStr "normal"));
           ("trace_id", arg args "trace_id")])
  apiClient.

Definition handleTraceContext : Handler := fun args apiClient =>
guarded_call s2t_create_trace_context args []
  "/accelerators/trace/create" "POST"
  (object [("parent_traceparent", arg args "parent_traceparent");
           ("service_name", arg_or args "service_name" (VStr "s2t-agent"))])
  apiClient.

Definition handleFileLock : Handler := fun args apiClient =>
guarded_call s2t_acquire_file_lock args ["file_path"]
  "/accelerators/lock/acquire" "POST"
  (object [("file_path", arg args "file_path");
           ("operation", arg_or args "operation" (VStr "acquire"));
           ("lock_token", arg args "lock_token");
           ("timeout_ms", arg_or args "timeout_ms" (VNum 5000))])
  apiClient.

Definition handleCliReadiness : Handler := fun args apiClient =>
guarded_call s2t_validate_cli_readiness args []
  "/accelerators/cli/validate" "POST"
  (object [("cli_tools", arg_or args "cli_tools" (VArr [VStr "codex"]));
           ("validate_api_keys",
            arg_coalesce args "validate_api_keys" (VBool true))])
  apiClient.

(* ------------------------------------------------------------------------- *)
(** ** The dispatcher ([createMcpServer] in [server-setup.ts]) *)
(* ------------------------------------------------------------------------- *)

(** The [case] labels of the [switch (name)], in source order. *)
Definition SWITCH : list (string * tool) :=
  [("s2t_embed", s2t_embed);
   ("s2t_generate_cloudformation", s2t_generate_cloudformation);
   ("s2t_validate_oauth", s2t_validate_oauth);
   ("s2t_validate_iam_policy", s2t_validate_iam_policy);
   ("s2t_validate_mfa_compliance", s2t_validate_mfa_compliance);
   ("s2t_generate_dynamodb_design", s2t_generate_dynamodb_design);
   ("s2t_analyze_error_patterns", s2t_analyze_error_patterns);
   ("s2t_check_data_lake_readiness", s2t_check_data_lake_readiness);
   ("s2t_catalog", s2t_catalog);
   ("s2t_usage", s2t_usage);
   ("s2t_classify_action_risk", s2t_classify_action_risk);
   ("s2t_route_task_to_agent", s2t_route_task_to_agent);
   ("s2t_predict_system_issues", s2t_predict_system_issues);
   ("s2t_attempt_auto_recovery", s2t_attempt_auto_recovery);
   ("s2t_execute_with_resilience", s2t_execute_with_resilience);
   ("s2t_manage_agent_memory", s2t_manage_agent_memory);
   ("s2t_submit_agent_task", s2t_submit_agent_task);
   ("s2t_create_trace_context", s2t_create_trace_context);
   ("s2t_acquire_file_lock", s2t_acquire_file_lock);
   ("s2t_validate_cli_readiness", s2t_validate_cli_readiness);
   ("aci_classify_decision", aci_classify_decision);
   ("aci_financial_gate", aci_financial_gate);
   ("aci_compliance_check", aci_compliance_check);
   ("aci_route_domain", aci_route_domain);
   ("aci_parallel_review", aci_parallel_review);
   ("aci_synthesize_reviews", aci_synthesize_reviews);
   ("aci_log_decision", aci_log_decision);
   ("aci_recall_precedent", aci_recall_precedent);
   ("aci_record_outcome", aci_record_outcome);
   ("aci_estimate_blast_radius", aci_estimate_blast_radius);
   ("aci_generate_rollback", aci_generate_rollback);
   ("aci_governance_health", aci_governance_health);
   ("s2t_interview_create", s2t_interview_create);
   ("s2t_interview_message", s2t_interview_message);
   ("s2t_interview_summary", s2t_interview_summary);
   ("s2t_interview_list", s2t_interview_list)].

(** The first label equal to [name] (strict equality on strings). *)
Fixpoint matching_case (cases : list (string * tool)) (name : string)
  : option tool :=
  match cases with
  | [] => None
  | (label, t) :: rest =>
      if name =? label then Some t else matching_case rest name
  end.

(** The statement run under a label. *)
Definition case_body (t : tool) (args : value) (apiClient : ApiClient World)
  : M World string :=
  match t with
  | s2t_embed => handleEmbed args apiClient
  | s2t_generate_cloudformation => handleCloudFormation args apiClient
  | s2t_validate_oauth => handleOAuthValidate args apiClient
  | s2t_validate_iam_policy => handleIamPolicyValidate args apiClient
  | s2t_validate_mfa_compliance => handleMfaCompliance args apiClient
  | s2t_generate_dynamodb_design => handleDynamoDbDesign args apiClient
  | s2t_analyze_error_patterns => handleErrorPatterns args apiClient
  | s2t_check_data_lake_readiness => handleDataLakeReadiness args apiClient
  | s2t_catalog => handleCatalog apiClient
  | s2t_usage => handleUsage apiClient
  | s2t_classify_action_risk => handleRiskClassify args apiClient
  | s2t_route_task_to_agent => handleTaskRouting args apiClient
  | s2t_predict_system_issues => handlePredictIssues args apiClient
  | s2t_attempt_auto_recovery => handleAutoRecovery args apiClient
  | s2t_execute_with_resilience => handleResilienceExecute args apiClient
  | s2t_manage_agent_memory => handleAgentMemory args apiClient
  | s2t_submit_agent_task => handleAgentTask args apiClient
  | s2t_create_trace_context => handleTraceContext args apiClient
  | s2t_acquire_file_lock => handleFileLock args apiClient
  | s2t_validate_cli_readiness => handleCliReadiness args apiClient
  | aci_classify_decision | aci_financial_gate | aci_compliance_check
  | aci_route_domain | aci_parallel_review | aci_synthesize_reviews
  | aci_log_decision | aci_recall_precedent | aci_record_outcome
  | aci_estimate_blast_radius | aci_generate_rollback
  | aci_governance_health => aci_handler t args apiClient
  | s2t_interview_create | s2t_interview_message | s2t_interview_summary
  | s2t_interview_list => local_handler t args
  end.

(** [switch (name) { ... default: throw new Error(`Unknown tool: ${name}`) }] *)
Definition switch_name (name : string) (args : value)
  (apiClient : ApiClient World) : M World string :=
  match matching_case SWITCH name with
  | Some t => case_body t args apiClient
  | None => raise (new_Error ("Unknown tool: " ++ name))
  end.

Record TextContent : Type := mkText { type : string; text : string }.

Record CallResult : Type := mkResult {
  content : list TextContent;
  isError : option bool
}.

(** [error instanceof Error ? error.message : String(error)] *)
Definition errorMessage (error : thrown) : string :=
  match error with
  | ErrorObject message => message
  | ThrownPrimitive p => String_ p
  end.

(** The request handler registered for [CallToolRequestSchema], applied
    to [request.params = { name, arguments: args }]. *)
Definition callTool (name : string) (args : value)
  (apiClient : ApiClient World) : M World CallResult :=
  try_catch
    (result <- switch_name name args apiClient ;;
     ret (mkResult [mkText "text" result] None))
    (fun error =>
       ret (mkResult [mkText "text" ("Error: " ++ errorMessage error)]
              (Some true))).

End Handlers.

Arguments guarded_call {World}.
Arguments handleCloudFormation {World}.
Arguments handleOAuthValidate {World}.
Arguments handleCatalog {World}.
Arguments handleUsage {World}.
Arguments handleMfaCompliance {World}.
Arguments handleDynamoDbDesign {World}.
Arguments handleErrorPatterns {World}.
Arguments handleDataLakeReadiness {World}.
Arguments handleIamPolicyValidate {World}.
Arguments handleRiskClassify {World}.
Arguments handleTaskRouting {World}.
Arguments handlePredictIssues {World}.
Arguments handleAutoRecovery {World}.
Arguments handleResilienceExecute {World}.
Arguments handleAgentMemory {World}.
Arguments handleAgentTask {World}.
Arguments handleTraceContext {World}.
Arguments handleFileLock {World}.
Arguments handleCliReadiness {World}.
Arguments case_body {World}.
Arguments switch_name {World}.
Arguments callTool {World}.

(* ------------------------------------------------------------------------- *)
(** ** The remote call client ([createApiClient] in [server-setup.ts]) *)
(* ------------------------------------------------------------------------- *)

(** What [fetch(url, options)] is given. *)
Record RequestInit : Type := mkRequestInit {
  url : string;
  init_method : string;
  headers : list (string * string);
  init_body : option string
}.

(** What the code reads off a [Response]: [ok], [status] and the result
    of [json()] (a rejected promise when the body is not JSON). *)
Record Response : Type := mkResponse {
  ok : bool;
  status : Z;
  json : outcome value
}.

Section ApiClientFactory.

(** The network and its state; a [Throw] is a failed [fetch]. *)
Variable Net : Type.
Variable fetch : RequestInit -> Net -> outcome Response * Net.

(** [(data).error?.message || `API error: ${response.status}`] *)
Definition failure_message (data : value) (status : Z) : outcome value :=
  error <~ getProp data "error" ;;
  message <~ getPropOpt error "message" ;;
  Return (or_else message (VStr ("API error: " ++ string_of_Z status))).

(** The [options] handed to [fetch], with the [url]. *)
Definition request_options (baseUrl apiKey endpoint : string)
  (method : option string) (body : value) : RequestInit :=
  mkRequestInit (baseUrl ++ endpoint)
    (match method with Some m => m | None => "GET" end)
    [("X-S2T-API-Key", apiKey); ("Content-Type", "application/json")]
    (if truthy body then JSON_stringify body 0 else None).

(** What [callApi] does with the response. *)
Definition settle (response : Response) : outcome value :=
  data <~ json response ;;
  if negb (ok response) then
    m <~ failure_message data (status response) ;;
    message <~ ToString m ;;
    Throw (new_Error message)
  else Return data.

Definition createApiClient (baseUrl apiKey : string) : ApiClient Net :=
  mkApiClient (fun endpoint method body net =>
    match fetch (request_options baseUrl apiKey endpoint method body) net with
    | (Throw e, net') => (Throw e, net')
    | (Return response, net') => (settle response, net')
    end).

End ApiClientFactory.

Arguments createApiClient {Net}.

(* ------------------------------------------------------------------------- *)
(** ** The operation registry ([TOOLS] in [server-setup.ts]) *)
(* ------------------------------------------------------------------------- *)

(** Of each descriptor, its [name] and [inputSchema.required]. *)
Record Tool : Type := mkTool {
  name : string;
  required : list string
}.

Definition TOOLS : list Tool :=
  [mkTool "s2t_embed" ["text"];
   mkTool "s2t_analyze_error_patterns" ["errors"];
   mkTool "s2t_generate_cloudformation" ["description"];
   mkTool "s2t_validate_oauth" ["provider"; "client_id"; "redirect_uris"; "scopes"];
   mkTool "s2t_generate_dynamodb_design" ["entities"; "access_patterns"];
   mkTool "s2t_check_data_lake_readiness" [];
   mkTool "s2t_validate_iam_policy" ["policy_document"];
   mkTool "s2t_validate_mfa_compliance" [];
   mkTool "s2t_validate_cli_readiness" [];
   mkTool "s2t_catalog" [];
   mkTool "s2t_usage" [];
   mkTool "s2t_classify_action_risk" ["action"];
   mkTool "s2t_route_task_to_agent" ["task_description"];
   mkTool "s2t_predict_system_issues" [];
   mkTool "s2t_attempt_auto_recovery" ["error_message"];
   mkTool "s2t_execute_with_resilience" ["operation_id"];
   mkTool "s2t_manage_agent_memory" ["operation"; "agent_id"];
   mkTool "s2t_submit_agent_task" ["agent_id"; "prompt"];
   mkTool "s2t_create_trace_context" [];
   mkTool "s2t_acquire_file_lock" ["file_path"];
   mkTool "aci_classify_decision" ["action"];
   mkTool "aci_financial_gate" ["action"];
   mkTool "aci_compliance_check" ["action"];
   mkTool "aci_route_domain" ["task_description"];
   mkTool "aci_parallel_review" ["action"; "reviewers"];
   mkTool "aci_synthesize_reviews" ["review_session_id"; "reviews"];
   mkTool "aci_log_decision" ["action"; "classification"; "reasoning"];
   mkTool "aci_recall_precedent" ["query"];
   mkTool "aci_record_outcome" ["decision_id"; "outcome"];
   mkTool "aci_estimate_blast_radius" ["action"];
   mkTool "aci_generate_rollback" ["action"];
   mkTool "aci_governance_health" [];
   mkTool "s2t_interview_create" ["customer_name"; "stakeholder_name"];
   mkTool "s2t_interview_message" ["token"; "message"];
   mkTool "s2t_interview_summary" ["token"];
   mkTool "s2t_interview_list" []].

(** [TOOLS.find((t) => t.name === n)?.inputSchema.required] *)
Definition required_of (n : string) : list string :=
  match find (fun t => name t =? n) TOOLS with
  | Some t => required t
  | None => []
  end.

(* ------------------------------------------------------------------------- *)
(** ** The HTTP entry point ([http-server.ts]) *)
(* ------------------------------------------------------------------------- *)

Module HttpServer.

(** *** [Map<string, V>]

    A [Map] is its list of entries in insertion order; [delete] empties
    the entry it finds and leaves the slot in place, which is what lets a
    running [for ... of] go on after a deletion. *)
Section MapModel.

Variable V : Type.

Definition Map : Type := list (option (string * V)).

Definition entries (m : Map) : list (string * V) :=
  flat_map (fun slot => match slot with Some e => [e] | None => [] end) m.

Definition size (m : Map) : nat := List.length (entries m).

Fixpoint map_get (k : string) (m : Map) : option V :=
  match m with
  | [] => None
  | Some (k', v) :: rest => if k' =? k then Some v else map_get k rest
  | None :: rest => map_get k rest
  end.

Definition map_has (k : string) (m : Map) : bool :=
  match map_get k m with Some _ => true | None => false end.

Fixpoint map_set (k : string) (v : V) (m : Map) : Map :=
  match m with
  | [] => [Some (k, v)]
  | Some (k', v') :: rest =>
      if k' =? k then Some (k, v) :: rest
      else Some (k', v') :: map_set k v rest
  | None :: rest => None :: map_set k v rest
  end.

Fixpoint map_delete (k : string) (m : Map) : Map :=
  match m with
  | [] => []
  | Some (k', v) :: rest =>
      if k' =? k then None :: rest else Some (k', v) :: map_delete k rest
  | None :: rest => None :: map_delete k rest
  end.

Definition map_clear (m : Map) : Map := [].

End MapModel.

Arguments entries {V} m.
Arguments size {V} m.
Arguments map_get {V} k m.
Arguments map_has {V} k m.
Arguments map_set {V} k v m.
Arguments map_delete {V} k m.
Arguments map_clear {V} m.

(** *** CORS *)

(** [s.split(",")]. *)
Fixpoint split_commas (current : string) (s : string) : list string :=
  match s with
  | EmptyString => [current]
  | String c rest =>
      if Ascii.eqb c ","%char then current :: split_commas "" rest
      else split_commas (current ++ String c "") rest
  end.

(** [new Set((process.env.S2T_CORS_ORIGINS || "").split(",").filter(Boolean))],
    as the list of its members. *)
Definition ALLOWED_ORIGINS (S2T_CORS_ORIGINS : option string) : list string :=
  let configured :=
    match S2T_CORS_ORIGINS with
    | Some s => if s =? "" then "" else s
    | None => ""
    end in
  filter (fun o => negb (o =? "")) (split_commas "" configured).

Definition set_has (x : string) (members : list string) : bool :=
  existsb (fun y => y =? x) members.

(** [s.endsWith(suffix)]. *)
Definition endsWith (s suffix : string) : bool :=
  let n := String.length s in
  let k := String.length suffix in
  (k <=? n)%nat && (String.substring (n - k) k s =? suffix).

(** *** Requests, replies, server state *)

(** What the routes read off an Express [Request]; [payload] is
    [req.body] as parsed by [express.json()]. *)
Record Request : Type := mkRequest {
  http_method : string;
  path : string;
  origin : option string;
  mcp_session_id : option string;
  query_sessionId : option string;
  payload : value
}.

(** How a route answers. *)
Inductive Reply : Type :=
| Json (status : Z) (doc : value)
| NoContent
| Delegated (transport : nat)
| Failed (e : thrown)
| Unrouted.

Inductive completion : Type :=
| Resolved
| Rejected (e : thrown).

(** The callbacks a streamable transport makes into this file while it
    handles a request: [sessionIdGenerator] followed by
    [onsessioninitialized], and [onclose]. *)
Inductive callback : Type :=
| SessionInitialized
| Closed.

(** Calls made into the SDK, kept as a trace. *)
Inductive sdk_call : Type :=
| CallConnect (transport : nat)
| CallHandleRequest (transport : nat)
| CallHandlePostMessage (transport : nat)
| CallClose (transport : nat).

Record LogEntry : Type := mkLog {
  level : string;
  message : string;
  meta : list (string * string);
  cause : option thrown
}.

Definition SERVER_NAME : string := "s2t-accelerators".
Definition SERVER_VERSION : string := "1.4.2".

(** A non-empty header or query value ([if (sessionId)]). *)
Definition present (o : option string) : bool :=
  match o with
  | Some s => negb (s =? "")
  | None => false
  end.

Definition or_empty (o : option string) : string :=
  match o with Some s => s | None => "" end.

Section Server.

(** [process.env.S2T_CORS_ORIGINS]. *)
Variable S2T_CORS_ORIGINS : option string.

(** [new URL(origin).hostname]; [None] when the constructor throws. *)
Variable URL_hostname : string -> option string.

(** Everything outside this file: the SDK's transports and servers, the
    clock. *)
Variable Runtime : Type.
Variable isInitializeRequest : value -> bool.
Variable uuid : nat -> string.
Variable connect : nat -> Runtime -> completion * Runtime.
Variable handleRequest :
  nat -> Request -> Runtime -> list callback * completion * Runtime.
Variable close : nat -> Runtime -> bool * completion * Runtime.
Variable sse_sessionId : nat -> Runtime -> string.
Variable handlePostMessage : nat -> Request -> Runtime -> completion * Runtime.
Variable process_uptime : Runtime -> Z.

(** Module-level state.  A transport object is known by the rank of its
    construction ([allocated] counts them), [drawn] counts the calls to
    [randomUUID]. *)
Record Server : Type := mkServer {
  streamableTransports : Map nat;
  sseTransports : Map nat;
  allocated : nat;
  drawn : nat;
  runtime : Runtime;
  journal : list LogEntry;
  sdk_calls : list sdk_call;
  listening : bool
}.

Definition with_streamable (m : Map nat) (s : Server) : Server :=
  mkServer m (sseTransports s) (allocated s) (drawn s) (runtime s)
    (journal s) (sdk_calls s) (listening s).

Definition with_sse (m : Map nat) (s : Server) : Server :=
  mkServer (streamableTransports s) m (allocated s) (drawn s) (runtime s)
    (journal s) (sdk_calls s) (listening s).

Definition with_runtime (r : Runtime) (s : Server) : Server :=
  mkServer (streamableTransports s) (sseTransports s) (allocated s) (drawn s)
    r (journal s) (sdk_calls s) (listening s).

Definition with_listening (b : bool) (s : Server) : Server :=
  mkServer (streamableTransports s) (sseTransports s) (allocated s) (drawn s)
    (runtime s) (journal s) (sdk_calls s) b.

(** [new ...Transport(...)]: the fresh object's identity. *)
Definition construct (s : Server) : nat * Server :=
  (allocated s,
   mkServer (streamableTransports s) (sseTransports s) (S (allocated s))
     (drawn s) (runtime s) (journal s) (sdk_calls s) (listening s)).

Definition randomUUID (s : Server) : string * Server :=
  (uuid (drawn s),
   mkServer (streamableTransports s) (sseTransports s) (allocated s)
     (S (drawn s)) (runtime s) (journal s) (sdk_calls s) (listening s)).

Definition log (lvl msg : string) (m : list (string * string))
  (c : option thrown) (s : Server) : Server :=
  mkServer (streamableTransports s) (sseTransports s) (allocated s) (drawn s)
    (runtime s) (journal s ++ [mkLog lvl msg m c]) (sdk_calls s) (listening s).

Definition record_call (c : sdk_call) (s : Server) : Server :=
  mkServer (streamableTransports s) (sseTransports s) (allocated s) (drawn s)
    (runtime s) (journal s) (sdk_calls s ++ [c]) (listening s).

(** *** CORS middleware *)

Definition isOriginAllowed (origin : option string) : bool :=
  if negb (present origin) then true
  else if (List.length (ALLOWED_ORIGINS S2T_CORS_ORIGINS) =? 0)%nat then true
  else if set_has (or_empty origin) (ALLOWED_ORIGINS S2T_CORS_ORIGINS) then true
  else
    match URL_hostname (or_empty origin) with
    | Some hostname =>
        (hostname =? "s2tconsulting.com")
        || endsWith hostname ".s2tconsulting.com"
    | None => false
    end.

(** The headers set by the first [app.use]. *)
Definition cors_headers (req : Request) : list (string * string) :=
  (if isOriginAllowed (origin req)
   then [("Access-Control-Allow-Origin",
          if present (origin req) then or_empty (origin req) else "*")]
   else [])
  ++ [("Access-Control-Allow-Methods", "GET, POST, DELETE, OPTIONS");
      ("Access-Control-Allow-Headers",
       "Content-Type, Accept, Mcp-Session-Id, Last-Event-ID, X-S2T-API-Key");
      ("Access-Control-Expose-Headers", "Mcp-Session-Id");
      ("Vary", "Origin")].

(** *** Streamable HTTP sessions *)

(** [onsessioninitialized: (newSessionId) => { ... }] of the transport
    [transport], called with the identifier that [sessionIdGenerator]
    ([randomUUID]) has just produced. *)
Definition onsessioninitialized (transport : nat) (s : Server) : Server :=
  let (newSessionId, s1) := randomUUID s in
  log "info" "Streamable HTTP session created" [("sessionId", newSessionId)] None
    (with_streamable (map_set newSessionId transport (streamableTransports s1)) s1).

(** [Array.from(streamableTransports.entries()).find(([, t]) => t === transport)?.[0]] *)
Definition find_sid (transport : nat) (m : Map nat) : option string :=
  option_map fst (find (fun e => (snd e =? transport)%nat) (entries m)).

(** [transport.onclose = () => { ... }] *)
Definition onclose (transport : nat) (s : Server) : Server :=
  if present (find_sid transport (streamableTransports s)) then
    let sid := or_empty (find_sid transport (streamableTransports s)) in
    log "info" "Streamable HTTP session closed" [("sessionId", sid)] None
      (with_streamable (map_delete sid (streamableTransports s)) s)
  else s.

Definition run_callback (transport : nat) (s : Server) (c : callback) : Server :=
  match c with
  | SessionInitialized => onsessioninitialized transport s
  | Closed => onclose transport s
  end.

(** [await transport.handleRequest(req, res, ...)]: the SDK writes the
    response, calling back into this file as it goes. *)
Definition delegate (transport : nat) (req : Request) (s : Server)
  : completion * Server :=
  let '(callbacks, c, rt) := handleRequest transport req (runtime s) in
  (c, fold_left (run_callback transport) callbacks
        (record_call (CallHandleRequest transport) (with_runtime rt s))).

Definition reply_of (transport : nat) (c : completion) : Reply :=
  match c with
  | Resolved => Delegated transport
  | Rejected e => Failed e
  end.

Definition jsonrpc_error (msg : string) : value :=
  VObj [("jsonrpc", VStr "2.0");
        ("error", VObj [("code", VNum (-32000)); ("message", VStr msg)]);
        ("id", VNull)].

Definition NO_VALID_SESSION : value :=
  jsonrpc_error "Bad request: no valid session. Send an initialize request first.".

Definition INVALID_SESSION : value :=
  jsonrpc_error "Bad request: invalid or missing session ID.".

(** The transport stored under a non-empty session header. *)
Definition session_of (req : Request) (s : Server) : option nat :=
  if present (mcp_session_id req)
  then map_get (or_empty (mcp_session_id req)) (streamableTransports s)
  else None.

(** [app.post("/mcp", ...)] *)
Definition post_mcp (req : Request) (s : Server) : Reply * Server :=
  match session_of req s with
  | Some transport =>
      let (c, s') := delegate transport req s in (reply_of transport c, s')
  | None =>
      if negb (present (mcp_session_id req)) && isInitializeRequest (payload req)
      then
        let (transport, s1) := construct s in
        let (connected, rt) := connect transport (runtime s1) in
        let s2 := record_call (CallConnect transport) (with_runtime rt s1) in
        match connected with
        | Rejected e => (Failed e, s2)
        | Resolved =>
            let (c, s') := delegate transport req s2 in
            (reply_of transport c, s')
        end
      else (Json 400 NO_VALID_SESSION, s)
  end.

(** [app.get("/mcp", ...)] *)
Definition get_mcp (req : Request) (s : Server) : Reply * Server :=
  match session_of req s with
  | None => (Json 400 INVALID_SESSION, s)
  | Some transport =>
      let (c, s') := delegate transport req s in (reply_of transport c, s')
  end.

(** [app.delete("/mcp", ...)] *)
Definition delete_mcp (req : Request) (s : Server) : Reply * Server :=
  match session_of req s with
  | None => (Json 400 INVALID_SESSION, s)
  | Some transport =>
      let (c, s1) := delegate transport req s in
      match c with
      | Rejected e => (Failed e, s1)
      | Resolved =>
          let sessionId := or_empty (mcp_session_id req) in
          (Delegated transport,
           log "info" "Streamable HTTP session terminated via DELETE"
             [("sessionId", sessionId)] None
             (with_streamable (map_delete sessionId (streamableTransports s1)) s1))
      end
  end.

(** *** Legacy SSE *)

(** [app.get("/sse", ...)] *)
Definition get_sse (req : Request) (s : Server) : Reply * Server :=
  let (connectionId, s1) := randomUUID s in
  let s2 := log "info" "Legacy SSE connection opening"
              [("connectionId", connectionId)] None s1 in
  let (transport, s3) := construct s2 in
  let s4 := with_sse (map_set connectionId transport (sseTransports s3)) s3 in
  let (connected, rt) := connect transport (runtime s4) in
  (reply_of transport connected,
   record_call (CallConnect transport) (with_runtime rt s4)).

(** [res.on("close", () => { ... })] of the stream opened under
    [connectionId]. *)
Definition on_res_close (connectionId : string) (s : Server) : Server :=
  log "info" "Legacy SSE connection closed" [("connectionId", connectionId)] None
    (with_sse (map_delete connectionId (sseTransports s)) s).

(** [app.post("/messages", ...)] *)
Definition post_messages (req : Request) (s : Server) : Reply * Server :=
  if negb (present (query_sessionId req)) then
    (Json 400 (VObj [("error", VStr "Missing sessionId query parameter")]), s)
  else
    match find (fun e => sse_sessionId (snd e) (runtime s)
                         =? or_empty (query_sessionId req))
               (entries (sseTransports s)) with
    | None =>
        (Json 404
           (VObj [("error", VStr "Session not found. Connect via GET /sse first.")]),
         s)
    | Some (_, matched) =>
        let (c, rt) := handlePostMessage matched req (runtime s) in
        (reply_of matched c,
         record_call (CallHandlePostMessage matched) (with_runtime rt s))
    end.

(** [app.get("/health", ...)] *)
Definition get_health (s : Server) : Reply * Server :=
  (Json 200
     (VObj [("status", VStr "ok");
            ("server", VStr SERVER_NAME);
            ("version", VStr SERVER_VERSION);
            ("transport", VObj [("streamableHttp", VBool true);
                                ("legacySse", VBool true)]);
            ("sessions",
             VObj [("streamable", VNum (Z.of_nat (size (streamableTransports s))));
                   ("sse", VNum (Z.of_nat (size (sseTransports s))))]);
            ("uptime", VNum (process_uptime (runtime s)))]),
   s).

(** The methods an [app.get(...)] route answers: Express runs the
    handler for GET and, no route being registered for HEAD, for HEAD as
    well. *)
Definition app_get (m : string) : bool := (m =? "GET") || (m =? "HEAD").

(** The routes, matched on method and (normalised) path. *)
Definition route (req : Request) (s : Server) : Reply * Server :=
  let m := http_method req in
  let p := path req in
  if (m =? "POST") && (p =? "/mcp") then post_mcp req s
  else if app_get m && (p =? "/mcp") then get_mcp req s
  else if (m =? "DELETE") && (p =? "/mcp") then delete_mcp req s
  else if app_get m && (p =? "/sse") then get_sse req s
  else if (m =? "POST") && (p =? "/messages") then post_messages req s
  else if app_get m && (p =? "/health") then get_health s
  else (Unrouted, s).

(** The application: the CORS middleware, then the routes. *)
Definition serve (req : Request) (s : Server)
  : list (string * string) * Reply * Server :=
  if http_method req =? "OPTIONS" then (cors_headers req, NoContent, s)
  else let (r, s') := route req s in (cors_headers req, r, s').

(** *** Graceful shutdown *)

(** One turn of [for (const [sid, transport] of streamableTransports)]:
    [transport.close()] (an [async] method: it returns a promise and
    cannot throw into the loop) runs up to its first suspension, which is
    where the SDK may call [onclose]; the promise settles later, resolved
    or rejected. *)
Definition close_one (sid : string) (transport : nat) (s : Server)
  : Server * completion :=
  let s1 := log "info" "Closing streamable session" [("sessionId", sid)] None s in
  let '(fired, c, rt) := close transport (runtime s1) in
  let s2 := record_call (CallClose transport) (with_runtime rt s1) in
  (if fired then onclose transport s2 else s2, c).

(** The loop itself.  The iterator holds an index into the slots of the
    live map ([i]); no turn adds an entry, so the [n] slots present when
    the loop starts bound the number of turns. *)
Fixpoint sweep (n i : nat) (s : Server) (settled : list (string * completion))
  : Server * list (string * completion) :=
  match n with
  | O => (s, settled)
  | S n' =>
      match nth_error (streamableTransports s) i with
      | None => (s, settled)
      | Some None => sweep n' (S i) s settled
      | Some (Some (sid, transport)) =>
          let (s', c) := close_one sid transport s in
          sweep n' (S i) s' (settled ++ [(sid, c)])
      end
  end.

(** [.catch((err) => { log("error", ...) })] on one settled promise. *)
Definition catch_close (s : Server) (p : string * completion) : Server :=
  match snd p with
  | Resolved => s
  | Rejected err =>
      log "error" "Error closing streamable transport"
        [("sessionId", fst p)] (Some err) s
  end.

(** [async function shutdown(signal)], up to [httpServer.close(...)];
    the exit of the process and the ten-second timer are not part of
    the state. *)
Definition shutdown (signal : string) (s : Server) : Server :=
  let s1 := log "info" ("Received " ++ signal ++ ", shutting down gracefully")
              [] None s in
  let (s2, streamableClosePromises) :=
    sweep (List.length (streamableTransports s1)) 0 s1 [] in
  let s3 := fold_left catch_close streamableClosePromises s2 in
  let s4 := with_streamable (map_clear (streamableTransports s3)) s3 in
  let s5 := with_sse (map_clear (sseTransports s4)) s4 in
  with_listening false s5.

(** *** The event loop

    What happens to the server, one event at a time: a route handler is
    run to completion before the next event is looked at (interleavings
    inside an [await] are not represented). *)

Inductive event : Type :=
| Http (req : Request)
| ResClose (connectionId : string)
| TransportClose (transport : nat)
| Signal (signal : string).

Definition step (s : Server) (e : event) : Server :=
  match e with
  | Http req => snd (serve req s)
  | ResClose connectionId => on_res_close connectionId s
  | TransportClose transport => onclose transport s
  | Signal signal => shutdown signal s
  end.

Definition run (s : Server) (events : list event) : Server :=
  fold_left step events s.

End Server.

Arguments mkServer {Runtime}.
Arguments streamableTransports {Runtime}.
Arguments sseTransports {Runtime}.
Arguments allocated {Runtime}.
Arguments drawn {Runtime}.
Arguments runtime {Runtime}.
Arguments journal {Runtime}.
Arguments sdk_calls {Runtime}.
Arguments listening {Runtime}.
Arguments with_streamable {Runtime}.
Arguments with_sse {Runtime}.
Arguments with_runtime {Runtime}.
Arguments with_listening {Runtime}.
Arguments construct {Runtime}.
Arguments randomUUID {Runtime}.
Arguments log {Runtime}.
Arguments record_call {Runtime}.
Arguments onsessioninitialized {Runtime}.
Arguments onclose {Runtime}.
Arguments run_callback {Runtime}.
Arguments delegate {Runtime}.
Arguments session_of {Runtime}.
Arguments post_mcp {Runtime}.
Arguments get_mcp {Runtime}.
Arguments delete_mcp {Runtime}.
Arguments get_sse {Runtime}.
Arguments on_res_close {Runtime}.
Arguments post_messages {Runtime}.
Arguments get_health {Runtime}.
Arguments route {Runtime}.
Arguments close_one {Runtime}.
Arguments sweep {Runtime}.
Arguments catch_close {Runtime}.
Arguments shutdown {Runtime}.
Arguments serve _ _ {Runtime}.
Arguments step _ _ {Runtime}.
Arguments run _ _ {Runtime}.

End HttpServer.

(* ------------------------------------------------------------------------- *)
(** ** Vocabulary of the statements *)
(* ------------------------------------------------------------------------- *)

(** The two shapes of a [CallResult]. *)
Definition success (result : string) : CallResult :=
  mkResult [mkText "text" result] None.

Definition failure (message : string) : CallResult :=
  mkResult [mkText "text" ("Error: " ++ message)] (Some true).

Definition RISK_ENDPOINT : string := "/accelerators/risk/classify".

(** The fields each handler of [handlers.ts] guards, in the order of its
    [if] statements; the handlers not listed have no guard. *)
Definition guarded (t : tool) : list string :=
  match t with
  | s2t_classify_action_risk => ["action"]
  | s2t_route_task_to_agent => ["task_description"]
  | s2t_attempt_auto_recovery => ["error_message"]
  | s2t_execute_with_resilience => ["operation_id"]
  | s2t_manage_agent_memory => ["operation"; "agent_id"]
  | s2t_submit_agent_task => ["agent_id"; "prompt"]
  | s2t_acquire_file_lock => ["file_path"]
  | _ => []
  end.

(** The bag holds a non-empty string under [k]. *)
Definition valid_string (fields : list (string * value)) (k : string) : bool :=
  match lookup k fields with
  | Some (VStr s) => negb (s =? "")
  | _ => false
  end.

(** The bag without its field [k]. *)
Definition omit (k : string) (fields : list (string * value))
  : list (string * value) :=
  filter (fun kv => negb (fst kv =? k)) fields.

(** [args.k] on a bag. *)
Definition field (fields : list (string * value)) (k : string) : value :=
  match lookup k fields with
  | Some v => v
  | None => VUndef
  end.

(** The [default] entries of the [s2t_embed] input schema. *)
Definition EMBED_DEFAULTS : list (string * value) :=
  [("model", VStr "amazon.titan-embed-text-v2:0");
   ("chunk_size", VNum 512);
   ("chunk_overlap", VNum 50)].

(** [interface EmbedChunk] and [interface EmbedResponse], and the JSON
    they stand for. *)
Record EmbedChunk : Type := mkChunk {
  chunk_text : string;
  word_count : Z
}.

Record EmbedResponse : Type := mkEmbedResponse {
  chunks : list EmbedChunk;
  total_chunks : Z;
  model : string;
  dimensions : Z;
  processing_time_ms : Z;
  usage : value
}.

Definition chunk_value (c : EmbedChunk) : value :=
  VObj [("text", VStr (chunk_text c));
        ("metadata", VObj [("word_count", VNum (word_count c))])].

Definition response_value (r : EmbedResponse) : value :=
  VObj [("chunks", VArr (map chunk_value (chunks r)));
        ("summary", VObj [("total_chunks", VNum (total_chunks r));
                          ("model", VStr (model r));
                          ("dimensions", VNum (dimensions r));
                          ("processing_time_ms", VNum (processing_time_ms r))]);
        ("usage", usage r)].

(** The entry that [handleEmbed] emits for the chunk [c] at rank [i]. *)
Definition preview_entry (i : nat) (c : EmbedChunk) : value :=
  VObj [("index", VNum (Z.of_nat i));
        ("text_preview",
         VStr (if (100 <? String.length (chunk_text c))%nat
               then substring0 100 (chunk_text c) ++ "..."
               else chunk_text c));
        ("word_count", VNum (word_count c));
        ("has_embedding", VBool true)].

Fixpoint previews_from (i : nat) (l : list EmbedChunk) : list value :=
  match l with
  | [] => []
  | c :: rest => preview_entry i c :: previews_from (S i) rest
  end.

(** [s.repeat(n)] for a one-unit string. *)
Fixpoint repeat_unit (c : ascii) (n : nat) : string :=
  match n with
  | O => ""
  | S m => String c (repeat_unit c m)
  end.

(** *** Test doubles ([createMockApiClient] of [handlers.test.ts]) *)

(** [{ callApi: vi.fn().mockResolvedValue(mockResponse) }] *)
Definition createMockApiClient (mockResponse : value) : ApiClient unit :=
  mkApiClient (fun _ _ _ w => (Return mockResponse, w)).

(** [{ callApi: vi.fn().mockRejectedValue(error) }] *)
Definition createRejectingApiClient (error : thrown) : ApiClient unit :=
  mkApiClient (fun _ _ _ w => (Throw error, w)).

Definition render_as_json (t : tool) (response : value) : outcome string :=
  Return (stringify response 0).

Definition aci_not_linked (t : tool) (args : value) (apiClient : ApiClient unit)
  : M unit string :=
  raise (new_Error "handler not linked").

Definition local_not_linked (t : tool) (args : value) : M unit string :=
  raise (new_Error "handler not linked").

Definition mockEmbedResponse : EmbedResponse :=
  mkEmbedResponse
    [mkChunk "This is a test sentence for embedding generation." 8]
    1 "amazon.titan-embed-text-v2:0" 1024 150
    (VObj [("tokens_used", VNum 12)]).

(** [responseWithLongText] of the truncation test: one chunk of 150
    units. *)
Definition responseWithLongText : EmbedResponse :=
  mkEmbedResponse [mkChunk (repeat_unit "A" 150) 1] 1
    "amazon.titan-embed-text-v2:0" 1024 150 VNull.

(** A server answering every request with the same response. *)
Definition fetch_always (response : Response) (options : RequestInit) (net : unit)
  : outcome Response * unit :=
  (Return response, net).

(** *** States of the HTTP server *)

(** The state when [app.listen] returns: both stores empty. *)
Definition startup {Runtime} (rt : Runtime) : HttpServer.Server Runtime :=
  HttpServer.mkServer [] [] 0 0 rt [] [] true.

(** The keys of the live entries. *)
Definition keys {V} (m : HttpServer.Map V) : list string :=
  map fst (HttpServer.entries m).

(** The request [req] with [t] in its session header. *)
Definition bearing (t : string) (req : HttpServer.Request) : HttpServer.Request :=
  HttpServer.mkRequest (HttpServer.http_method req) (HttpServer.path req)
    (HttpServer.origin req) (Some t) (HttpServer.query_sessionId req)
    (HttpServer.payload req).

(** The [Access-Control-Allow-Origin] header among [hs], if any. *)
Definition allow_origin (hs : list (string * string)) : option string :=
  option_map snd (find (fun h => fst h =? "Access-Control-Allow-Origin") hs).

(** A token that is not stored and that [randomUUID] will not draw
    again. *)
Definition forgotten (uuid : nat -> string) (t : string)
  (m : HttpServer.Map nat) (d : nat) : Prop :=
  HttpServer.map_get t m = None /\ forall n, (d <= n)%nat -> uuid n <> t.

(** Every stored token is one that [randomUUID] has drawn. *)
Definition issued_only (uuid : nat -> string) (m : HttpServer.Map nat) (d : nat)
  : Prop :=
  forall k, In k (keys m) -> exists n, (n < d)%nat /\ uuid n = k.

(** *** A loopback SDK, for running the server on examples *)

Module Loopback.

Import HttpServer.

(** The host of [scheme://host[:port][/...]]. *)
Fixpoint host_prefix (s : string) : string :=
  match s with
  | EmptyString => ""
  | String c rest =>
      if Ascii.eqb c "/"%char || Ascii.eqb c ":"%char then ""
      else String c (host_prefix rest)
  end.

Definition URL_hostname (origin : string) : option string :=
  match index 0 "://" origin with
  | Some i =>
      Some (host_prefix
              (String.substring (i + 3) (String.length origin - (i + 3)) origin))
  | None => None
  end.

Definition isInitializeRequest (body : value) : bool :=
  match getProp body "method" with
  | Return (VStr m) => m =? "initialize"
  | _ => false
  end.

Definition uuid (n : nat) : string := "session-" ++ string_of_Z (Z.of_nat n).

Definition connect (transport : nat) (rt : unit) : completion * unit :=
  (Resolved, rt).

(** An initialize request opens the session, a DELETE closes it. *)
Definition handleRequest (transport : nat) (req : Request) (rt : unit)
  : list callback * completion * unit :=
  if http_method req =? "DELETE" then ([Closed], Resolved, rt)
  else if isInitializeRequest (payload req) then ([SessionInitialized], Resolved, rt)
  else ([], Resolved, rt).

(** Closing calls [onclose]; every other transport fails to close. *)
Definition close (transport : nat) (rt : unit) : bool * completion * unit :=
  (true,
   if Nat.even transport then Resolved
   else Rejected (new_Error "write after end"),
   rt).

Definition sse_sessionId (transport : nat) (rt : unit) : string :=
  "legacy-" ++ string_of_Z (Z.of_nat transport).

Definition handlePostMessage (transport : nat) (req : Request) (rt : unit)
  : completion * unit :=
  (Resolved, rt).

Definition process_uptime (rt : unit) : Z := 0.

Definition serve (allowed : option string) :=
  HttpServer.serve allowed URL_hostname isInitializeRequest uuid connect
    handleRequest sse_sessionId handlePostMessage process_uptime.

Definition run (allowed : option string) :=
  HttpServer.run allowed URL_hostname isInitializeRequest uuid connect
    handleRequest close sse_sessionId handlePostMessage process_uptime.

Definition initialize : value :=
  VObj [("jsonrpc", VStr "2.0"); ("id", VNum 1); ("method", VStr "initialize")].

Definition tools_list : value :=
  VObj [("jsonrpc", VStr "2.0"); ("id", VNum 2); ("method", VStr "tools/list")].

Definition mcp (method : string) (origin session : option string) (body : value)
  : Request :=
  mkRequest method "/mcp" origin session None body.

(** A session is opened (it gets the token "session-0"), terminated by
    DELETE, and another one is opened afterwards. *)
Definition opened : Server unit :=
  run None (startup tt) [Http (mcp "POST" None None initialize)].

Definition terminate : Request := mcp "DELETE" None (Some "session-0") VUndef.

Definition terminated : Server unit := snd (serve None terminate opened).

Definition afterwards : Server unit :=
  run None terminated [Http (mcp "POST" None None initialize)].

End Loopback.

(* ------------------------------------------------------------------------- *)
(** ** The stdio entry point ([src/index.ts]) *)
(* ------------------------------------------------------------------------- *)

Module Stdio.

(** [TOOLS] of [index.ts]: [name] and [inputSchema.required]. *)
Definition TOOLS : list Tool :=
  [mkTool "s2t_embed" ["text"];
   mkTool "s2t_generate_cloudformation" ["description"];
   mkTool "s2t_validate_oauth" ["provider"; "client_id"; "redirect_uris"; "scopes"];
   mkTool "s2t_catalog" [];
   mkTool "s2t_usage" []].

Section CallTool.

Variable World : Type.
Variable render : tool -> value -> outcome string.

(** The [switch (name)] of the call-tool handler. *)
Definition switch_name (name : string) (args : value)
  (apiClient : ApiClient World) : M World string :=
  if name =? "s2t_embed" then handleEmbed args apiClient
  else if name =? "s2t_generate_cloudformation"
  then handleCloudFormation render args apiClient
  else if name =? "s2t_validate_oauth"
  then handleOAuthValidate render args apiClient
  else if name =? "s2t_catalog" then handleCatalog render apiClient
  else if name =? "s2t_usage" then handleUsage render apiClient
  else raise (new_Error ("Unknown tool: " ++ name)).

(** [server.setRequestHandler(CallToolRequestSchema, ...)] *)
Definition callTool (name : string) (args : value)
  (apiClient : ApiClient World) : M World CallResult :=
  try_catch
    (result <- switch_name name args apiClient ;;
     ret (mkResult [mkText "text" result] None))
    (fun error =>
       ret (mkResult [mkText "text" ("Error: " ++ errorMessage error)]
              (Some true))).

End CallTool.

Arguments switch_name {World}.
Arguments callTool {World}.

End Stdio.

(* ------------------------------------------------------------------------- *)
(** ** Tables read off [handlers.ts] and the registry *)
(* ------------------------------------------------------------------------- *)

(** For each operation whose handler is in [handlers.ts]: the endpoint
    and method of its call, and the keys of the object literal it sends
    (no body for the two GET calls). *)
Record wire : Type := mkWire {
  wire_endpoint : string;
  wire_method : string;
  wire_keys : list string
}.

Definition wire_of (t : tool) : option wire :=
  match t with
  | s2t_embed =>
      Some (mkWire "/embed" "POST" ["text"; "model"; "chunk_size"; "chunk_overlap"])
  | s2t_generate_cloudformation =>
      Some (mkWire "/generate/cloudformation" "POST"
              ["description"; "format"; "include_parameters"; "include_outputs"])
  | s2t_validate_oauth =>
      Some (mkWire "/validate/oauth" "POST"
              ["provider"; "client_id"; "redirect_uris"; "scopes";
               "token_endpoint"; "authorization_endpoint"])
  | s2t_catalog => Some (mkWire "/catalog" "GET" [])
  | s2t_usage => Some (mkWire "/usage" "GET" [])
  | s2t_validate_mfa_compliance =>
      Some (mkWire "/validate/mfa-compliance" "POST"
              ["users"; "root_account"; "policies"])
  | s2t_generate_dynamodb_design =>
      Some (mkWire "/generate/dynamodb-design" "POST"
              ["entities"; "access_patterns"; "options"])
  | s2t_analyze_error_patterns =>
      Some (mkWire "/analyze/error-patterns" "POST"
              ["errors"; "include_ai_analysis"])
  | s2t_check_data_lake_readiness =>
      Some (mkWire "/check/data-lake-readiness" "POST"
              ["storage"; "catalog"; "security"; "performance"; "operations"])
  | s2t_validate_iam_policy =>
      Some (mkWire "/validate/iam-policy" "POST"
              ["policy_document"; "resource_type"; "suggest_improvements"])
  | s2t_classify_action_risk =>
      Some (mkWire "/accelerators/risk/classify" "POST"
              ["action"; "environment"; "context"])
  | s2t_route_task_to_agent =>
      Some (mkWire "/accelerators/agent/route" "POST"
              ["task_description"; "top_k"; "include_capabilities"])
  | s2t_predict_system_issues =>
      Some (mkWire "/accelerators/predict/issues" "POST"
              ["system_state"; "analysis_window_days"])
  | s2t_attempt_auto_recovery =>
      Some (mkWire "/accelerators/recovery/attempt" "POST"
              ["error_message"; "error_source"; "stack_trace"; "auto_execute"])
  | s2t_execute_with_resilience =>
      Some (mkWire "/accelerators/resilience/execute" "POST"
              ["operation_id"; "max_retries"; "base_delay_ms";
               "circuit_breaker_threshold"])
  | s2t_manage_agent_memory =>
      Some (mkWire "/accelerators/agent/memory" "POST"
              ["operation"; "agent_id"; "key"; "value"; "namespace";
               "search_query"])
  | s2t_submit_agent_task =>
      Some (mkWire "/accelerators/agent/task" "POST"
              ["agent_id"; "prompt"; "priority"; "trace_id"])
  | s2t_create_trace_context =>
      Some (mkWire "/accelerators/trace/create" "POST"
              ["parent_traceparent"; "service_name"])
  | s2t_acquire_file_lock =>
      Some (mkWire "/accelerators/lock/acquire" "POST"
              ["file_path"; "operation"; "lock_token"; "timeout_ms"])
  | s2t_validate_cli_readiness =>
      Some (mkWire "/accelerators/cli/validate" "POST"
              ["cli_tools"; "validate_api_keys"])
  | _ => None
  end.

(** The body a handler sends: an object with the keys of its wire, or
    nothing at all for a GET. *)
Definition body_fits (w : wire) (b : value) : Prop :=
  match wire_keys w with
  | [] => b = VUndef
  | ks => exists fs, b = VObj fs /\ map fst fs = ks
  end.

(** A run that stops before the call: it throws and the state is the
    one it started from. *)
Definition stops_early {World A} (out : outcome A * state World)
  (s : state World) : Prop :=
  snd out = s /\ exists err, fst out = Throw err.

(** The single call and what follows it. *)
Definition after_call {World} (apiClient : ApiClient World) (w : wire)
  (b : value) (k : value -> outcome string) : M World string :=
  result <- await_callApi apiClient (wire_endpoint w) (Some (wire_method w)) b ;;
  lift (k result).

(** The [default] entries of the input schemas in [TOOLS]
    ([server-setup.ts]), for the operations whose handler is in
    [handlers.ts]. *)
Definition declared_defaults (t : tool) : list (string * value) :=
  match t with
  | s2t_embed => EMBED_DEFAULTS
  | s2t_analyze_error_patterns => [("include_ai_analysis", VBool true)]
  | s2t_generate_cloudformation =>
      [("format", VStr "sam"); ("include_parameters", VBool true);
       ("include_outputs", VBool true)]
  | s2t_validate_iam_policy =>
      [("resource_type", VStr "general"); ("suggest_improvements", VBool true)]
  | s2t_validate_cli_readiness =>
      [("cli_tools", VArr [VStr "codex"]); ("validate_api_keys", VBool true)]
  | s2t_classify_action_risk =>
      [("environment", VStr "local"); ("context", VStr "development")]
  | s2t_route_task_to_agent =>
      [("top_k", VNum 5); ("include_capabilities", VBool true)]
  | s2t_predict_system_issues => [("analysis_window_days", VNum 30)]
  | s2t_attempt_auto_recovery => [("auto_execute", VBool false)]
  | s2t_execute_with_resilience =>
      [("max_retries", VNum 3); ("base_delay_ms", VNum 1000);
       ("circuit_breaker_threshold", VNum 5)]
  | s2t_manage_agent_memory => [("namespace", VStr "default")]
  | s2t_submit_agent_task => [("priority", VStr "normal")]
  | s2t_create_trace_context => [("service_name", VStr "s2t-agent")]
  | s2t_acquire_file_lock =>
      [("operation", VStr "acquire"); ("timeout_ms", VNum 5000)]
  | _ => []
  end.

(** The optional fields whose default is taken with [??]: only an
    absent or [null] value is replaced. *)
Definition coalesced (t : tool) : list string :=
  match t with
  | s2t_generate_cloudformation => ["include_parameters"; "include_outputs"]
  | s2t_analyze_error_patterns => ["include_ai_analysis"]
  | s2t_validate_iam_policy => ["suggest_improvements"]
  | s2t_route_task_to_agent => ["include_capabilities"]
  | s2t_attempt_auto_recovery => ["auto_execute"]
  | s2t_validate_cli_readiness => ["validate_api_keys"]
  | _ => []
  end.

(** The first property a handler reads off its arguments. *)
Definition first_read (t : tool) : option string :=
  match guarded t, wire_of t with
  | g :: _, _ => Some g
  | [], Some w => hd_error (wire_keys w)
  | [], None => None
  end.

(** The words of a TypeError on a nullish receiver. *)
Definition kind_of_nullish (v : value) : string :=
  match v with
  | VNull => "null"
  | _ => "undefined"
  end.

(** No code unit of [s] is a comma. *)
Fixpoint comma_free (s : string) : bool :=
  match s with
  | EmptyString => true
  | String c rest => negb (Ascii.eqb c ","%char) && comma_free rest
  end.

(** An origin as one writes it in [S2T_CORS_ORIGINS]: not empty, no
    comma. *)
Definition listable (o : string) : bool := negb (o =? "") && comma_free o.

(** The entry logged when closing the session [sid] fails with [err]. *)
Definition close_failure (sid : string) (err : thrown) : HttpServer.LogEntry :=
  HttpServer.mkLog "error" "Error closing streamable transport"
    [("sessionId", sid)] (Some err).


(* ========================================================================= *)
(** * Properties *)
(* ========================================================================= *)

(** ** The monad and the journal *)

Lemma await_callApi_journal {W} (apiClient : ApiClient W) endpoint method body s :
  calls (snd (await_callApi apiClient endpoint method body s))
  = (calls s ++ [mkCall endpoint method body])%list.
Proof.
  unfold await_callApi.
  destruct (callApi apiClient endpoint method body (world s)); reflexivity.
Qed.

(** Whatever follows a call keeps the journal when it is a lifted pure
    computation. *)
Lemma call_then_render_journal {W} (apiClient : ApiClient W) endpoint method body
  (k : value -> outcome string) s :
  calls (snd ((result <- await_callApi apiClient endpoint method body ;;
               lift (k result)) s))
  = (calls s ++ [mkCall endpoint method body])%list.
Proof.
  unfold bind, await_callApi, lift.
  destruct (callApi apiClient endpoint method body (world s)) as [[v | e] w'];
    reflexivity.
Qed.

(** ** Argument bags *)

Lemma getProp_bag fields k : getProp (VObj fields) k = Return (field fields k).
Proof. reflexivity. Qed.

Lemma lookup_omit_other k k' fields :
  k <> k' -> lookup k (omit k' fields) = lookup k fields.
Proof.
  intros Hne. induction fields as [| [k0 v0] rest IH]; simpl; [reflexivity |].
  destruct (String.eqb_spec k0 k') as [-> | Hk0]; simpl.
  - destruct (String.eqb_spec k' k) as [Heq | _]; [congruence | exact IH].
  - destruct (k0 =? k); [reflexivity | exact IH].
Qed.

Lemma lookup_omit_same k fields : lookup k (omit k fields) = None.
Proof.
  induction fields as [| [k0 v0] rest IH]; simpl; [reflexivity |].
  destruct (String.eqb_spec k0 k) as [-> | Hk0]; simpl; [exact IH |].
  destruct (String.eqb_spec k0 k); [contradiction | exact IH].
Qed.

Lemma field_omit_other k k' fields :
  k <> k' -> field (omit k' fields) k = field fields k.
Proof. intros H. unfold field. now rewrite lookup_omit_other. Qed.

Lemma field_omit_same k fields : field (omit k fields) k = VUndef.
Proof. unfold field. now rewrite lookup_omit_same. Qed.

(** A falsy value and an absent one take the same default. *)
Lemma or_else_falsy v d : truthy v = false -> or_else v d = or_else VUndef d.
Proof. intros H. unfold or_else. now rewrite H. Qed.

(** ** Guards *)

Lemma require_string_spec {W} fields k (s : state W) :
  require_string (VObj fields) k s
  = if valid_string fields k then (Return tt, s)
    else (Throw (new_Error (required_message k)), s).
Proof.
  unfold require_string, valid_string, bind, lift, getProp.
  destruct (lookup k fields) as [[[ | | b | n | str] | items | fs] |]; simpl;
    try reflexivity.
  - destruct b; reflexivity.
  - destruct (n =? 0)%Z; reflexivity.
  - destruct (str =? ""); reflexivity.
Qed.

Section GuardFacts.

Variable World : Type.
Variable render : tool -> value -> outcome string.

Lemma guarded_call_rejects t fields before f after endpoint method payload
  (apiClient : ApiClient World) s :
  forallb (valid_string fields) before = true ->
  valid_string fields f = false ->
  guarded_call render t (VObj fields) (before ++ f :: after)
    endpoint method payload apiClient s
  = (Throw (new_Error (required_message f)), s).
Proof.
  intros Hbefore Hf. unfold guarded_call.
  induction before as [| g before IH]; simpl in *.
  - unfold bind. rewrite require_string_spec, Hf. reflexivity.
  - apply andb_prop in Hbefore as [Hg Hrest].
    unfold bind at 1. rewrite require_string_spec, Hg. now apply IH.
Qed.

Lemma guarded_call_passes t fields guards endpoint method payload
  (apiClient : ApiClient World) s :
  forallb (valid_string fields) guards = true ->
  guarded_call render t (VObj fields) guards endpoint method payload apiClient s
  = (body <- lift payload ;;
     result <- await_callApi apiClient endpoint (Some method) body ;;
     lift (render t result)) s.
Proof.
  intros Hg. unfold guarded_call.
  induction guards as [| g guards IH]; simpl in *; [reflexivity |].
  apply andb_prop in Hg as [Hg Hrest].
  unfold bind at 1. rewrite require_string_spec, Hg. now apply IH.
Qed.

End GuardFacts.

(** ** The switch *)

Lemma matching_case_In cases n t :
  matching_case cases n = Some t -> In (n, t) cases.
Proof.
  induction cases as [| [label t'] rest IH]; simpl; [discriminate |].
  destruct (String.eqb_spec n label) as [-> | _].
  - intros [= ->]. now left.
  - intros H. right. now apply IH.
Qed.


(** ** The dispatcher *)

Section DispatchFacts.

Variable World : Type.
Variable render : tool -> value -> outcome string.
Variable aci_handler : tool -> value -> ApiClient World -> M World string.
Variable local_handler : tool -> value -> M World string.

Local Abbreviation dispatch := (callTool render aci_handler local_handler).
Local Abbreviation run_case := (case_body render aci_handler local_handler).

(** C1.  For every operation name and every argument value the
    call-tool handler returns a [CallResult] and never throws: under a
    known name it returns the handler's text as [{ content: [text] }], or,
    when the handler throws [e], [{ content: ["Error: " + message of e],
    isError: true }]; under an unknown name it returns the error result
    for "Unknown tool: <name>". *)
Theorem callTool_always_returns :
  forall (name : string) (args : value) (apiClient : ApiClient World)
         (s : state World),
    (exists r s', dispatch name args apiClient s = (Return r, s'))
    /\ match matching_case SWITCH name with
       | Some t =>
           match run_case t args apiClient s with
           | (Return result, s') =>
               dispatch name args apiClient s = (Return (success result), s')
           | (Throw e, s') =>
               dispatch name args apiClient s
               = (Return (failure (errorMessage e)), s')
           end
       | None =>
           dispatch name args apiClient s
           = (Return (failure ("Unknown tool: " ++ name)), s)
       end.
Proof.
  intros name args apiClient s.
  unfold callTool, try_catch, bind, switch_name, ret, raise, success, failure.
  destruct (matching_case SWITCH name) as [t |].
  - destruct (case_body render aci_handler local_handler t args apiClient s)
      as [[result | e] s'] eqn:Hrun; split; eauto.
  - split; eauto.
Qed.

(** C4.  No case of the switch bears the name ["s2t_does_not_exist"]:
    dispatching it with any arguments returns [isError: true] with the
    text "Error: Unknown tool: s2t_does_not_exist" and leaves the state,
    hence the journal of remote calls, as it was. *)
Theorem unknown_tool_is_an_error_result :
  forall (args : value) (apiClient : ApiClient World) (s : state World),
    matching_case SWITCH "s2t_does_not_exist" = None
    /\ dispatch "s2t_does_not_exist" args apiClient s
       = (Return (mkResult
                    [mkText "text" "Error: Unknown tool: s2t_does_not_exist"]
                    (Some true)),
          s)
    /\ calls (snd (dispatch "s2t_does_not_exist" args apiClient s)) = calls s.
Proof.
  intros args apiClient s.
  assert (Hnone : matching_case SWITCH "s2t_does_not_exist" = None)
    by reflexivity.
  split; [exact Hnone |].
  unfold callTool, try_catch, bind, switch_name. rewrite Hnone.
  split; reflexivity.
Qed.


End DispatchFacts.


(** C2, the code at the failing input.  [text] is declared required
    for [s2t_embed], yet with an empty bag [handleEmbed] does not fail:
    it issues the call to [/embed] with [text: undefined] and returns
    the rendered response, where the handlers of the newer operations
    throw "Required parameter ... must be a non-empty string" before any
    call. *)
Lemma embed_forwards_a_missing_text :
  matching_case SWITCH "s2t_embed" = Some s2t_embed
  /\ In "text" (required_of "s2t_embed")
  /\ lookup "text" [] = None
  /\ (exists result,
        fst (case_body render_as_json aci_not_linked local_not_linked
               s2t_embed (VObj [])
               (createMockApiClient (response_value mockEmbedResponse))
               (mkState tt []))
        = Return result)
  /\ calls (snd (case_body render_as_json aci_not_linked local_not_linked
                   s2t_embed (VObj [])
                   (createMockApiClient (response_value mockEmbedResponse))
                   (mkState tt [])))
     = [mkCall "/embed" (Some "POST")
          (VObj [("text", VUndef);
                 ("model", VStr "amazon.titan-embed-text-v2:0");
                 ("chunk_size", VNum 512);
                 ("chunk_overlap", VNum 50)])].
Proof.
  repeat split; try (vm_compute; auto; fail).
  eexists. vm_compute. reflexivity.
Qed.

(** ** Risk classification *)

Section RiskFacts.

Variable World : Type.
Variable render : tool -> value -> outcome string.

(** C8, as amended.  With [action] a non-empty string and [environment]
    omitted, [handleRiskClassify] is the single call to the risk endpoint
    with [environment: "local"] and with [context] the supplied one or,
    failing a truthy one, ["development"] -- so ["development"] when
    [context] is omitted too; with [action] missing it throws the
    required-parameter error and the state, journal included, is
    untouched. *)
Theorem risk_defaults_and_guard :
  forall (fields : list (string * value)) (apiClient : ApiClient World)
         (s : state World),
    (forall a,
        lookup "action" fields = Some (VStr a) ->
        a <> "" ->
        lookup "environment" fields = None ->
        let payload :=
          VObj [("action", VStr a);
                ("environment", VStr "local");
                ("context", or_else (field fields "context") (VStr "development"))] in
        handleRiskClassify render (VObj fields) apiClient s
        = (result <- await_callApi apiClient RISK_ENDPOINT (Some "POST") payload ;;
           lift (render s2t_classify_action_risk result)) s
        /\ calls (snd (handleRiskClassify render (VObj fields) apiClient s))
           = (calls s ++ [mkCall RISK_ENDPOINT (Some "POST") payload])%list)
    /\ (lookup "context" fields = None ->
        or_else (field fields "context") (VStr "development") = VStr "development")
    /\ (lookup "action" fields = None ->
        handleRiskClassify render (VObj fields) apiClient s
        = (Throw (new_Error (required_message "action")), s)).
Proof.
  intros fields apiClient s. split; [| split].
  - intros a Ha Hne Henv payload.
    assert (Hrun :
      handleRiskClassify render (VObj fields) apiClient s
      = (result <- await_callApi apiClient RISK_ENDPOINT (Some "POST") payload ;;
         lift (render s2t_classify_action_risk result)) s).
    { unfold handleRiskClassify. rewrite guarded_call_passes.
      - unfold object, literal, arg, arg_or. rewrite !getProp_bag.
        unfold field at 1 2. rewrite Ha, Henv. reflexivity.
      - simpl. unfold valid_string. rewrite Ha.
        destruct (String.eqb_spec a ""); [contradiction | reflexivity]. }
    split; [exact Hrun |].
    rewrite Hrun. apply call_then_render_journal.
  - intros Hctx. unfold field. rewrite Hctx. reflexivity.
  - intros Hmissing. unfold handleRiskClassify.
    apply (guarded_call_rejects World render s2t_classify_action_risk
             fields [] "action" []); [reflexivity |].
    unfold valid_string. now rewrite Hmissing.
Qed.

End RiskFacts.

Lemma risk_defaults_and_guard_witness :
  (handleRiskClassify render_as_json (VObj [("action", VStr "rm -rf /tmp/cache")])
     (createMockApiClient VNull) (mkState tt [])
   = (result <- await_callApi (createMockApiClient VNull) RISK_ENDPOINT
                  (Some "POST")
                  (VObj [("action", VStr "rm -rf /tmp/cache");
                         ("environment", VStr "local");
                         ("context", VStr "development")]) ;;
      lift (render_as_json s2t_classify_action_risk result)) (mkState tt [])
   /\ calls (snd (handleRiskClassify render_as_json
                    (VObj [("action", VStr "rm -rf /tmp/cache")])
                    (createMockApiClient VNull) (mkState tt [])))
      = [mkCall RISK_ENDPOINT (Some "POST")
           (VObj [("action", VStr "rm -rf /tmp/cache");
                  ("environment", VStr "local");
                  ("context", VStr "development")])])
  /\ or_else (field [("action", VStr "rm -rf /tmp/cache")] "context")
       (VStr "development")
     = VStr "development"
  /\ handleRiskClassify render_as_json (VObj [])
       (createMockApiClient VNull) (mkState tt [])
     = (Throw (new_Error (required_message "action")), mkState tt []).
Proof.
  split; [| split].
  - apply (proj1 (risk_defaults_and_guard unit render_as_json
                    [("action", VStr "rm -rf /tmp/cache")]
                    (createMockApiClient VNull) (mkState tt []))
             "rm -rf /tmp/cache");
      [reflexivity | discriminate | reflexivity].
  - apply (proj1 (proj2 (risk_defaults_and_guard unit render_as_json
                           [("action", VStr "rm -rf /tmp/cache")]
                           (createMockApiClient VNull) (mkState tt []))));
      reflexivity.
  - apply (proj2 (proj2 (risk_defaults_and_guard unit render_as_json []
                           (createMockApiClient VNull) (mkState tt []))));
      reflexivity.
Defined.

(** C8, counterexample.  [action] is present and [environment] is
    omitted, but the bag carries a [context]: the payload forwards that
    context, not ["development"]. *)
Lemma supplied_context_is_forwarded :
  lookup "environment"
    [("action", VStr "deploy"); ("context", VStr "production")] = None
  /\ calls (snd (handleRiskClassify render_as_json
                   (VObj [("action", VStr "deploy");
                          ("context", VStr "production")])
                   (createMockApiClient VNull) (mkState tt [])))
     = [mkCall RISK_ENDPOINT (Some "POST")
          (VObj [("action", VStr "deploy");
                 ("environment", VStr "local");
                 ("context", VStr "production")])].
Proof. split; reflexivity. Qed.

(** ** Embedding: previews and indices *)

Lemma append_empty (s : string) : s ++ "" = s.
Proof. induction s as [| c s IH]; simpl; [reflexivity | now rewrite IH]. Qed.

Lemma length_append (a b : string) :
  String.length (a ++ b) = (String.length a + String.length b)%nat.
Proof. induction a as [| c a IH]; simpl; [reflexivity | now rewrite IH]. Qed.

Lemma substring0_whole (n : nat) (s : string) :
  (String.length s <= n)%nat -> substring0 n s = s.
Proof.
  unfold substring0. revert n.
  induction s as [| c s IH]; intros [| n] Hlen; simpl in *;
    try reflexivity; try lia.
  rewrite IH by lia. reflexivity.
Qed.

Lemma substring0_length (n : nat) (s : string) :
  (n <= String.length s)%nat -> String.length (substring0 n s) = n.
Proof.
  unfold substring0. revert n.
  induction s as [| c s IH]; intros [| n] Hlen; simpl in *;
    try reflexivity; try lia.
  rewrite IH by lia. reflexivity.
Qed.

(** The two cases of [c.text.substring(0, 100) + (c.text.length > 100 ?
    "..." : "")]. *)
Lemma text_preview_long (s : string) :
  (100 < String.length s)%nat ->
  text_preview s = substring0 100 s ++ "..."
  /\ String.length (text_preview s) = 103%nat.
Proof.
  intros Hlong. unfold text_preview.
  destruct (Nat.ltb_spec 100 (String.length s)) as [_ | Hle]; [| lia].
  split; [reflexivity |].
  rewrite length_append, substring0_length by lia. reflexivity.
Qed.

Lemma text_preview_short (s : string) :
  (String.length s <= 100)%nat -> text_preview s = s.
Proof.
  intros Hshort. unfold text_preview.
  destruct (Nat.ltb_spec 100 (String.length s)) as [Hlt | _]; [lia |].
  now rewrite append_empty, substring0_whole.
Qed.

Lemma text_preview_cases (s : string) :
  text_preview s
  = if (100 <? String.length s)%nat then substring0 100 s ++ "..." else s.
Proof.
  destruct (Nat.ltb_spec 100 (String.length s)) as [Hlt | Hle].
  - now apply text_preview_long.
  - now apply text_preview_short.
Qed.

(** On a well-typed response the callback yields the expected entry. *)
Lemma embed_chunk_typed (c : EmbedChunk) (i : nat) :
  embed_chunk (chunk_value c) i = Return (preview_entry i c).
Proof.
  unfold embed_chunk, chunk_value, preview_entry. simpl.
  now rewrite text_preview_cases.
Qed.

Lemma map_from_typed (l : list EmbedChunk) (i : nat) :
  map_from embed_chunk (map chunk_value l) i = Return (previews_from i l).
Proof.
  revert i. induction l as [| c l IH]; intros i; cbn [map map_from];
    [reflexivity |].
  now rewrite embed_chunk_typed, IH.
Qed.

Lemma previews_from_nth (l : list EmbedChunk) (i j : nat) (c : EmbedChunk) :
  nth_error l j = Some c ->
  nth_error (previews_from i l) j = Some (preview_entry (i + j) c).
Proof.
  revert i j. induction l as [| c0 l IH]; intros i [| j] H; simpl in *;
    try discriminate.
  - injection H as ->. now rewrite Nat.add_0_r.
  - rewrite (IH (S i) j H). f_equal. f_equal. lia.
Qed.

Lemma previews_from_length (l : list EmbedChunk) (i : nat) :
  List.length (previews_from i l) = List.length l.
Proof. revert i. induction l; intros i; simpl; [reflexivity | now f_equal]. Qed.

(** On any response: what the callback returns, when it returns. *)
Lemma embed_chunk_inv (c : value) (i : nat) (y : value) :
  embed_chunk c i = Return y ->
  exists s wc,
    getProp c "text" = Return (VStr s)
    /\ y = VObj [("index", VNum (Z.of_nat i));
                 ("text_preview", VStr (text_preview s));
                 ("word_count", wc);
                 ("has_embedding", VBool true)].
Proof.
  unfold embed_chunk. intros H.
  destruct (getProp c "text") as [text | e]; simpl in H; [| discriminate].
  destruct text as [[ | | b | n | s] | items | fs]; simpl in H; try discriminate.
  destruct (getProp c "metadata") as [md | e]; simpl in H; [| discriminate].
  destruct (getProp md "word_count") as [wc | e]; simpl in H; [| discriminate].
  injection H as <-. now exists s, wc.
Qed.

Lemma map_from_inv (l : list value) (i : nat) (ys : list value) :
  map_from embed_chunk l i = Return ys ->
  List.length ys = List.length l
  /\ forall j c, nth_error l j = Some c ->
       exists y, nth_error ys j = Some y /\ embed_chunk c (i + j) = Return y.
Proof.
  revert i ys. induction l as [| c0 l IH]; intros i ys H; simpl in H.
  - injection H as <-. split; [reflexivity |]. intros [| j] c; discriminate.
  - destruct (embed_chunk c0 i) as [y0 | e] eqn:Hy0; simpl in H; [| discriminate].
    destruct (map_from embed_chunk l (S i)) as [ys' | e] eqn:Hys; simpl in H;
      [| discriminate].
    injection H as <-. destruct (IH _ _ Hys) as [Hlen Hnth].
    split; [simpl; now f_equal |].
    intros [| j] c Hc; simpl in *.
    + injection Hc as <-. exists y0. now rewrite Nat.add_0_r.
    + destruct (Hnth j c Hc) as [y [Hy Hrun]]. exists y. split; [exact Hy |].
      now replace (i + S j)%nat with (S i + j)%nat by lia.
Qed.

Lemma embed_document_inv (response doc : value) :
  embed_document response = Return doc ->
  exists items ys,
    getProp response "chunks" = Return (VArr items)
    /\ getProp doc "chunks" = Return (VArr ys)
    /\ map_from embed_chunk items 0 = Return ys.
Proof.
  unfold embed_document. intros H.
  repeat match type of H with
         | obind ?m _ = Return _ =>
             let x := fresh "x" in
             destruct m as [x | ?] eqn:?; simpl in H; [| discriminate]
         end.
  injection H as <-.
  match goal with
  | Hc : call_map _ ?chunks _ = Return _ |- _ =>
      destruct chunks as [[ | | ? | ? | ?] | items | ?]; simpl in Hc;
        try discriminate;
        destruct (map_from embed_chunk items 0) as [ys | ?] eqn:Hmap;
        simpl in Hc; [| discriminate];
        injection Hc as <-; exists items, ys; auto
  end.
Qed.

(** C9.  For the embedding operation: whenever [handleEmbed] builds its
    document from a response, the document's [chunks] has one entry per
    chunk of the response, in response order, the entry at rank [i] has
    [index] [i], and its [text_preview] is the first 100 code units of the
    chunk's text followed by "..." (103 in all) when the text is longer
    than 100, and the whole text otherwise; on a response of the declared
    type the document is built; and the handler returns that document,
    serialized, after its single call. *)
Theorem embed_previews_and_indices :
  (forall (response doc : value),
      embed_document response = Return doc ->
      exists items ys,
        getProp response "chunks" = Return (VArr items)
        /\ getProp doc "chunks" = Return (VArr ys)
        /\ List.length ys = List.length items
        /\ forall i c,
             nth_error items i = Some c ->
             exists s wc,
               getProp c "text" = Return (VStr s)
               /\ nth_error ys i
                  = Some (VObj [("index", VNum (Z.of_nat i));
                                ("text_preview", VStr (text_preview s));
                                ("word_count", wc);
                                ("has_embedding", VBool true)])
               /\ ((100 < String.length s)%nat ->
                   text_preview s = substring0 100 s ++ "..."
                   /\ String.length (text_preview s) = 103%nat)
               /\ ((String.length s <= 100)%nat -> text_preview s = s))
  /\ (forall r : EmbedResponse,
         embed_document (response_value r)
         = Return
             (VObj [("summary",
                     VStr ("Generated " ++ string_of_Z (total_chunks r)
                           ++ " embedding(s) using " ++ model r));
                    ("dimensions", VNum (dimensions r));
                    ("chunks", VArr (previews_from 0 (chunks r)));
                    ("usage", usage r);
                    ("note", VStr EMBED_NOTE)]))
  /\ (forall (W : Type) (args payload : value) (apiClient : ApiClient W)
             (s : state W) (response : value) (w' : W) (doc : value),
         embed_payload args = Return payload ->
         callApi apiClient "/embed" (Some "POST") payload (world s)
         = (Return response, w') ->
         embed_document response = Return doc ->
         handleEmbed args apiClient s
         = (Return (stringify doc 2),
            mkState w' (calls s ++ [mkCall "/embed" (Some "POST") payload]))).
Proof.
  split; [| split].
  - intros response doc Hdoc.
    destruct (embed_document_inv _ _ Hdoc) as (items & ys & Hitems & Hys & Hmap).
    destruct (map_from_inv _ _ _ Hmap) as [Hlen Hnth].
    exists items, ys. repeat split; try assumption.
    intros i c Hc. destruct (Hnth i c Hc) as (y & Hy & Hrun).
    destruct (embed_chunk_inv _ _ _ Hrun) as (s & wc & Htext & ->).
    exists s, wc. repeat split; try assumption.
    + now apply text_preview_long.
    + now apply text_preview_long.
    + now apply text_preview_short.
  - intros r. unfold embed_document, response_value.
    cbn [getProp lookup String.eqb Ascii.eqb Bool.eqb obind ToString
         prim_to_string call_map].
    now rewrite map_from_typed.
  - intros W args payload apiClient s response w' doc Hpayload Hcall Hdoc.
    unfold handleEmbed, bind, lift, await_callApi, render_embed.
    rewrite Hpayload, Hcall, Hdoc. reflexivity.
Qed.

Lemma embed_previews_and_indices_witness :
  handleEmbed (VObj [("text", VStr (repeat_unit "A" 150))])
    (createMockApiClient (response_value responseWithLongText))
    (mkState tt [])
  = (Return
       (stringify
          (VObj [("summary",
                  VStr "Generated 1 embedding(s) using amazon.titan-embed-text-v2:0");
                 ("dimensions", VNum 1024);
                 ("chunks",
                  VArr [VObj [("index", VNum 0);
                              ("text_preview",
                               VStr (repeat_unit "A" 100 ++ "..."));
                              ("word_count", VNum 1);
                              ("has_embedding", VBool true)]]);
                 ("usage", VNull);
                 ("note", VStr EMBED_NOTE)]) 2),
     mkState tt
       [mkCall "/embed" (Some "POST")
          (VObj [("text", VStr (repeat_unit "A" 150));
                 ("model", VStr "amazon.titan-embed-text-v2:0");
                 ("chunk_size", VNum 512);
                 ("chunk_overlap", VNum 50)])])
  /\ exists ys,
       getProp
         (VObj [("summary",
                 VStr "Generated 1 embedding(s) using amazon.titan-embed-text-v2:0");
                ("dimensions", VNum 1024);
                ("chunks",
                 VArr [VObj [("index", VNum 0);
                             ("text_preview",
                              VStr (repeat_unit "A" 100 ++ "..."));
                             ("word_count", VNum 1);
                             ("has_embedding", VBool true)]]);
                ("usage", VNull);
                ("note", VStr EMBED_NOTE)]) "chunks"
       = Return (VArr ys)
       /\ List.length ys = 1%nat
       /\ String.length (text_preview (repeat_unit "A" 150)) = 103%nat.
Proof.
  split.
  - apply (proj2 (proj2 embed_previews_and_indices) unit
             (VObj [("text", VStr (repeat_unit "A" 150))])
             (VObj [("text", VStr (repeat_unit "A" 150));
                    ("model", VStr "amazon.titan-embed-text-v2:0");
                    ("chunk_size", VNum 512);
                    ("chunk_overlap", VNum 50)])
             (createMockApiClient (response_value responseWithLongText))
             (mkState tt [])
             (response_value responseWithLongText)
             tt);
      reflexivity.
  - destruct (proj1 embed_previews_and_indices
                (response_value responseWithLongText) _
                (proj1 (proj2 embed_previews_and_indices)
                   responseWithLongText))
      as (items & ys & Hitems & Hys & Hlen & Hnth).
    injection Hitems as <-.
    destruct (Hnth 0%nat (chunk_value (mkChunk (repeat_unit "A" 150) 1)) eq_refl)
      as (str & wc & Htext & _ & Hlong & _).
    injection Htext as <-.
    exists ys. split; [exact Hys | split; [exact Hlen |]].
    apply Hlong. apply Nat.ltb_lt. reflexivity.
Defined.

(** The scenario of the test suite: a chunk of 150 units. *)
Example preview_of_150_units :
  text_preview (repeat_unit "A" 150) = repeat_unit "A" 100 ++ "..."
  /\ String.length (text_preview (repeat_unit "A" 150)) = 103%nat.
Proof. split; reflexivity. Qed.

(** ** Embedding: defaults *)

Lemma embed_payload_bag (fields : list (string * value)) :
  embed_payload (VObj fields)
  = Return
      (VObj [("text", field fields "text");
             ("model",
              or_else (field fields "model") (VStr "amazon.titan-embed-text-v2:0"));
             ("chunk_size", or_else (field fields "chunk_size") (VNum 512));
             ("chunk_overlap", or_else (field fields "chunk_overlap") (VNum 50))]).
Proof. reflexivity. Qed.

(** C10.  In [handleEmbed] the defaults are taken by truthiness: when
    the bag holds a falsy value under [model], [chunk_size] or
    [chunk_overlap] (a [chunk_overlap] of 0, say), the payload carries the
    schema default for that field, and payload and handler are exactly
    those of the bag without the field. *)
Theorem embed_defaults_by_truthiness :
  forall (fields : list (string * value)) (k : string) (v d : value),
    In (k, d) EMBED_DEFAULTS ->
    lookup k fields = Some v ->
    truthy v = false ->
    (exists payload,
        embed_payload (VObj fields) = Return (VObj payload)
        /\ lookup k payload = Some d)
    /\ embed_payload (VObj fields) = embed_payload (VObj (omit k fields))
    /\ forall (W : Type) (apiClient : ApiClient W) (s : state W),
         handleEmbed (VObj fields) apiClient s
         = handleEmbed (VObj (omit k fields)) apiClient s.
Proof.
  intros fields k v d Hin Hk Hfalsy.
  assert (Hfield : field fields k = v) by (unfold field; now rewrite Hk).
  assert (Hsame :
    embed_payload (VObj fields) = embed_payload (VObj (omit k fields))).
  { rewrite !embed_payload_bag. simpl in Hin.
    destruct Hin as [H | [H | [H | []]]]; injection H as <- <-;
      rewrite field_omit_same, !field_omit_other by discriminate;
      rewrite Hfield, (or_else_falsy v) by assumption; reflexivity. }
  split; [| split; [exact Hsame |]].
  - rewrite embed_payload_bag. eexists. split; [reflexivity |].
    simpl in Hin.
    destruct Hin as [H | [H | [H | []]]]; injection H as <- <-;
      cbn [lookup String.eqb Ascii.eqb Bool.eqb];
      rewrite Hfield; unfold or_else; now rewrite Hfalsy.
  - intros W apiClient s. unfold handleEmbed. now rewrite Hsame.
Qed.

Lemma embed_defaults_by_truthiness_witness :
  (exists payload,
      embed_payload (VObj [("text", VStr "hello"); ("chunk_overlap", VNum 0)])
      = Return (VObj payload)
      /\ lookup "chunk_overlap" payload = Some (VNum 50))
  /\ embed_payload (VObj [("text", VStr "hello"); ("chunk_overlap", VNum 0)])
     = embed_payload
         (VObj (omit "chunk_overlap"
                  [("text", VStr "hello"); ("chunk_overlap", VNum 0)]))
  /\ forall (W : Type) (apiClient : ApiClient W) (s : state W),
       handleEmbed (VObj [("text", VStr "hello"); ("chunk_overlap", VNum 0)])
         apiClient s
       = handleEmbed
           (VObj (omit "chunk_overlap"
                    [("text", VStr "hello"); ("chunk_overlap", VNum 0)]))
           apiClient s.
Proof.
  apply (embed_defaults_by_truthiness
           [("text", VStr "hello"); ("chunk_overlap", VNum 0)]
           "chunk_overlap" (VNum 0) (VNum 50)).
  - simpl. auto.
  - reflexivity.
  - reflexivity.
Defined.

(** ** The remote call client *)

Section ApiClientFacts.

Variable Net : Type.
Variable fetch : RequestInit -> Net -> outcome Response * Net.

(** C3, as amended.  When the remote answers with a non-success status
    and a JSON body on which [error?.message] can be read (any body but
    [null]), [callApi] rejects with an [Error] whose message is the
    body's [error.message] when that is a non-empty string, and is
    exactly "API error: <status>" when [error] or [error.message] is
    absent or falsy (the empty string included); for every endpoint,
    method and body. *)
Theorem callApi_rejects_non_success :
  forall (baseUrl apiKey endpoint : string) (method : option string)
         (body : value) (net net' : Net) (response : Response)
         (data message : value),
    fetch (request_options baseUrl apiKey endpoint method body) net
    = (Return response, net') ->
    ok response = false ->
    json response = Return data ->
    (error <~ getProp data "error" ;; getPropOpt error "message")
    = Return message ->
    (forall msg,
        message = VStr msg -> msg <> "" ->
        callApi (createApiClient fetch baseUrl apiKey) endpoint method body net
        = (Throw (new_Error msg), net'))
    /\ (truthy message = false ->
        callApi (createApiClient fetch baseUrl apiKey) endpoint method body net
        = (Throw (new_Error ("API error: " ++ string_of_Z (status response))),
           net')).
Proof.
  intros baseUrl apiKey endpoint method body net net' response data message
         Hfetch Hok Hjson Hmessage.
  assert (Hsettle :
    settle response
    = (message' <~ ToString
                     (or_else message
                        (VStr ("API error: " ++ string_of_Z (status response)))) ;;
       Throw (new_Error message'))).
  { unfold settle, failure_message. rewrite Hjson, Hok. simpl.
    destruct (getProp data "error") as [error | e]; simpl in *; [| discriminate].
    rewrite Hmessage. reflexivity. }
  unfold createApiClient. cbn [callApi]. rewrite Hfetch, Hsettle.
  split.
  - intros msg -> Hne. unfold or_else. simpl.
    destruct (String.eqb_spec msg ""); [contradiction | reflexivity].
  - intros Hfalsy. unfold or_else. rewrite Hfalsy. reflexivity.
Qed.

End ApiClientFacts.

Lemma callApi_rejects_non_success_witness :
  callApi
    (createApiClient
       (fetch_always
          (mkResponse false 429
             (Return (VObj [("error", VObj [("message", VStr "Rate limit exceeded")])]))))
       "https://api.example" "key")
    "/embed" (Some "POST") (VObj [("text", VStr "hello")]) tt
  = (Throw (new_Error "Rate limit exceeded"), tt)
  /\ callApi
       (createApiClient
          (fetch_always (mkResponse false 503 (Return (VObj []))))
          "https://api.example" "key")
       "/usage" None VUndef tt
     = (Throw (new_Error "API error: 503"), tt).
Proof.
  split.
  - apply (proj1 (callApi_rejects_non_success unit
                    (fetch_always
                       (mkResponse false 429
                          (Return (VObj [("error",
                                          VObj [("message",
                                                 VStr "Rate limit exceeded")])]))))
                    "https://api.example" "key" "/embed" (Some "POST")
                    (VObj [("text", VStr "hello")]) tt tt
                    (mkResponse false 429
                       (Return (VObj [("error",
                                       VObj [("message",
                                              VStr "Rate limit exceeded")])])))
                    (VObj [("error", VObj [("message", VStr "Rate limit exceeded")])])
                    (VStr "Rate limit exceeded")
                    eq_refl eq_refl eq_refl eq_refl)
             "Rate limit exceeded" eq_refl).
    discriminate.
  - apply (proj2 (callApi_rejects_non_success unit
                    (fetch_always (mkResponse false 503 (Return (VObj []))))
                    "https://api.example" "key" "/usage" None VUndef tt tt
                    (mkResponse false 503 (Return (VObj [])))
                    (VObj []) VUndef
                    eq_refl eq_refl eq_refl eq_refl)).
    reflexivity.
Defined.

(** C3, counterexample.  The body carries [error.message], the empty
    string; the rejection's message is "API error: 500", not that
    field. *)
Lemma empty_error_message_is_replaced :
  (error <~ getProp (VObj [("error", VObj [("message", VStr "")])]) "error" ;;
   getPropOpt error "message")
  = Return (VStr "")
  /\ callApi
       (createApiClient
          (fetch_always
             (mkResponse false 500
                (Return (VObj [("error", VObj [("message", VStr "")])]))))
          "https://api.example" "key")
       "/embed" (Some "POST") (VObj [("text", VStr "hello")]) tt
     = (Throw (new_Error "API error: 500"), tt).
Proof. split; reflexivity. Qed.

(** ** Maps *)

Section MapFacts.

Import HttpServer.

Variable V : Type.
Implicit Types (m : Map V) (k : string) (v : V).

Lemma map_get_absent k m : map_get k m = None <-> ~ In k (keys m).
Proof.
  unfold keys. induction m as [| [[k' v'] |] m IH]; simpl.
  - tauto.
  - destruct (String.eqb_spec k' k) as [-> | Hne].
    + split; [discriminate | intros H; exfalso; apply H; now left].
    + rewrite IH. split; [intros H [Heq | Hin]; [congruence | tauto] | tauto].
  - exact IH.
Qed.

Lemma map_get_set_same k v m : map_get k (map_set k v m) = Some v.
Proof.
  induction m as [| [[k' v'] |] m IH]; simpl.
  - now rewrite String.eqb_refl.
  - destruct (String.eqb_spec k' k) as [-> | Hne]; simpl.
    + now rewrite String.eqb_refl.
    + destruct (String.eqb_spec k' k); [contradiction | exact IH].
  - exact IH.
Qed.

Lemma map_get_set_other k k' v m :
  k <> k' -> map_get k (map_set k' v m) = map_get k m.
Proof.
  intros Hne. induction m as [| [[k0 v0] |] m IH]; simpl.
  - destruct (String.eqb_spec k' k); [congruence | reflexivity].
  - destruct (String.eqb_spec k0 k') as [-> | Hk0]; simpl.
    + destruct (String.eqb_spec k' k); [congruence | reflexivity].
    + destruct (k0 =? k); [reflexivity | exact IH].
  - exact IH.
Qed.

Lemma keys_delete_incl k m : incl (keys (map_delete k m)) (keys m).
Proof.
  unfold keys. induction m as [| [[k' v'] |] m IH]; simpl.
  - apply incl_refl.
  - destruct (k' =? k); simpl.
    + apply incl_tl, incl_refl.
    + intros x [<- | Hin]; [now left | right; now apply IH].
  - exact IH.
Qed.

Lemma map_get_delete_absent k k' m :
  map_get k m = None -> map_get k (map_delete k' m) = None.
Proof.
  rewrite !map_get_absent. intros Hk Hin. apply Hk.
  now apply (keys_delete_incl k' m).
Qed.

(** Keys are unique in every map built by [set] and [delete]. *)
Lemma keys_set k v m :
  keys (map_set k v m)
  = if map_has k m then keys m else (keys m ++ [k])%list.
Proof.
  unfold keys, map_has. induction m as [| [[k' v'] |] m IH]; simpl.
  - reflexivity.
  - destruct (String.eqb_spec k' k) as [-> | Hne]; simpl; [reflexivity |].
    rewrite IH. now destruct (map_get k m).
  - exact IH.
Qed.

Lemma unique_set k v m : NoDup (keys m) -> NoDup (keys (map_set k v m)).
Proof.
  intros Hm. rewrite keys_set. unfold map_has.
  destruct (map_get k m) eqn:Hget; [exact Hm |].
  apply map_get_absent in Hget.
  apply NoDup_rev in Hm. rewrite <- (rev_involutive (keys m ++ [k])).
  apply NoDup_rev. rewrite rev_app_distr. simpl. constructor; [| exact Hm].
  now rewrite <- in_rev.
Qed.

Lemma unique_delete k m : NoDup (keys m) -> NoDup (keys (map_delete k m)).
Proof.
  unfold keys. induction m as [| [[k' v'] |] m IH]; simpl; intros Hm.
  - exact Hm.
  - inversion Hm as [| ? ? Hnotin Hrest]; subst.
    destruct (k' =? k); simpl; [exact Hrest |].
    constructor; [| now apply IH].
    intros Hin. apply Hnotin. now apply (keys_delete_incl k m).
  - now apply IH.
Qed.

Lemma map_get_delete_same k m :
  NoDup (keys m) -> map_get k (map_delete k m) = None.
Proof.
  unfold keys. induction m as [| [[k' v'] |] m IH]; simpl; intros Hm.
  - reflexivity.
  - inversion Hm as [| ? ? Hnotin Hrest]; subst.
    destruct (String.eqb_spec k' k) as [-> | Hne]; simpl.
    + now apply map_get_absent.
    + destruct (String.eqb_spec k' k); [contradiction | now apply IH].
  - now apply IH.
Qed.

End MapFacts.

(** ** Shutdown *)

Section ShutdownFacts.

Import HttpServer.

Variable Runtime : Type.
Variable close : nat -> Runtime -> bool * completion * Runtime.

Implicit Types (s : Server Runtime) (m : Map nat).

(** The entry that [onclose] looks up is found at or before any slot
    that holds the transport. *)
Lemma find_sid_at_or_before transport (pre : Map nat) sid0 rest :
  exists sid,
    find_sid transport (pre ++ Some (sid0, transport) :: rest)%list = Some sid
    /\ In sid (keys (pre ++ [Some (sid0, transport)])%list).
Proof.
  unfold find_sid, keys. induction pre as [| [[k v] |] pre IH]; simpl.
  - rewrite Nat.eqb_refl. exists sid0. simpl. auto.
  - destruct (v =? transport)%nat.
    + exists k. simpl. auto.
    + destruct IH as (sid & Hfind & Hin). exists sid. auto.
  - exact IH.
Qed.

(** Deleting a key that lives at or before a slot leaves what follows
    the slot in place. *)
Lemma map_delete_keeps_suffix k (pre : Map nat) x rest :
  In k (keys (pre ++ [x])%list) ->
  exists pre' x',
    map_delete k (pre ++ x :: rest)%list = (pre' ++ x' :: rest)%list
    /\ List.length pre' = List.length pre.
Proof.
  unfold keys. induction pre as [| [[k' v'] |] pre IH]; simpl; intros Hin.
  - destruct x as [[k' v'] |]; simpl in Hin; [| contradiction].
    destruct Hin as [-> | []]. rewrite String.eqb_refl. now exists [], None.
  - destruct (String.eqb_spec k' k) as [-> | Hne].
    + now exists (None :: pre), x.
    + destruct Hin as [Heq | Hin]; [contradiction |].
      destruct (IH Hin) as (pre' & x' & -> & Hlen).
      exists (Some (k', v') :: pre'), x'. simpl. now rewrite Hlen.
  - destruct (IH Hin) as (pre' & x' & -> & Hlen).
    exists (None :: pre'), x'. simpl. now rewrite Hlen.
Qed.

Lemma onclose_keeps_suffix transport s (pre : Map nat) sid0 rest :
  streamableTransports s = (pre ++ Some (sid0, transport) :: rest)%list ->
  (exists pre' x',
      streamableTransports (onclose transport s) = (pre' ++ x' :: rest)%list
      /\ List.length pre' = List.length pre)
  /\ sdk_calls (onclose transport s) = sdk_calls s.
Proof.
  intros Hs. unfold onclose. rewrite Hs.
  destruct (find_sid_at_or_before transport pre sid0 rest) as (sid & Hfind & Hin).
  rewrite Hfind. simpl.
  destruct (sid =? ""); simpl.
  - split; [| reflexivity]. rewrite Hs. eauto.
  - split; [| reflexivity]. now apply map_delete_keeps_suffix.
Qed.

Lemma close_one_keeps_suffix transport s (pre : Map nat) sid0 rest :
  streamableTransports s = (pre ++ Some (sid0, transport) :: rest)%list ->
  (exists pre' x',
      streamableTransports (fst (close_one close sid0 transport s))
      = (pre' ++ x' :: rest)%list
      /\ List.length pre' = List.length pre)
  /\ sdk_calls (fst (close_one close sid0 transport s))
     = (sdk_calls s ++ [CallClose transport])%list.
Proof.
  intros Hs. unfold close_one.
  destruct (close transport _) as [[fired c] rt] eqn:Hclose. simpl.
  destruct fired.
  - match goal with
    | |- context [onclose transport ?s1] =>
        destruct (onclose_keeps_suffix transport s1 pre sid0 rest Hs)
          as [Hkeep Hcalls]
    end.
    split; [exact Hkeep | now rewrite Hcalls].
  - split; [| reflexivity]. simpl. rewrite Hs. eauto.
Qed.

(** The loop closes every stored transport, once each and in order,
    and collects one outcome per entry. *)
Lemma sweep_closes_all (suffix pre : Map nat) s settled :
  streamableTransports s = (pre ++ suffix)%list ->
  sdk_calls (fst (sweep close (List.length suffix) (List.length pre) s settled))
  = (sdk_calls s ++ map CallClose (map snd (entries suffix)))%list
  /\ map fst (snd (sweep close (List.length suffix) (List.length pre) s settled))
     = (map fst settled ++ keys suffix)%list.
Proof.
  revert pre s settled.
  induction suffix as [| slot rest IH]; intros pre s settled Hs; simpl.
  - now rewrite !app_nil_r.
  - rewrite Hs, nth_error_app2, Nat.sub_diag by lia. simpl.
    destruct slot as [[sid transport] |].
    + destruct (close_one_keeps_suffix transport s pre sid rest Hs)
        as [(pre' & x' & Hkeep & Hlen) Hcalls].
      destruct (close_one close sid transport s) as [s' c]. simpl in *.
      replace (pre' ++ x' :: rest)%list with ((pre' ++ [x']) ++ rest)%list in Hkeep
        by (now rewrite <- app_assoc).
      replace (S (List.length pre)) with (List.length (pre' ++ [x'])%list)
        by (rewrite length_app; simpl; lia).
      destruct (IH _ _ (settled ++ [(sid, c)])%list Hkeep) as [IHcalls IHsettled].
      rewrite IHcalls, IHsettled, Hcalls, map_app, <- !app_assoc.
      unfold keys. simpl. auto.
    + replace (pre ++ None :: rest)%list with ((pre ++ [None]) ++ rest)%list in Hs
        by (now rewrite <- app_assoc).
      replace (S (List.length pre)) with (List.length (pre ++ [None])%list)
        by (rewrite length_app; simpl; lia).
      unfold keys. simpl. exact (IH _ _ settled Hs).
Qed.

Lemma catch_close_calls (l : list (string * completion)) s :
  sdk_calls (fold_left catch_close l s) = sdk_calls s.
Proof.
  revert s. induction l as [| [sid c] l IH]; intros s; simpl; [reflexivity |].
  rewrite IH. unfold catch_close. simpl. now destruct c.
Qed.

(** C6.  With any number of open streamable sessions and whatever each
    [close] does (resolve or reject, call [onclose] or not), [shutdown]
    calls [close] on the transport of every stored entry, once each and
    in store order; afterwards the streamable store and the legacy store
    are both empty and the listener has been told to stop. *)
Theorem shutdown_closes_all_and_empties_stores :
  forall (signal : string) (s : Server Runtime),
    sdk_calls (shutdown close signal s)
    = (sdk_calls s
       ++ map CallClose (map snd (entries (streamableTransports s))))%list
    /\ streamableTransports (shutdown close signal s) = []
    /\ sseTransports (shutdown close signal s) = []
    /\ listening (shutdown close signal s) = false.
Proof.
  intros signal s. unfold shutdown.
  set (s1 := log "info" _ [] None s).
  destruct (sweep_closes_all (streamableTransports s1) [] s1 [] eq_refl)
    as [Hcalls _].
  change (List.length (@nil (option (string * nat)))) with 0%nat in Hcalls.
  destruct (sweep close (List.length (streamableTransports s1)) 0 s1 [])
    as [s2 settled].
  simpl in Hcalls. repeat split.
  simpl. rewrite catch_close_calls. exact Hcalls.
Qed.

End ShutdownFacts.

(** ** Invariants of the streamable session store *)

Section StoreInvariant.

Import HttpServer.

Variable S2T_CORS_ORIGINS : option string.
Variable URL_hostname : string -> option string.
Variable Runtime : Type.
Variable isInitializeRequest : value -> bool.
Variable uuid : nat -> string.
Variable connect : nat -> Runtime -> completion * Runtime.
Variable handleRequest :
  nat -> Request -> Runtime -> list callback * completion * Runtime.
Variable close : nat -> Runtime -> bool * completion * Runtime.
Variable sse_sessionId : nat -> Runtime -> string.
Variable handlePostMessage : nat -> Request -> Runtime -> completion * Runtime.
Variable process_uptime : Runtime -> Z.

(** A property of the store and of the number of identifiers drawn that
    survives the four ways the code touches them. *)
Variable P : Map nat -> nat -> Prop.
Hypothesis P_set :
  forall m d transport, P m d -> P (map_set (uuid d) transport m) (S d).
Hypothesis P_delete : forall m d k, P m d -> P (map_delete k m) d.
Hypothesis P_draw : forall m d, P m d -> P m (S d).
Hypothesis P_clear : forall m d, P m d -> P [] d.

Implicit Types (s : Server Runtime) (req : Request).

Local Abbreviation inv s := (P (streamableTransports s) (drawn s)).

Lemma inv_onsessioninitialized transport s :
  inv s -> inv (onsessioninitialized uuid transport s).
Proof. unfold onsessioninitialized. simpl. apply P_set. Qed.

Lemma inv_onclose transport s : inv s -> inv (onclose transport s).
Proof.
  unfold onclose. intros H.
  destruct (present (find_sid transport (streamableTransports s))); simpl;
    [now apply P_delete | exact H].
Qed.

Lemma inv_callbacks transport callbacks s :
  inv s -> inv (fold_left (run_callback uuid transport) callbacks s).
Proof.
  revert s. induction callbacks as [| c callbacks IH]; intros s H; simpl;
    [exact H |].
  apply IH. destruct c; simpl;
    [now apply inv_onsessioninitialized | now apply inv_onclose].
Qed.

Lemma inv_delegate transport req s :
  inv s -> inv (snd (delegate uuid handleRequest transport req s)).
Proof.
  intros H. unfold delegate.
  destruct (handleRequest transport req (runtime s)) as [[callbacks c] rt].
  simpl. now apply inv_callbacks.
Qed.

Lemma inv_post_mcp req s :
  inv s ->
  inv (snd (post_mcp isInitializeRequest uuid connect handleRequest req s)).
Proof.
  intros H. unfold post_mcp.
  destruct (session_of req s) as [transport |].
  - pose proof (inv_delegate transport req s H) as Hd.
    now destruct (delegate uuid handleRequest transport req s).
  - destruct (negb (present (mcp_session_id req))
              && isInitializeRequest (payload req)); [| exact H].
    simpl. destruct (connect (allocated s) (runtime s)) as [connected rt].
    destruct connected as [| e]; [| exact H].
    match goal with
    | |- context [delegate uuid handleRequest ?t req ?s0] =>
        pose proof (inv_delegate t req s0 H) as Hd;
        now destruct (delegate uuid handleRequest t req s0)
    end.
Qed.

Lemma inv_get_mcp req s :
  inv s -> inv (snd (get_mcp uuid handleRequest req s)).
Proof.
  intros H. unfold get_mcp.
  destruct (session_of req s) as [transport |]; [| exact H].
  pose proof (inv_delegate transport req s H) as Hd.
  now destruct (delegate uuid handleRequest transport req s).
Qed.

Lemma inv_delete_mcp req s :
  inv s -> inv (snd (delete_mcp uuid handleRequest req s)).
Proof.
  intros H. unfold delete_mcp.
  destruct (session_of req s) as [transport |]; [| exact H].
  pose proof (inv_delegate transport req s H) as Hd.
  destruct (delegate uuid handleRequest transport req s) as [[| e] s1];
    simpl in *; [now apply P_delete | exact Hd].
Qed.

Lemma inv_get_sse req s : inv s -> inv (snd (get_sse uuid connect req s)).
Proof.
  intros H. unfold get_sse. simpl.
  destruct (connect (allocated s) (runtime s)) as [connected rt]. simpl.
  now apply P_draw.
Qed.

Lemma inv_post_messages req s :
  inv s -> inv (snd (post_messages sse_sessionId handlePostMessage req s)).
Proof.
  intros H. unfold post_messages.
  destruct (negb (present (query_sessionId req))); [exact H |].
  destruct (find _ (entries (sseTransports s))) as [[k matched] |]; [| exact H].
  now destruct (handlePostMessage matched req (runtime s)).
Qed.

Lemma inv_route req s :
  inv s ->
  inv (snd (route isInitializeRequest uuid connect handleRequest sse_sessionId
              handlePostMessage process_uptime req s)).
Proof.
  intros H. unfold route.
  repeat match goal with
         | |- context [if ?b then _ else _] => destruct b
         end;
    auto using inv_post_mcp, inv_get_mcp, inv_delete_mcp, inv_get_sse,
      inv_post_messages.
Qed.

Lemma inv_serve req s :
  inv s ->
  inv (snd (serve S2T_CORS_ORIGINS URL_hostname isInitializeRequest uuid connect
              handleRequest sse_sessionId handlePostMessage process_uptime
              req s)).
Proof.
  intros H. unfold serve. destruct (http_method req =? "OPTIONS"); [exact H |].
  pose proof (inv_route req s H) as Hr.
  now destruct (route _ _ _ _ _ _ _ req s).
Qed.

Lemma inv_close_one sid transport s :
  inv s -> inv (fst (close_one close sid transport s)).
Proof.
  intros H. unfold close_one.
  destruct (close transport _) as [[fired c] rt]. simpl.
  destruct fired; [apply inv_onclose |]; exact H.
Qed.

Lemma inv_sweep n i s settled :
  inv s -> inv (fst (sweep close n i s settled)).
Proof.
  revert i s settled. induction n as [| n IH]; intros i s settled H; simpl;
    [exact H |].
  destruct (nth_error (streamableTransports s) i) as [[[sid transport] |] |];
    [| now apply IH | exact H].
  pose proof (inv_close_one sid transport s H) as Hc.
  destruct (close_one close sid transport s) as [s' c]. now apply IH.
Qed.

Lemma inv_catch_close l s : inv s -> inv (fold_left catch_close l s).
Proof.
  revert s. induction l as [| [sid c] l IH]; intros s H; simpl; [exact H |].
  apply IH. unfold catch_close. simpl. now destruct c.
Qed.

Lemma inv_shutdown signal s : inv s -> inv (shutdown close signal s).
Proof.
  intros H. unfold shutdown.
  match goal with
  | |- context [sweep close ?n 0 ?s1 []] =>
      pose proof (inv_sweep n 0 s1 [] H) as Hs;
      destruct (sweep close n 0 s1 []) as [s2 settled]
  end.
  simpl in Hs. apply (inv_catch_close settled) in Hs.
  simpl. now apply P_clear in Hs.
Qed.

Lemma inv_step s e :
  inv s ->
  inv (step S2T_CORS_ORIGINS URL_hostname isInitializeRequest uuid connect
         handleRequest close sse_sessionId handlePostMessage process_uptime s e).
Proof.
  intros H. destruct e as [req | connectionId | transport | signal]; simpl.
  - now apply inv_serve.
  - exact H.
  - now apply inv_onclose.
  - now apply inv_shutdown.
Qed.

Lemma inv_run events s :
  inv s ->
  inv (run S2T_CORS_ORIGINS URL_hostname isInitializeRequest uuid connect
         handleRequest close sse_sessionId handlePostMessage process_uptime
         s events).
Proof.
  unfold run. revert s. induction events as [| e events IH]; intros s H; simpl;
    [exact H |].
  apply IH. now apply inv_step.
Qed.

End StoreInvariant.

(** ** Sessions and origins *)

Lemma string_of_Z_inj (a b : Z) : string_of_Z a = string_of_Z b -> a = b.
Proof.
  intros H. apply DecimalZ.to_int_inj.
  assert (Hnil : forall z,
             Z.to_int z <> Decimal.Pos Decimal.Nil
             /\ Z.to_int z <> Decimal.Neg Decimal.Nil).
  { intros [| p | p]; simpl; split; intros [= Hp]; try discriminate;
      now apply (DecimalPos.Unsigned.to_uint_nonnil p). }
  apply (f_equal NilZero.int_of_string) in H. unfold string_of_Z in H.
  rewrite !NilZero.isi in H by apply Hnil. congruence.
Qed.

Section SessionFacts.

Import HttpServer.

Variable S2T_CORS_ORIGINS : option string.
Variable URL_hostname : string -> option string.
Variable Runtime : Type.
Variable isInitializeRequest : value -> bool.
Variable uuid : nat -> string.
Variable connect : nat -> Runtime -> completion * Runtime.
Variable handleRequest :
  nat -> Request -> Runtime -> list callback * completion * Runtime.
Variable close : nat -> Runtime -> bool * completion * Runtime.
Variable sse_sessionId : nat -> Runtime -> string.
Variable handlePostMessage : nat -> Request -> Runtime -> completion * Runtime.
Variable process_uptime : Runtime -> Z.

Local Abbreviation app_serve :=
  (serve S2T_CORS_ORIGINS URL_hostname isInitializeRequest uuid connect
     handleRequest sse_sessionId handlePostMessage process_uptime).
Local Abbreviation app_route :=
  (route isInitializeRequest uuid connect handleRequest sse_sessionId
     handlePostMessage process_uptime).
Local Abbreviation app_run :=
  (run S2T_CORS_ORIGINS URL_hostname isInitializeRequest uuid connect
     handleRequest close sse_sessionId handlePostMessage process_uptime).
Local Abbreviation allowed := (isOriginAllowed S2T_CORS_ORIGINS URL_hostname).
Local Abbreviation cors := (cors_headers S2T_CORS_ORIGINS URL_hostname).

Implicit Types (s : Server Runtime) (req : Request).

(** Keys stay unique from startup on. *)
Lemma unique_keys_reachable (rt : Runtime) (history : list event) :
  NoDup (keys (streamableTransports (app_run (startup rt) history))).
Proof.
  apply (inv_run S2T_CORS_ORIGINS URL_hostname Runtime isInitializeRequest uuid
           connect handleRequest close sse_sessionId handlePostMessage
           process_uptime (fun m _ => NoDup (keys m))).
  - intros m d transport. apply unique_set.
  - intros m d k. apply unique_delete.
  - auto.
  - intros. constructor.
  - constructor.
Qed.

Local Abbreviation forgotten := (forgotten uuid).

Lemma forgotten_run (t : string) (events : list event) s :
  forgotten t (streamableTransports s) (drawn s) ->
  forgotten t (streamableTransports (app_run s events))
    (drawn (app_run s events)).
Proof.
  apply (inv_run S2T_CORS_ORIGINS URL_hostname Runtime isInitializeRequest uuid
           connect handleRequest close sse_sessionId handlePostMessage
           process_uptime (forgotten t)); unfold forgotten.
  - intros m d transport [Hget Hfresh]. split.
    + rewrite map_get_set_other; [exact Hget |].
      intros ->. now apply (Hfresh d).
    + intros n Hn. apply Hfresh. lia.
  - intros m d k [Hget Hfresh]. split; [| exact Hfresh].
    now apply map_get_delete_absent.
  - intros m d [Hget Hfresh]. split; [exact Hget |].
    intros n Hn. apply Hfresh. lia.
  - intros m d [Hget Hfresh]. now split.
Qed.

Lemma issued_only_preserved :
  (forall m d transport,
      issued_only uuid m d -> issued_only uuid (map_set (uuid d) transport m) (S d))
  /\ (forall m d k, issued_only uuid m d -> issued_only uuid (map_delete k m) d)
  /\ (forall m d, issued_only uuid m d -> issued_only uuid m (S d))
  /\ (forall m d, issued_only uuid m d -> issued_only uuid [] d).
Proof.
  unfold issued_only. repeat split.
  - intros m d transport H k Hin. rewrite keys_set in Hin.
    assert (Hcases : In k (keys m) \/ k = uuid d).
    { destruct (map_has (uuid d) m); [now left |].
      apply in_app_or in Hin as [Hin | [<- | []]]; auto. }
    destruct Hcases as [Hold | ->].
    + destruct (H k Hold) as (n & Hn & Heq). exists n. split; [lia | exact Heq].
    + exists d. split; [lia | reflexivity].
  - intros m d k H k' Hin. apply H. now apply (keys_delete_incl nat k m).
  - intros m d H k Hin. destruct (H k Hin) as (n & Hn & Heq).
    exists n. split; [lia | exact Heq].
  - intros m d H k [].
Qed.

(** A request on [/mcp] whose token is not stored is rejected, and the
    state stays as it was. *)
Lemma unknown_token_rejected t req s :
  t <> "" ->
  path req = "/mcp" ->
  mcp_session_id req = Some t ->
  map_get t (streamableTransports s) = None ->
  (http_method req = "POST" ->
   app_serve req s = (cors req, Json 400 NO_VALID_SESSION, s))
  /\ (http_method req = "GET" ->
      app_serve req s = (cors req, Json 400 INVALID_SESSION, s)).
Proof.
  intros Ht Hpath Hid Hget.
  assert (Hpresent : present (mcp_session_id req) = true).
  { rewrite Hid. simpl. now destruct (String.eqb_spec t ""). }
  assert (Hsession : session_of req s = None).
  { unfold session_of. rewrite Hpresent, Hid. exact Hget. }
  split; intros Hmethod; unfold serve, route; rewrite Hmethod, Hpath; simpl.
  - unfold post_mcp. now rewrite Hsession, Hpresent.
  - unfold get_mcp. now rewrite Hsession.
Qed.

(** C5.  For every token [t] and every state the server reaches from
    startup: if a session is stored under [t] and a DELETE /mcp bearing
    [t] is carried out (the transport has handled it), then [t] is no
    longer in the streamable store; and from then on, as long as
    [randomUUID] does not produce [t] again, [t] stays out of the store
    and a POST /mcp or GET /mcp bearing [t] gets the 400 response with
    JSON-RPC error code -32000, leaves the state unchanged, and is
    answered exactly as the same request bearing a token that was never
    issued. *)
Theorem terminated_session_is_rejected :
  forall (rt : Runtime) (history : list event) (req : Request) (t : string)
         (transport : nat) (hdrs : list (string * string))
         (s' : Server Runtime),
    http_method req = "DELETE" ->
    path req = "/mcp" ->
    mcp_session_id req = Some t ->
    map_get t (streamableTransports (app_run (startup rt) history))
    = Some transport ->
    app_serve req (app_run (startup rt) history)
    = (hdrs, Delegated transport, s') ->
    map_has t (streamableTransports s') = false
    /\ forall later : list event,
         (forall n, (drawn s' <= n)%nat -> uuid n <> t) ->
         map_has t (streamableTransports (app_run s' later)) = false
         /\ forall req',
              path req' = "/mcp" ->
              mcp_session_id req' = Some t ->
              (http_method req' = "POST" ->
               app_serve req' (app_run s' later)
               = (cors req', Json 400 NO_VALID_SESSION, app_run s' later))
              /\ (http_method req' = "GET" ->
                  app_serve req' (app_run s' later)
                  = (cors req', Json 400 INVALID_SESSION, app_run s' later))
              /\ forall t',
                   t' <> "" ->
                   (forall n, (n < drawn (app_run s' later))%nat -> uuid n <> t') ->
                   http_method req' = "POST" \/ http_method req' = "GET" ->
                   app_serve (bearing t' req') (app_run s' later)
                   = app_serve req' (app_run s' later).
Proof.
  intros rt history req t transport hdrs s' Hmethod Hpath Hid Hstored Hserve.
  set (s := app_run (startup rt) history) in *.
  assert (Hunique : NoDup (keys (streamableTransports s)))
    by apply unique_keys_reachable.
  destruct issued_only_preserved as (Iset & Idelete & Idraw & Iclear).
  assert (Hissued : issued_only uuid (streamableTransports s') (drawn s')).
  { pose proof (inv_serve S2T_CORS_ORIGINS URL_hostname Runtime
                  isInitializeRequest uuid connect handleRequest sse_sessionId
                  handlePostMessage process_uptime (issued_only uuid)
                  Iset Idelete Idraw req s) as Hstep.
    rewrite Hserve in Hstep. apply Hstep.
    apply (inv_run S2T_CORS_ORIGINS URL_hostname Runtime isInitializeRequest
             uuid connect handleRequest close sse_sessionId handlePostMessage
             process_uptime (issued_only uuid) Iset Idelete Idraw Iclear).
    intros k []. }
  (* the token is a non-empty string, or DELETE would have been refused *)
  unfold serve, route in Hserve. rewrite Hmethod, Hpath in Hserve.
  simpl in Hserve. unfold delete_mcp in Hserve.
  destruct (session_of req s) as [tr |] eqn:Hsession; [| discriminate].
  assert (Ht : t <> "").
  { unfold session_of in Hsession. rewrite Hid in Hsession. simpl in Hsession.
    destruct (String.eqb_spec t ""); [discriminate | assumption]. }
  (* the store after the DELETE *)
  assert (Hgone : map_get t (streamableTransports s') = None).
  { pose proof (inv_delegate Runtime uuid handleRequest
                  (fun m _ => NoDup (keys m))
                  (fun m d tr0 => unique_set nat (uuid d) tr0 m)
                  (fun m d k => unique_delete nat k m)
                  tr req s Hunique) as Hd.
    destruct (delegate uuid handleRequest tr req s) as [[| e] s1];
      [| discriminate].
    injection Hserve as _ _ <-. simpl. rewrite Hid. simpl.
    now apply map_get_delete_same. }
  split; [unfold map_has; now rewrite Hgone |].
  intros later Hfresh.
  destruct (forgotten_run t later s' (conj Hgone Hfresh)) as [Hlater _].
  split; [unfold map_has; now rewrite Hlater |].
  intros req' Hpath' Hid'.
  destruct (unknown_token_rejected t req' (app_run s' later) Ht Hpath' Hid' Hlater)
    as [Hpost Hget].
  split; [exact Hpost | split; [exact Hget |]].
  intros t' Ht' Hnever Hm.
  assert (Hnone : map_get t' (streamableTransports (app_run s' later)) = None).
  { apply map_get_absent. intros Hin.
    destruct (inv_run S2T_CORS_ORIGINS URL_hostname Runtime isInitializeRequest
                uuid connect handleRequest close sse_sessionId
                handlePostMessage process_uptime (issued_only uuid)
                Iset Idelete Idraw Iclear later s' Hissued t' Hin)
      as (n & Hn & Heq).
    exact (Hnever n Hn Heq). }
  destruct (unknown_token_rejected t' (bearing t' req') (app_run s' later)
              Ht' Hpath' eq_refl Hnone) as [Hpost' Hget'].
  destruct Hm as [Hm | Hm].
  - rewrite (Hpost Hm). exact (Hpost' Hm).
  - rewrite (Hget Hm). exact (Hget' Hm).
Qed.

End SessionFacts.

Lemma loopback_uuid_inj (n m : nat) : Loopback.uuid n = Loopback.uuid m -> n = m.
Proof.
  unfold Loopback.uuid. intros H. simpl in H. injection H as H.
  apply string_of_Z_inj in H. lia.
Qed.

Lemma terminated_session_is_rejected_witness :
  HttpServer.map_has "session-0"
    (HttpServer.streamableTransports Loopback.terminated) = false
  /\ Loopback.serve None
       (Loopback.mcp "POST" None (Some "session-0") Loopback.tools_list)
       Loopback.afterwards
     = (HttpServer.cors_headers None Loopback.URL_hostname
          (Loopback.mcp "POST" None (Some "session-0") Loopback.tools_list),
        HttpServer.Json 400 HttpServer.NO_VALID_SESSION,
        Loopback.afterwards)
  /\ Loopback.serve None
       (Loopback.mcp "GET" None (Some "session-0") VUndef) Loopback.afterwards
     = (HttpServer.cors_headers None Loopback.URL_hostname
          (Loopback.mcp "GET" None (Some "session-0") VUndef),
        HttpServer.Json 400 HttpServer.INVALID_SESSION,
        Loopback.afterwards)
  /\ Loopback.serve None
       (bearing "never-issued"
          (Loopback.mcp "GET" None (Some "session-0") VUndef))
       Loopback.afterwards
     = Loopback.serve None
         (Loopback.mcp "GET" None (Some "session-0") VUndef)
         Loopback.afterwards.
Proof.
  destruct (terminated_session_is_rejected None Loopback.URL_hostname unit
              Loopback.isInitializeRequest Loopback.uuid Loopback.connect
              Loopback.handleRequest Loopback.close Loopback.sse_sessionId
              Loopback.handlePostMessage Loopback.process_uptime
              tt
              [HttpServer.Http (Loopback.mcp "POST" None None Loopback.initialize)]
              Loopback.terminate "session-0" 0%nat
              (HttpServer.cors_headers None Loopback.URL_hostname
                 Loopback.terminate)
              Loopback.terminated
              eq_refl eq_refl eq_refl eq_refl eq_refl)
    as [Hgone Hlater].
  split; [exact Hgone |].
  assert (Hfresh : forall n, (1 <= n)%nat -> Loopback.uuid n <> "session-0").
  { intros n Hn Heq. apply (loopback_uuid_inj n 0) in Heq. lia. }
  destruct (Hlater
              [HttpServer.Http (Loopback.mcp "POST" None None Loopback.initialize)]
              Hfresh) as [_ Hreject].
  split; [| split].
  - destruct (Hreject
                (Loopback.mcp "POST" None (Some "session-0") Loopback.tools_list)
                eq_refl eq_refl) as [Hpost _].
    exact (Hpost eq_refl).
  - destruct (Hreject (Loopback.mcp "GET" None (Some "session-0") VUndef)
                eq_refl eq_refl) as (_ & Hget & _).
    exact (Hget eq_refl).
  - destruct (Hreject (Loopback.mcp "GET" None (Some "session-0") VUndef)
                eq_refl eq_refl) as (_ & _ & Hother).
    apply (Hother "never-issued"); [discriminate | | now right].
    intros n _. unfold Loopback.uuid. simpl. discriminate.
Defined.

(** ** The origin check *)

Lemma set_has_In (x : string) (members : list string) :
  HttpServer.set_has x members = true <-> In x members.
Proof.
  unfold HttpServer.set_has. rewrite existsb_exists. split.
  - intros (y & Hin & Heq). apply String.eqb_eq in Heq. now subst.
  - intros Hin. exists x. split; [exact Hin | apply String.eqb_refl].
Qed.

Section OriginFacts.

Import HttpServer.

Variable S2T_CORS_ORIGINS : option string.
Variable URL_hostname : string -> option string.
Variable Runtime : Type.
Variable isInitializeRequest : value -> bool.
Variable uuid : nat -> string.
Variable connect : nat -> Runtime -> completion * Runtime.
Variable handleRequest :
  nat -> Request -> Runtime -> list callback * completion * Runtime.
Variable sse_sessionId : nat -> Runtime -> string.
Variable handlePostMessage : nat -> Request -> Runtime -> completion * Runtime.
Variable process_uptime : Runtime -> Z.

Local Abbreviation app_serve :=
  (serve S2T_CORS_ORIGINS URL_hostname isInitializeRequest uuid connect
     handleRequest sse_sessionId handlePostMessage process_uptime).
Local Abbreviation app_route :=
  (route isInitializeRequest uuid connect handleRequest sse_sessionId
     handlePostMessage process_uptime).
Local Abbreviation allowed := (isOriginAllowed S2T_CORS_ORIGINS URL_hostname).
Local Abbreviation cors := (cors_headers S2T_CORS_ORIGINS URL_hostname).

Lemma isOriginAllowed_spec (o : option string) :
  allowed o = true
  <-> present o = false
      \/ ALLOWED_ORIGINS S2T_CORS_ORIGINS = []
      \/ In (or_empty o) (ALLOWED_ORIGINS S2T_CORS_ORIGINS)
      \/ exists hostname,
           URL_hostname (or_empty o) = Some hostname
           /\ (hostname = "s2tconsulting.com"
               \/ endsWith hostname ".s2tconsulting.com" = true).
Proof.
  unfold isOriginAllowed.
  destruct (present o); cbn [negb]; [| split; auto].
  destruct (Nat.eqb_spec (List.length (ALLOWED_ORIGINS S2T_CORS_ORIGINS)) 0)
    as [Hempty | Hfull].
  { apply length_zero_iff_nil in Hempty. split; auto. }
  assert (Hlist : ALLOWED_ORIGINS S2T_CORS_ORIGINS <> []).
  { intros H. apply Hfull. now rewrite H. }
  destruct (set_has (or_empty o) (ALLOWED_ORIGINS S2T_CORS_ORIGINS)) eqn:Hhas.
  - apply set_has_In in Hhas. split; auto.
  - assert (Hnotin : ~ In (or_empty o) (ALLOWED_ORIGINS S2T_CORS_ORIGINS)).
    { intros Hin. apply set_has_In in Hin. congruence. }
    destruct (URL_hostname (or_empty o)) as [hostname |].
    + rewrite orb_true_iff, String.eqb_eq. split.
      * intros H. right. right. right. exists hostname. auto.
      * intros [H | [H | [H | (h & [= <-] & H)]]];
          [discriminate | contradiction | contradiction | exact H].
    + split; [discriminate |].
      intros [H | [H | [H | (h & Hh & _)]]];
        [discriminate | contradiction | contradiction | discriminate].
Qed.

(** C7, as amended.  The CORS middleware runs on every request, before
    any route: its headers are on every reply.  [isOriginAllowed] accepts
    a request with no (or an empty) Origin, any origin when the allow-list
    is empty, an origin listed verbatim, and an origin whose host is
    [s2tconsulting.com] or ends with [.s2tconsulting.com]; with no
    allow-list configured it accepts every origin.  Its verdict decides
    whether [Access-Control-Allow-Origin] is set and nothing else: every
    request other than OPTIONS goes on to its route, allowed or not. *)
Theorem origin_check_sets_a_header_only :
  forall (req : Request) (s : Server Runtime),
    fst (fst (app_serve req s)) = cors req
    /\ (allow_origin (cors req) <> None <-> allowed (origin req) = true)
    /\ (allowed (origin req) = true
        <-> present (origin req) = false
            \/ ALLOWED_ORIGINS S2T_CORS_ORIGINS = []
            \/ In (or_empty (origin req)) (ALLOWED_ORIGINS S2T_CORS_ORIGINS)
            \/ exists hostname,
                 URL_hostname (or_empty (origin req)) = Some hostname
                 /\ (hostname = "s2tconsulting.com"
                     \/ endsWith hostname ".s2tconsulting.com" = true))
    /\ (http_method req <> "OPTIONS" ->
        app_serve req s
        = (cors req, fst (app_route req s), snd (app_route req s)))
    /\ (S2T_CORS_ORIGINS = None \/ S2T_CORS_ORIGINS = Some "" ->
        allowed (origin req) = true).
Proof.
  intros req s. repeat split.
  - unfold serve. destruct (http_method req =? "OPTIONS"); [reflexivity |].
    now destruct (route _ _ _ _ _ _ _ req s).
  - unfold cors_headers, allow_origin.
    destruct (isOriginAllowed _ _ (origin req)); simpl; [reflexivity |].
    intros H. now contradiction H.
  - intros Hallowed. unfold cors_headers, allow_origin. rewrite Hallowed.
    simpl. discriminate.
  - apply isOriginAllowed_spec.
  - apply isOriginAllowed_spec.
  - intros Hmethod. unfold serve.
    destruct (String.eqb_spec (http_method req) "OPTIONS"); [contradiction |].
    now destruct (route _ _ _ _ _ _ _ req s).
  - intros Hunset. apply isOriginAllowed_spec. right. left.
    destruct Hunset as [-> | ->]; reflexivity.
Qed.

End OriginFacts.

Lemma origin_check_sets_a_header_only_witness :
  Loopback.serve (Some "https://app.example.com")
    (Loopback.mcp "POST" (Some "https://evil.example") None Loopback.initialize)
    (startup tt)
  = (HttpServer.cors_headers (Some "https://app.example.com")
       Loopback.URL_hostname
       (Loopback.mcp "POST" (Some "https://evil.example") None
          Loopback.initialize),
     HttpServer.Delegated 0,
     snd (HttpServer.post_mcp Loopback.isInitializeRequest Loopback.uuid
            Loopback.connect Loopback.handleRequest
            (Loopback.mcp "POST" (Some "https://evil.example") None
               Loopback.initialize)
            (startup tt)))
  /\ HttpServer.isOriginAllowed None Loopback.URL_hostname
       (Some "https://evil.example") = true.
Proof.
  split.
  - apply (proj1 (proj2 (proj2 (proj2
             (origin_check_sets_a_header_only (Some "https://app.example.com")
                Loopback.URL_hostname unit Loopback.isInitializeRequest
                Loopback.uuid Loopback.connect Loopback.handleRequest
                Loopback.sse_sessionId Loopback.handlePostMessage
                Loopback.process_uptime
                (Loopback.mcp "POST" (Some "https://evil.example") None
                   Loopback.initialize)
                (startup tt)))))).
    discriminate.
  - apply (proj2 (proj2 (proj2 (proj2
             (origin_check_sets_a_header_only None
                Loopback.URL_hostname unit Loopback.isInitializeRequest
                Loopback.uuid Loopback.connect Loopback.handleRequest
                Loopback.sse_sessionId Loopback.handlePostMessage
                Loopback.process_uptime
                (Loopback.mcp "POST" (Some "https://evil.example") None
                   Loopback.initialize)
                (startup tt)))))).
    now left.
Defined.

(** C7, counterexample.  The allow-list is [https://app.example.com];
    an initialize request declares the origin [https://evil.example],
    which [isOriginAllowed] refuses.  The request is nevertheless routed:
    a session is created and stored, only the allow-origin header is
    missing from the reply. *)
Lemma refused_origin_still_creates_a_session :
  HttpServer.ALLOWED_ORIGINS (Some "https://app.example.com")
  = ["https://app.example.com"]
  /\ HttpServer.isOriginAllowed (Some "https://app.example.com")
       Loopback.URL_hostname (Some "https://evil.example") = false
  /\ snd (fst (Loopback.serve (Some "https://app.example.com")
                 (Loopback.mcp "POST" (Some "https://evil.example") None
                    Loopback.initialize)
                 (startup tt)))
     = HttpServer.Delegated 0
  /\ HttpServer.entries
       (HttpServer.streamableTransports
          (snd (Loopback.serve (Some "https://app.example.com")
                  (Loopback.mcp "POST" (Some "https://evil.example") None
                     Loopback.initialize)
                  (startup tt))))
     = [("session-0", 0%nat)]
  /\ allow_origin
       (fst (fst (Loopback.serve (Some "https://app.example.com")
                    (Loopback.mcp "POST" (Some "https://evil.example") None
                       Loopback.initialize)
                    (startup tt))))
     = None.
Proof. repeat split; reflexivity. Qed.

(** ** Scenarios of the test suites *)

(** "should generate embeddings with default parameters" *)
Example embed_default_parameters :
  calls (snd (handleEmbed (VObj [("text", VStr "Test text")])
                (createMockApiClient (response_value mockEmbedResponse))
                (mkState tt [])))
  = [mkCall "/embed" (Some "POST")
       (VObj [("text", VStr "Test text");
              ("model", VStr "amazon.titan-embed-text-v2:0");
              ("chunk_size", VNum 512);
              ("chunk_overlap", VNum 50)])].
Proof. reflexivity. Qed.

(** "should use custom chunk settings when specified" *)
Example embed_custom_chunk_settings :
  embed_payload
    (VObj [("text", VStr "Test"); ("chunk_size", VNum 256);
           ("chunk_overlap", VNum 25)])
  = Return
      (VObj [("text", VStr "Test");
             ("model", VStr "amazon.titan-embed-text-v2:0");
             ("chunk_size", VNum 256);
             ("chunk_overlap", VNum 25)]).
Proof. reflexivity. Qed.

(** "should handle multiple chunks": indices 0, 1, 2. *)
Example embed_three_chunks :
  embed_document
    (response_value
       (mkEmbedResponse
          [mkChunk "Chunk 1" 2; mkChunk "Chunk 2" 2; mkChunk "Chunk 3" 2]
          3 "amazon.titan-embed-text-v2:0" 1024 150 VNull))
  = Return
      (VObj [("summary",
              VStr "Generated 3 embedding(s) using amazon.titan-embed-text-v2:0");
             ("dimensions", VNum 1024);
             ("chunks",
              VArr [preview_entry 0 (mkChunk "Chunk 1" 2);
                    preview_entry 1 (mkChunk "Chunk 2" 2);
                    preview_entry 2 (mkChunk "Chunk 3" 2)]);
             ("usage", VNull);
             ("note", VStr EMBED_NOTE)]).
Proof. reflexivity. Qed.

(** "handleRiskClassify should reject missing action parameter": absent,
    a number, the empty string. *)
Example risk_rejects_bad_action :
  forall bad,
    In bad [VObj []; VObj [("action", VNum 123)]; VObj [("action", VStr "")]] ->
    handleRiskClassify render_as_json bad (createMockApiClient (VObj []))
      (mkState tt [])
    = (Throw (new_Error "Required parameter 'action' must be a non-empty string"),
       mkState tt []).
Proof. intros bad [<- | [<- | [<- | []]]]; reflexivity. Qed.

(** A rejected remote call surfaces through the dispatcher with its
    message unchanged. *)
Example network_error_surfaces :
  callTool render_as_json aci_not_linked local_not_linked "s2t_catalog" VUndef
    (createRejectingApiClient (new_Error "Network error")) (mkState tt [])
  = (Return (failure "Network error"),
     mkState tt [mkCall "/catalog" (Some "GET") VUndef]).
Proof. reflexivity. Qed.

(** The arguments may be missing altogether: the handler's TypeError is
    caught like any other failure. *)
Example missing_arguments_surface :
  callTool render_as_json aci_not_linked local_not_linked "s2t_embed" VUndef
    (createMockApiClient VNull) (mkState tt [])
  = (Return (failure "Cannot read properties of undefined (reading 'text')"),
     mkState tt []).
Proof. reflexivity. Qed.

(** Three sessions, then SIGTERM: three [close] calls, one of which
    fails, and empty stores. *)
Example shutdown_of_three_sessions :
  let s :=
    Loopback.run None (startup tt)
      [HttpServer.Http (Loopback.mcp "POST" None None Loopback.initialize);
       HttpServer.Http (Loopback.mcp "POST" None None Loopback.initialize);
       HttpServer.Http (Loopback.mcp "POST" None None Loopback.initialize);
       HttpServer.Signal "SIGTERM"] in
  HttpServer.streamableTransports s = []
  /\ HttpServer.sseTransports s = []
  /\ filter (fun c => match c with HttpServer.CallClose _ => true | _ => false end)
       (HttpServer.sdk_calls s)
     = [HttpServer.CallClose 0; HttpServer.CallClose 1; HttpServer.CallClose 2]
  /\ map HttpServer.message
       (filter (fun e => HttpServer.level e =? "error") (HttpServer.journal s))
     = ["Error closing streamable transport"].
Proof. repeat split; reflexivity. Qed.

(* ========================================================================= *)
(** * Further properties of the handlers *)
(* ========================================================================= *)

(** ** The shape of a handler run *)

Lemma literal_keys (members : list (string * outcome value)) fs :
  literal members = Return fs -> map fst fs = map fst members.
Proof.
  revert fs. induction members as [| [k e] rest IH]; intros fs H; simpl in H.
  - now injection H as <-.
  - destruct e as [v | err]; simpl in H; [| discriminate].
    destruct (literal rest) as [vs | err]; simpl in H; [| discriminate].
    injection H as <-. simpl. f_equal. now apply IH.
Qed.

Lemma object_keys (members : list (string * outcome value)) b :
  object members = Return b ->
  exists fs, b = VObj fs /\ map fst fs = map fst members.
Proof.
  unfold object. intros H.
  destruct (literal members) as [fs | err] eqn:Hl; simpl in H; [| discriminate].
  injection H as <-. exists fs. split; [reflexivity | now apply literal_keys].
Qed.

Section RunShape.

Variable World : Type.
Variable render : tool -> value -> outcome string.
Variable aci_handler : tool -> value -> ApiClient World -> M World string.
Variable local_handler : tool -> value -> M World string.

Local Abbreviation run_case := (case_body render aci_handler local_handler).

Lemma after_call_run (apiClient : ApiClient World) w b k (s : state World) :
  after_call apiClient w b k s
  = (obind (fst (callApi apiClient (wire_endpoint w) (Some (wire_method w)) b
                   (world s))) k,
     mkState
       (snd (callApi apiClient (wire_endpoint w) (Some (wire_method w)) b
               (world s)))
       (calls s ++ [mkCall (wire_endpoint w) (Some (wire_method w)) b])).
Proof.
  unfold after_call, bind, await_callApi, lift.
  destruct (callApi apiClient _ _ b (world s)) as [[v | e] w']; reflexivity.
Qed.

Lemma guarded_call_cases t args guards endpoint method payload
  (apiClient : ApiClient World) s :
  stops_early
    (guarded_call render t args guards endpoint method payload apiClient s) s
  \/ exists b,
       payload = Return b
       /\ guarded_call render t args guards endpoint method payload apiClient s
          = after_call apiClient (mkWire endpoint method []) b (render t) s.
Proof.
  unfold guarded_call, stops_early.
  induction guards as [| g guards IH]; simpl.
  - destruct payload as [b | err].
    + right. exists b. split; reflexivity.
    + left. simpl. eauto.
  - unfold bind at 1. unfold require_string, bind, lift.
    destruct (getProp args g) as [v | err]; [| left; simpl; eauto].
    destruct (negb (truthy v) || negb (typeof v =? "string"));
      [left; simpl; eauto | exact IH].
Qed.

Lemma after_call_keys (apiClient : ApiClient World) endpoint method ks ks' b k :
  after_call apiClient (mkWire endpoint method ks) b k
  = after_call apiClient (mkWire endpoint method ks') b k.
Proof. reflexivity. Qed.

(** Every handler of [handlers.ts] either stops before its call or is
    its single call, with a body that fits its wire, followed by the
    rendering. *)
Lemma handler_cases t w args (apiClient : ApiClient World) s :
  wire_of t = Some w ->
  stops_early (run_case t args apiClient s) s
  \/ exists b k,
       body_fits w b
       /\ run_case t args apiClient s = after_call apiClient w b k s.
Proof.
  intros Hw.
  destruct t; simpl in Hw; try discriminate; injection Hw as <-;
    unfold case_body, handleCloudFormation, handleOAuthValidate,
      handleMfaCompliance, handleDynamoDbDesign, handleErrorPatterns,
      handleDataLakeReadiness, handleIamPolicyValidate, handleRiskClassify,
      handleTaskRouting, handlePredictIssues, handleAutoRecovery,
      handleResilienceExecute, handleAgentMemory, handleAgentTask,
      handleTraceContext, handleFileLock, handleCliReadiness;
    try (match goal with
         | |- context [guarded_call render ?t args ?g ?e ?m ?p apiClient s] =>
             destruct (guarded_call_cases t args g e m p apiClient s)
               as [Hstop | (b & Hp & Hrun)];
             [left; exact Hstop |];
             right; exists b, (render t);
             split; [apply object_keys in Hp; exact Hp | exact Hrun]
         end).
  - (* handleEmbed *)
    unfold handleEmbed, bind, lift.
    destruct (embed_payload args) as [b | err] eqn:Hp.
    + right. exists b, render_embed. split.
      * apply object_keys in Hp. exact Hp.
      * reflexivity.
    + left. split; simpl; eauto.
  - (* handleCatalog *)
    right. exists VUndef, (render s2t_catalog). split; [| reflexivity].
    unfold body_fits. reflexivity.
  - (* handleUsage *)
    right. exists VUndef, (render s2t_usage). split; [| reflexivity].
    unfold body_fits. reflexivity.
Qed.

End RunShape.

Ltac unfold_handlers :=
  unfold case_body, handleEmbed, handleCloudFormation, handleOAuthValidate,
    handleCatalog, handleUsage, handleMfaCompliance, handleDynamoDbDesign,
    handleErrorPatterns, handleDataLakeReadiness, handleIamPolicyValidate,
    handleRiskClassify, handleTaskRouting, handlePredictIssues,
    handleAutoRecovery, handleResilienceExecute, handleAgentMemory,
    handleAgentTask, handleTraceContext, handleFileLock, handleCliReadiness.

Section HandlerFacts.

Variable World : Type.
Variable render : tool -> value -> outcome string.
Variable aci_handler : tool -> value -> ApiClient World -> M World string.
Variable local_handler : tool -> value -> M World string.

Local Abbreviation run_case := (case_body render aci_handler local_handler).
Local Abbreviation dispatch := (callTool render aci_handler local_handler).

(** X1.  Whatever its arguments, a handler of [handlers.ts] calls the
    client at most once: either it throws with the state untouched, or
    the journal grows by exactly one call, to the handler's own endpoint
    with its own method, whose body fits the handler's wire (the declared
    keys in order, or no body for a GET), and the world is the one that
    call left. *)
Theorem handler_calls_at_most_once :
  forall (t : tool) (w : wire) (args : value) (apiClient : ApiClient World)
         (s : state World),
    wire_of t = Some w ->
    stops_early (run_case t args apiClient s) s
    \/ exists b,
         body_fits w b
         /\ calls (snd (run_case t args apiClient s))
            = (calls s ++ [mkCall (wire_endpoint w) (Some (wire_method w)) b])%list
         /\ world (snd (run_case t args apiClient s))
            = snd (callApi apiClient (wire_endpoint w) (Some (wire_method w)) b
                     (world s)).
Proof.
  intros t w args apiClient s Hw.
  destruct (handler_cases World render aci_handler local_handler
              t w args apiClient s Hw) as [Hstop | (b & k & Hfit & Hrun)].
  - now left.
  - right. exists b. rewrite Hrun, after_call_run. simpl. auto.
Qed.

(** X2.  A rejection of the remote call goes through a handler
    unchanged: when the client rejects the handler's call with [e], the
    handler either stopped before calling or throws that same [e], and
    then the dispatcher answers with [isError] and the text "Error: "
    followed by the message of [e]. *)
Theorem remote_failure_propagates_unchanged :
  forall (n : string) (t : tool) (w : wire) (args : value)
         (apiClient : ApiClient World) (s : state World) (e : thrown),
    matching_case SWITCH n = Some t ->
    wire_of t = Some w ->
    (forall b,
        fst (callApi apiClient (wire_endpoint w) (Some (wire_method w)) b
               (world s)) = Throw e) ->
    stops_early (run_case t args apiClient s) s
    \/ (fst (run_case t args apiClient s) = Throw e
        /\ fst (dispatch n args apiClient s)
           = Return (failure (errorMessage e))).
Proof.
  intros n t w args apiClient s e Hn Hw Hreject.
  destruct (handler_cases World render aci_handler local_handler
              t w args apiClient s Hw) as [Hstop | (b & k & Hfit & Hrun)].
  - now left.
  - right.
    assert (Hthrow : fst (run_case t args apiClient s) = Throw e).
    { rewrite Hrun, after_call_run. simpl. now rewrite Hreject. }
    split; [exact Hthrow |].
    unfold callTool, try_catch, bind, switch_name. rewrite Hn.
    destruct (case_body render aci_handler local_handler t args apiClient s)
      as [[r | e'] s'].
    + discriminate Hthrow.
    + simpl in Hthrow. injection Hthrow as ->. reflexivity.
Qed.

(** X3.  When the request carries no arguments ([undefined], or
    [null]), every handler that reads its arguments throws the TypeError
    of its first property read and the state is untouched; the two
    handlers that take no arguments ([handleCatalog], [handleUsage]) run
    as with any arguments. *)
Theorem missing_arguments_fail_before_any_call :
  forall (t : tool) (args : value) (apiClient : ApiClient World)
         (s : state World),
    (forall k,
        first_read t = Some k ->
        nullish args = true ->
        run_case t args apiClient s
        = (Throw (new_Error ("Cannot read properties of " ++ kind_of_nullish args
                             ++ " (reading '" ++ k ++ "')")),
           s))
    /\ (t = s2t_catalog \/ t = s2t_usage ->
        forall args', run_case t args apiClient s = run_case t args' apiClient s).
Proof.
  intros t args apiClient s. split.
  - intros k Hk Hnull.
    destruct args as [[ | | b | z | str] | items | fs]; try discriminate Hnull;
      destruct t; simpl in Hk; try discriminate Hk; injection Hk as <-;
      reflexivity.
  - intros [-> | ->] args'; reflexivity.
Qed.

(** X4.  A handler depends on its arguments only through the fields of
    its wire: two argument values that agree on those fields give the
    same run, so whatever else the caller puts in the bag is neither
    checked nor forwarded. *)
Theorem handler_reads_declared_fields_only :
  forall (t : tool) (w : wire) (args args' : value)
         (apiClient : ApiClient World) (s : state World),
    wire_of t = Some w ->
    (forall k, In k (wire_keys w) -> getProp args k = getProp args' k) ->
    run_case t args apiClient s = run_case t args' apiClient s.
Proof.
  intros t w args args' apiClient s Hw Hsame.
  destruct t; simpl in Hw; try discriminate; injection Hw as <-;
    simpl in Hsame; unfold_handlers;
    unfold guarded_call, embed_payload, require_string, arg, arg_or,
      arg_coalesce; simpl;
    repeat match goal with
           | |- context [getProp args ?k] =>
               rewrite (Hsame k) by (simpl; tauto)
           end;
    reflexivity.
Qed.

End HandlerFacts.

Section DefaultFacts.

Variable World : Type.
Variable render : tool -> value -> outcome string.
Variable aci_handler : tool -> value -> ApiClient World -> M World string.
Variable local_handler : tool -> value -> M World string.

Local Abbreviation run_case := (case_body render aci_handler local_handler).

Lemma bag_run_journal (payload : value) endpoint method
  (k : value -> outcome string) (apiClient : ApiClient World) s :
  calls (snd ((body <- lift (Return payload) ;;
               result <- await_callApi apiClient endpoint method body ;;
               lift (k result)) s))
  = (calls s ++ [mkCall endpoint method payload])%list.
Proof. apply call_then_render_journal. Qed.

(** X5.  On a bag that passes the guards, the call is made and every
    optional field for which the registry declares a default is forwarded
    as follows: a field defaulted with [??] carries the caller's value
    unless that is absent or [null]; a field defaulted with [||] carries
    the caller's value only if it is truthy; otherwise the field carries
    the default the registry declares.  In particular an omitted optional
    field carries exactly its declared default. *)
Theorem optional_fields_take_declared_defaults :
  forall (t : tool) (w : wire) (k : string) (d : value)
         (fields : list (string * value)) (apiClient : ApiClient World)
         (s : state World),
    wire_of t = Some w ->
    In (k, d) (declared_defaults t) ->
    forallb (valid_string fields) (guarded t) = true ->
    exists fs,
      calls (snd (run_case t (VObj fields) apiClient s))
      = (calls s
         ++ [mkCall (wire_endpoint w) (Some (wire_method w)) (VObj fs)])%list
      /\ lookup k fs
         = Some (if existsb (String.eqb k) (coalesced t)
                 then coalesce (field fields k) d
                 else or_else (field fields k) d)
      /\ (lookup k fields = None -> lookup k fs = Some d).
Proof.
  intros t w k d fields apiClient s Hw Hin Hvalid.
  destruct t; simpl in Hw; try discriminate; injection Hw as <-;
    simpl in Hin;
    repeat (destruct Hin as [Hin | Hin]; [injection Hin as <- <- |]);
    try contradiction;
    unfold_handlers;
    try rewrite guarded_call_passes by exact Hvalid;
    unfold embed_payload, object, literal, arg, arg_or, arg_coalesce;
    rewrite ?getProp_bag; cbn [obind];
    (eexists; split;
     [ cbn [wire_endpoint wire_method]; apply bag_run_journal
     | unfold field;
       cbn [lookup String.eqb Ascii.eqb Bool.eqb existsb coalesced orb];
       split; [reflexivity | intros ->; reflexivity] ]).
Qed.

End DefaultFacts.

Section UnguardedFacts.

Variable World : Type.
Variable render : tool -> value -> outcome string.
Variable aci_handler : tool -> value -> ApiClient World -> M World string.
Variable local_handler : tool -> value -> M World string.

Local Abbreviation run_case := (case_body render aci_handler local_handler).

(** X23.  What the handlers without guards do with a required field:
    for an operation of [handlers.ts] whose handler has no guard, a bag
    that lacks a field the registry declares required does not stop the
    handler; the single call is made and its body carries that field as
    [undefined]. *)
Theorem unguarded_required_field_is_forwarded :
  forall (n : string) (t : tool) (w : wire) (k : string)
         (fields : list (string * value)) (apiClient : ApiClient World)
         (s : state World),
    matching_case SWITCH n = Some t ->
    wire_of t = Some w ->
    guarded t = [] ->
    In k (required_of n) ->
    lookup k fields = None ->
    exists fs,
      calls (snd (run_case t (VObj fields) apiClient s))
      = (calls s
         ++ [mkCall (wire_endpoint w) (Some (wire_method w)) (VObj fs)])%list
      /\ lookup k fs = Some VUndef.
Proof.
  intros n t w k fields apiClient s Hcase Hw Hguard Hin Hlookup.
  apply matching_case_In in Hcase. simpl in Hcase.
  repeat (destruct Hcase as [Hcase | Hcase];
          [injection Hcase as <- <-; simpl in Hw, Hguard, Hin;
           try discriminate Hw; try discriminate Hguard;
           try contradiction |]);
    try contradiction;
    injection Hw as <-;
    repeat (destruct Hin as [Hin | Hin]; [subst k |]); try contradiction;
    unfold_handlers; unfold guarded_call; cbn [fold_left bind ret];
    unfold embed_payload, object, literal, arg, arg_or, arg_coalesce;
    rewrite ?getProp_bag; cbn [obind];
    (eexists; split;
     [ cbn [wire_endpoint wire_method]; apply bag_run_journal
     | unfold field;
       cbn [lookup String.eqb Ascii.eqb Bool.eqb];
       rewrite ?Hlookup; reflexivity ]).
Qed.

End UnguardedFacts.

(** ** The preview of a chunk *)

Lemma substring0_app (a b : string) :
  substring0 (String.length a) (a ++ b) = a.
Proof.
  unfold substring0. induction a as [| c a IH]; simpl.
  - now destruct b.
  - now rewrite IH.
Qed.

(** X6.  The preview of a chunk never exceeds 103 code units and always
    begins with the first 100 units of the text; it is as long as the
    text up to 100 units and 103 units long beyond, so that a text of 101
    or 102 units gets a preview longer than itself. *)
Theorem text_preview_is_bounded :
  forall s : string,
    String.length (text_preview s)
    = (if (100 <? String.length s)%nat then 103 else String.length s)%nat
    /\ (String.length (text_preview s) <= 103)%nat
    /\ substring0 100 (text_preview s) = substring0 100 s.
Proof.
  intros s.
  destruct (Nat.ltb_spec 100 (String.length s)) as [Hlong | Hshort].
  - destruct (text_preview_long s Hlong) as [Heq Hlen].
    rewrite Hlen. repeat split; [lia |].
    rewrite Heq.
    rewrite <- (substring0_length 100 s) at 1 by lia.
    apply substring0_app.
  - rewrite (text_preview_short s Hshort). repeat split. lia.
Qed.

(** ** The remote call client, all outcomes *)

Lemma serialize_undefined_only gap indent v :
  serialize gap indent v = None <-> v = VUndef.
Proof.
  destruct v as [[ | | b | n | str] | items | fs]; simpl;
    split; intros H; try discriminate; try reflexivity.
Qed.

Lemma settle_not_ok (response : Response) :
  ok response = false -> forall data, settle response <> Return data.
Proof.
  intros Hok data. unfold settle. rewrite Hok. simpl.
  destruct (json response) as [d | e]; simpl; [| discriminate].
  destruct (failure_message d (status response)) as [m | e]; simpl;
    [| discriminate].
  destruct (ToString m); simpl; discriminate.
Qed.

Lemma settle_message (response : Response) data msg :
  ok response = false ->
  json response = Return data ->
  (error <~ getProp data "error" ;; getPropOpt error "message")
  = Return (VStr msg) ->
  msg <> "" ->
  settle response = Throw (new_Error msg).
Proof.
  intros Hok Hjson Hmessage Hne. unfold settle, failure_message.
  rewrite Hjson, Hok. simpl.
  destruct (getProp data "error") as [error | e]; simpl in *; [| discriminate].
  rewrite Hmessage. unfold or_else. simpl.
  destruct (String.eqb_spec msg ""); [contradiction | reflexivity].
Qed.

Section ClientOutcomes.

Variable Net : Type.
Variable fetch : RequestInit -> Net -> outcome Response * Net.

(** X7.  [callApi] makes one [fetch], to the base URL followed by the
    endpoint, with the API key header, with GET when no method is given,
    and with a serialized body exactly when the body is truthy.  A
    failed [fetch] and a body that is not JSON reject with the failure
    itself, the latter whatever the status; the parsed data is returned
    from a success response and from no other: a non-success response
    always rejects. *)
Theorem callApi_outcomes :
  forall (baseUrl apiKey endpoint : string) (method : option string)
         (body : value) (net : Net),
    let options := request_options baseUrl apiKey endpoint method body in
    let answer := callApi (createApiClient fetch baseUrl apiKey) endpoint
                    method body net in
    url options = baseUrl ++ endpoint
    /\ In ("X-S2T-API-Key", apiKey) (headers options)
    /\ init_method options
       = match method with Some m => m | None => "GET" end
    /\ (init_body options = None <-> truthy body = false)
    /\ snd answer = snd (fetch options net)
    /\ match fst (fetch options net) with
       | Throw e => fst answer = Throw e
       | Return response =>
           match json response with
           | Throw e => fst answer = Throw e
           | Return data =>
               if ok response then fst answer = Return data
               else exists e, fst answer = Throw e
           end
       end.
Proof.
  intros baseUrl apiKey endpoint method body net options answer.
  subst options answer. unfold createApiClient. cbn [callApi].
  repeat split.
  - simpl. now left.
  - unfold request_options. cbn [init_body].
    destruct (truthy body) eqn:Htruthy; [| reflexivity].
    unfold JSON_stringify. intros H. apply serialize_undefined_only in H.
    subst body. discriminate Htruthy.
  - unfold request_options. cbn [init_body]. intros H. now rewrite H.
  - now destruct (fetch _ net) as [[response | e] net'].
  - destruct (fetch _ net) as [[response | e] net']; simpl; [| reflexivity].
    unfold settle.
    destruct (json response) as [data | e]; simpl; [| reflexivity].
    destruct (ok response) eqn:Hok; simpl; [reflexivity |].
    destruct (failure_message data (status response)) as [m | e]; simpl;
      [| eauto].
    destruct (ToString m); simpl; eauto.
Qed.

End ClientOutcomes.

Section EndToEnd.

Variable Net : Type.
Variable fetch : RequestInit -> Net -> outcome Response * Net.
Variable render : tool -> value -> outcome string.
Variable aci_handler : tool -> value -> ApiClient Net -> M Net string.
Variable local_handler : tool -> value -> M Net string.

(** X8.  End to end: when the remote service answers a handler's call
    with a non-success status and a body whose [error.message] is a
    non-empty string, the tool call, if the handler got as far as
    calling, returns [isError: true] with the text "Error: " followed by
    that message. *)
Theorem remote_error_message_reaches_the_caller :
  forall (n : string) (t : tool) (w : wire) (args : value)
         (baseUrl apiKey : string) (s : state Net)
         (response : Response) (data : value) (msg : string),
    matching_case SWITCH n = Some t ->
    wire_of t = Some w ->
    (forall options, fst (fetch options (world s)) = Return response) ->
    ok response = false ->
    json response = Return data ->
    (error <~ getProp data "error" ;; getPropOpt error "message")
    = Return (VStr msg) ->
    msg <> "" ->
    stops_early
      (case_body render aci_handler local_handler t args
         (createApiClient fetch baseUrl apiKey) s) s
    \/ fst (callTool render aci_handler local_handler n args
              (createApiClient fetch baseUrl apiKey) s)
       = Return (failure msg).
Proof.
  intros n t w args baseUrl apiKey s response data msg
         Hn Hw Hfetch Hok Hjson Hmessage Hne.
  destruct (handler_cases Net render aci_handler local_handler t w args
              (createApiClient fetch baseUrl apiKey) s Hw)
    as [Hstop | (b & k & Hfit & Hrun)]; [now left | right].
  unfold callTool, try_catch, bind, switch_name. rewrite Hn, Hrun, after_call_run.
  unfold createApiClient at 1. cbn [callApi].
  specialize (Hfetch (request_options baseUrl apiKey (wire_endpoint w)
                        (Some (wire_method w)) b)).
  destruct (fetch _ (world s)) as [[r | e] net']; simpl in Hfetch;
    [| discriminate].
  injection Hfetch as ->. cbn [fst].
  rewrite (settle_message response data msg Hok Hjson Hmessage Hne).
  reflexivity.
Qed.

End EndToEnd.

(** ** The registry and the two dispatchers *)

Lemma matching_case_known cases n :
  matching_case cases n <> None <-> In n (map fst cases).
Proof.
  induction cases as [| [label t] rest IH]; simpl.
  - split; [intros H; now contradiction H | intros []].
  - destruct (String.eqb_spec n label) as [-> | Hne].
    + split; [now left | discriminate].
    + rewrite IH. split; [now right | intros [H | H]; [congruence | exact H]].
Qed.

(** X9.  The registry and the dispatcher agree: the 36 names of [TOOLS]
    are pairwise distinct and are exactly the names the switch has a case
    for; a listed name is dispatched to the handler of its case, and any
    other name is answered with [isError] and "Unknown tool: <name>",
    the state untouched. *)
Theorem listed_tools_are_the_dispatched_ones :
  List.length TOOLS = 36%nat
  /\ NoDup (map name TOOLS)
  /\ (forall n, In n (map name TOOLS) <-> matching_case SWITCH n <> None)
  /\ forall (World : Type) render aci_handler local_handler n args
            (apiClient : ApiClient World) (s : state World),
       (In n (map name TOOLS) ->
        exists t,
          matching_case SWITCH n = Some t
          /\ switch_name render aci_handler local_handler n args apiClient s
             = case_body render aci_handler local_handler t args apiClient s)
       /\ (~ In n (map name TOOLS) ->
           callTool render aci_handler local_handler n args apiClient s
           = (Return (failure ("Unknown tool: " ++ n)), s)).
Proof.
  assert (Hsame : forall n, In n (map name TOOLS) <-> In n (map fst SWITCH)).
  { intros n. split; intros H; simpl in H |- *;
      repeat (destruct H as [H | H]; [subst n; tauto |]); contradiction. }
  assert (Hnodup : nodup string_dec (map name TOOLS) = map name TOOLS)
    by (vm_compute; reflexivity).
  split; [reflexivity |]. split; [| split].
  - rewrite <- Hnodup. apply NoDup_nodup.
  - intros n. rewrite matching_case_known. apply Hsame.
  - intros World render aci_handler local_handler n args apiClient s. split.
    + intros Hin. apply Hsame, matching_case_known in Hin.
      unfold switch_name.
      destruct (matching_case SWITCH n) as [t |]; [| now contradiction Hin].
      now exists t.
    + intros Hout.
      assert (Hnone : matching_case SWITCH n = None).
      { destruct (matching_case SWITCH n) eqn:Hcase; [| reflexivity].
        exfalso. apply Hout, Hsame, matching_case_known. now rewrite Hcase. }
      unfold callTool, try_catch, bind, switch_name. now rewrite Hnone.
Qed.

Section TwoEntryPoints.

Variable World : Type.
Variable render : tool -> value -> outcome string.
Variable aci_handler : tool -> value -> ApiClient World -> M World string.
Variable local_handler : tool -> value -> M World string.

(** X10.  The stdio entry point of [index.ts] serves five of the
    operations: on the names it lists, its call-tool handler does exactly
    what the shared one of [server-setup.ts] does, and declares the same
    required fields; every other name, the newer operations included, it
    answers with [isError] and "Unknown tool: <name>" without touching
    the state. *)
Theorem stdio_entry_serves_five_tools :
  forall (n : string) (args : value) (apiClient : ApiClient World)
         (s : state World),
    (In n (map name Stdio.TOOLS) ->
     Stdio.callTool render n args apiClient s
     = callTool render aci_handler local_handler n args apiClient s
     /\ find (fun t => name t =? n) Stdio.TOOLS
        = find (fun t => name t =? n) TOOLS)
    /\ (~ In n (map name Stdio.TOOLS) ->
        Stdio.callTool render n args apiClient s
        = (Return (failure ("Unknown tool: " ++ n)), s)).
Proof.
  intros n args apiClient s. split.
  - intros Hin. simpl in Hin.
    repeat (destruct Hin as [Hin | Hin]; [subst n; split; reflexivity |]).
    contradiction.
  - intros Hout. simpl in Hout.
    unfold Stdio.callTool, Stdio.switch_name, try_catch, bind.
    repeat match goal with
           | |- context [n =? ?label] =>
               destruct (String.eqb_spec n label) as [Heq | _];
               [exfalso; apply Hout; rewrite Heq; tauto |]
           end.
    reflexivity.
Qed.

End TwoEntryPoints.

(* ========================================================================= *)
(** * Further properties of the HTTP entry point *)
(* ========================================================================= *)

(** ** The allow-list *)

Lemma split_commas_free (acc o : string) :
  comma_free o = true -> HttpServer.split_commas acc o = [acc ++ o].
Proof.
  revert acc. induction o as [| c o IH]; intros acc H; simpl in *.
  - now rewrite append_empty.
  - apply andb_prop in H as [Hc Ho].
    destruct (Ascii.eqb c ","); [discriminate |].
    rewrite IH by exact Ho. f_equal.
    clear. induction acc as [| a acc IHa]; simpl; [reflexivity | now rewrite IHa].
Qed.

Lemma split_commas_cons (acc o rest : string) :
  comma_free o = true ->
  HttpServer.split_commas acc (o ++ "," ++ rest)
  = (acc ++ o) :: HttpServer.split_commas "" rest.
Proof.
  revert acc. induction o as [| c o IH]; intros acc H; simpl in *.
  - now rewrite append_empty.
  - apply andb_prop in H as [Hc Ho].
    destruct (Ascii.eqb c ","); [discriminate |].
    rewrite IH by exact Ho. f_equal.
    clear. induction acc as [| a acc IHa]; simpl; [reflexivity | now rewrite IHa].
Qed.

Lemma split_commas_join (l : list string) :
  l <> [] ->
  forallb comma_free l = true ->
  HttpServer.split_commas "" (join_with "," l) = l.
Proof.
  induction l as [| o l IH]; intros Hne Hfree; [now contradiction Hne |].
  simpl in Hfree. apply andb_prop in Hfree as [Ho Hl].
  destruct l as [| o' l'].
  - simpl. now apply split_commas_free.
  - change (join_with "," (o :: o' :: l'))
      with (o ++ "," ++ join_with "," (o' :: l')).
    rewrite split_commas_cons by exact Ho. simpl append at 1.
    f_equal. apply IH; [discriminate | exact Hl].
Qed.

Lemma split_commas_pieces (acc s : string) :
  comma_free acc = true ->
  forallb comma_free (HttpServer.split_commas acc s) = true.
Proof.
  revert acc. induction s as [| c s IH]; intros acc Hacc; simpl.
  - now rewrite Hacc.
  - destruct (Ascii.eqb c ",") eqn:Hc.
    + simpl. rewrite Hacc. now apply IH.
    + apply IH. clear IH. induction acc as [| a acc IHa]; simpl in *.
      * now rewrite Hc.
      * apply andb_prop in Hacc as [Ha Hrest]. rewrite Ha. now apply IHa.
Qed.

Lemma allowed_origins_lists :
  (forall l : list string,
      forallb listable l = true ->
      HttpServer.ALLOWED_ORIGINS (Some (join_with "," l)) = l)
  /\ forall (configured : option string) (o : string),
       In o (HttpServer.ALLOWED_ORIGINS configured) -> listable o = true.
Proof.
  split.
  - intros l Hl. unfold HttpServer.ALLOWED_ORIGINS.
    assert (Hparts : forallb comma_free l = true
                     /\ filter (fun o => negb (o =? "")) l = l).
    { induction l as [| o l IH]; [now split |].
      simpl in Hl. apply andb_prop in Hl as [Ho Hrest].
      unfold listable in Ho. apply andb_prop in Ho as [Hne Hfree].
      destruct (IH Hrest) as [IHfree IHfilter].
      simpl. rewrite Hne, Hfree, IHfree, IHfilter. now split. }
    destruct Hparts as [Hfree Hfilter].
    destruct l as [| o l]; [reflexivity |].
    destruct (join_with "," (o :: l) =? "") eqn:Hempty.
    + apply String.eqb_eq in Hempty. exfalso.
      simpl in Hl. apply andb_prop in Hl as [Ho _].
      unfold listable in Ho. apply andb_prop in Ho as [Hne _].
      destruct o; [discriminate Hne |]. destruct l; discriminate Hempty.
    + rewrite split_commas_join; [exact Hfilter | discriminate | exact Hfree].
  - intros configured o Hin. unfold HttpServer.ALLOWED_ORIGINS in Hin.
    apply filter_In in Hin as [Hin Hne]. unfold listable. rewrite Hne. simpl.
    match type of Hin with
    | In o (HttpServer.split_commas "" ?s) =>
        pose proof (split_commas_pieces "" s eq_refl) as Hall
    end.
    rewrite forallb_forall in Hall. now apply Hall.
Qed.

(** X11.  The allow-list is read back as written: when origins, none
    empty and none holding a comma, are joined with commas in
    [S2T_CORS_ORIGINS], the members of the allow-list are exactly those
    origins (and the allow-list is empty only when there are none); and
    whatever the variable holds (empty segments, trailing
    commas), no member of the allow-list is empty or holds a comma. *)
Theorem allowed_origins_round_trip :
  (forall l : list string,
      forallb listable l = true ->
      (forall o : string,
          HttpServer.set_has o
            (HttpServer.ALLOWED_ORIGINS (Some (join_with "," l)))
          = HttpServer.set_has o l)
      /\ (List.length (HttpServer.ALLOWED_ORIGINS (Some (join_with "," l)))
          = 0%nat <-> l = []))
  /\ forall (configured : option string) (o : string),
       HttpServer.set_has o (HttpServer.ALLOWED_ORIGINS configured) = true ->
       listable o = true.
Proof.
  destruct allowed_origins_lists as [Hjoin Hmembers]. split.
  - intros l Hl. rewrite Hjoin by exact Hl. split; [reflexivity |].
    apply length_zero_iff_nil.
  - intros configured o Hin. apply (Hmembers configured).
    now apply set_has_In.
Qed.

(** ** More on maps *)

Section MoreMapFacts.

Import HttpServer.

Variable V : Type.
Implicit Types (m : Map V) (k : string) (v : V).

Lemma map_get_delete_other k k' m :
  k <> k' -> map_get k (map_delete k' m) = map_get k m.
Proof.
  intros Hne. induction m as [| [[k0 v0] |] m IH]; simpl; [reflexivity | |].
  - destruct (String.eqb_spec k0 k') as [-> | Hk0]; simpl.
    + destruct (String.eqb_spec k' k); [congruence | reflexivity].
    + destruct (k0 =? k); [reflexivity | exact IH].
  - exact IH.
Qed.

Lemma entries_set_fresh k v m :
  map_get k m = None -> entries (map_set k v m) = (entries m ++ [(k, v)])%list.
Proof.
  unfold entries. induction m as [| [[k0 v0] |] m IH]; simpl; intros H.
  - reflexivity.
  - destruct (k0 =? k); [discriminate |]. simpl. now rewrite IH.
  - now apply IH.
Qed.

Lemma entries_delete_set_fresh k v m :
  map_get k m = None -> entries (map_delete k (map_set k v m)) = entries m.
Proof.
  unfold entries. induction m as [| [[k0 v0] |] m IH]; simpl; intros H.
  - now rewrite String.eqb_refl.
  - destruct (k0 =? k) eqn:Hk; [discriminate |]. simpl. rewrite Hk. simpl.
    now rewrite IH.
  - now apply IH.
Qed.

Lemma find_sid_get transport (m : Map nat) sid :
  find_sid transport m = Some sid -> In sid (keys m).
Proof.
  unfold find_sid, keys. intros H.
  destruct (find _ (entries m)) as [[k t] |] eqn:Hfind; [| discriminate].
  injection H as <-. apply find_some in Hfind as [Hin _].
  now apply (in_map fst) in Hin.
Qed.

End MoreMapFacts.

(** ** Routes *)

Section RouteFacts.

Import HttpServer.

Variable S2T_CORS_ORIGINS : option string.
Variable URL_hostname : string -> option string.
Variable Runtime : Type.
Variable isInitializeRequest : value -> bool.
Variable uuid : nat -> string.
Variable connect : nat -> Runtime -> completion * Runtime.
Variable handleRequest :
  nat -> Request -> Runtime -> list callback * completion * Runtime.
Variable close : nat -> Runtime -> bool * completion * Runtime.
Variable sse_sessionId : nat -> Runtime -> string.
Variable handlePostMessage : nat -> Request -> Runtime -> completion * Runtime.
Variable process_uptime : Runtime -> Z.

Local Abbreviation app_serve :=
  (serve S2T_CORS_ORIGINS URL_hostname isInitializeRequest uuid connect
     handleRequest sse_sessionId handlePostMessage process_uptime).
Local Abbreviation app_step :=
  (step S2T_CORS_ORIGINS URL_hostname isInitializeRequest uuid connect
     handleRequest close sse_sessionId handlePostMessage process_uptime).
Local Abbreviation app_run :=
  (run S2T_CORS_ORIGINS URL_hostname isInitializeRequest uuid connect
     handleRequest close sse_sessionId handlePostMessage process_uptime).
Local Abbreviation cors := (cors_headers S2T_CORS_ORIGINS URL_hostname).

Implicit Types (s : Server Runtime) (req : Request).



(** X13.  Opening a session: an initialize POST /mcp without a session
    header, for which [connect] resolves and the transport reports the
    session as initialized, stores the freshly built transport under the
    identifier just drawn; a request bearing that identifier is then
    routed to that transport, and what is stored under every other token
    is as before. *)
Theorem opened_session_is_found :
  forall req s rt1 rt2,
    http_method req = "POST" ->
    path req = "/mcp" ->
    present (mcp_session_id req) = false ->
    isInitializeRequest (payload req) = true ->
    connect (allocated s) (runtime s) = (Resolved, rt1) ->
    handleRequest (allocated s) req rt1 = ([SessionInitialized], Resolved, rt2) ->
    uuid (drawn s) <> "" ->
    snd (fst (app_serve req s)) = Delegated (allocated s)
    /\ map_get (uuid (drawn s)) (streamableTransports (snd (app_serve req s)))
       = Some (allocated s)
    /\ (forall req',
           session_of (bearing (uuid (drawn s)) req') (snd (app_serve req s))
           = Some (allocated s))
    /\ (forall k,
           k <> uuid (drawn s) ->
           map_get k (streamableTransports (snd (app_serve req s)))
           = map_get k (streamableTransports s))
    /\ allocated (snd (app_serve req s)) = S (allocated s)
    /\ drawn (snd (app_serve req s)) = S (drawn s).
Proof.
  intros req s rt1 rt2 Hmethod Hpath Hheader Hinit Hconnect Hhandle Hid.
  assert (Hsession : session_of req s = None).
  { unfold session_of. now rewrite Hheader. }
  unfold serve, route. rewrite Hmethod, Hpath. simpl.
  unfold post_mcp. rewrite Hsession, Hheader, Hinit. simpl.
  rewrite Hconnect. unfold delegate. simpl. rewrite Hhandle. simpl.
  repeat split.
  - apply map_get_set_same.
  - intros req'. unfold session_of. simpl.
    destruct (String.eqb_spec (uuid (drawn s)) ""); [contradiction |].
    simpl. apply map_get_set_same.
  - intros k Hk. now apply map_get_set_other.
Qed.

(** X14.  In every state the server reaches from startup, the tokens of
    the streamable store are pairwise distinct and each of them is an
    identifier that [randomUUID] has produced. *)
Theorem stored_tokens_are_distinct_and_issued :
  forall (rt : Runtime) (history : list event),
    NoDup (keys (streamableTransports (app_run (startup rt) history)))
    /\ forall k,
         In k (keys (streamableTransports (app_run (startup rt) history))) ->
         exists n,
           (n < drawn (app_run (startup rt) history))%nat /\ uuid n = k.
Proof.
  intros rt history. split.
  - apply (inv_run S2T_CORS_ORIGINS URL_hostname Runtime isInitializeRequest
             uuid connect handleRequest close sse_sessionId handlePostMessage
             process_uptime (fun m _ => NoDup (keys m))).
    + intros m d transport. apply unique_set.
    + intros m d k. apply unique_delete.
    + auto.
    + intros. constructor.
    + constructor.
  - destruct (issued_only_preserved uuid) as (Iset & Idelete & Idraw & Iclear).
    apply (inv_run S2T_CORS_ORIGINS URL_hostname Runtime isInitializeRequest
             uuid connect handleRequest close sse_sessionId handlePostMessage
             process_uptime (issued_only uuid) Iset Idelete Idraw Iclear).
    intros k [].
Qed.

End RouteFacts.

(** ** Closing, terminating, shutting down *)

Section ClosureFacts.

Import HttpServer.

Variable S2T_CORS_ORIGINS : option string.
Variable URL_hostname : string -> option string.
Variable Runtime : Type.
Variable isInitializeRequest : value -> bool.
Variable uuid : nat -> string.
Variable connect : nat -> Runtime -> completion * Runtime.
Variable handleRequest :
  nat -> Request -> Runtime -> list callback * completion * Runtime.
Variable close : nat -> Runtime -> bool * completion * Runtime.
Variable sse_sessionId : nat -> Runtime -> string.
Variable handlePostMessage : nat -> Request -> Runtime -> completion * Runtime.
Variable process_uptime : Runtime -> Z.

Local Abbreviation app_serve :=
  (serve S2T_CORS_ORIGINS URL_hostname isInitializeRequest uuid connect
     handleRequest sse_sessionId handlePostMessage process_uptime).
Local Abbreviation app_step :=
  (step S2T_CORS_ORIGINS URL_hostname isInitializeRequest uuid connect
     handleRequest close sse_sessionId handlePostMessage process_uptime).

Implicit Types (s : Server Runtime) (req : Request).

(** X15.  When a streamable transport closes, [onclose] drops the
    session stored for it and nothing else: with distinct tokens in the
    store, the token found for the transport (if it is not the empty
    string) is no longer stored, every other token keeps its transport,
    and one entry is logged; for a transport that is not in the store,
    the state is left as it is. *)
Theorem closed_transport_is_forgotten :
  forall (transport : nat) s,
    (find_sid transport (streamableTransports s) = None ->
     app_step s (TransportClose transport) = s)
    /\ forall sid,
         find_sid transport (streamableTransports s) = Some sid ->
         sid <> "" ->
         NoDup (keys (streamableTransports s)) ->
         map_get sid (streamableTransports s) = Some transport
         /\ map_get sid
              (streamableTransports (app_step s (TransportClose transport)))
            = None
         /\ (forall k,
                k <> sid ->
                map_get k
                  (streamableTransports (app_step s (TransportClose transport)))
                = map_get k (streamableTransports s))
         /\ journal (app_step s (TransportClose transport))
            = (journal s
               ++ [mkLog "info" "Streamable HTTP session closed"
                     [("sessionId", sid)] None])%list
         /\ sseTransports (app_step s (TransportClose transport))
            = sseTransports s.
Proof.
  intros transport s. simpl. unfold onclose. split.
  - intros ->. reflexivity.
  - intros sid Hfind Hsid Hunique. rewrite Hfind. simpl.
    destruct (String.eqb_spec sid ""); [contradiction |]. simpl.
    repeat split.
    + clear - Hfind Hunique. unfold find_sid in Hfind.
      destruct (find _ (entries (streamableTransports s))) as [[k t] |] eqn:Hf;
        [| discriminate].
      injection Hfind as <-. apply find_some in Hf as [Hin Ht].
      simpl in Ht. apply Nat.eqb_eq in Ht. subst t.
      revert Hin Hunique. unfold keys, entries.
      induction (streamableTransports s) as [| [[k0 v0] |] m IH]; simpl;
        intros Hin Hunique; [contradiction | |].
      * inversion Hunique as [| ? ? Hnotin Hrest]; subst.
        destruct Hin as [Heq | Hin].
        -- injection Heq as -> ->. now rewrite String.eqb_refl.
        -- destruct (String.eqb_spec k0 k) as [-> | _].
           ++ exfalso. apply Hnotin. now apply (in_map fst) in Hin.
           ++ now apply IH.
      * now apply IH.
    + now apply map_get_delete_same.
    + intros k Hk. now apply map_get_delete_other.
Qed.

(** X16.  A DELETE /mcp that the transport rejects terminates nothing:
    when [handleRequest] fails without having called back, the reply is
    the failure, and the store and the log are as before, so the session
    can still be used. *)
Theorem rejected_delete_keeps_the_session :
  forall req s transport e rt,
    http_method req = "DELETE" ->
    path req = "/mcp" ->
    session_of req s = Some transport ->
    handleRequest transport req (runtime s) = ([], Rejected e, rt) ->
    snd (fst (app_serve req s)) = Failed e
    /\ streamableTransports (snd (app_serve req s)) = streamableTransports s
    /\ journal (snd (app_serve req s)) = journal s
    /\ session_of req (snd (app_serve req s)) = Some transport.
Proof.
  intros req s transport e rt Hmethod Hpath Hsession Hhandle.
  unfold serve, route. rewrite Hmethod, Hpath. simpl.
  unfold delete_mcp. rewrite Hsession. unfold delegate. rewrite Hhandle.
  simpl. repeat split. exact Hsession.
Qed.

(** X17.  A DELETE /mcp that the transport carries out, closing itself
    on the way (the SDK calls [onclose]), removes the session once and
    logs both the closure and the termination, in that order. *)
Theorem delete_with_close_logs_twice :
  forall req s transport rt,
    http_method req = "DELETE" ->
    path req = "/mcp" ->
    session_of req s = Some transport ->
    handleRequest transport req (runtime s) = ([Closed], Resolved, rt) ->
    find_sid transport (streamableTransports s) = mcp_session_id req ->
    NoDup (keys (streamableTransports s)) ->
    snd (fst (app_serve req s)) = Delegated transport
    /\ session_of req (snd (app_serve req s)) = None
    /\ entries (streamableTransports (snd (app_serve req s)))
       = entries (map_delete (or_empty (mcp_session_id req))
                    (streamableTransports s))
    /\ journal (snd (app_serve req s))
       = (journal s
          ++ [mkLog "info" "Streamable HTTP session closed"
                [("sessionId", or_empty (mcp_session_id req))] None;
              mkLog "info" "Streamable HTTP session terminated via DELETE"
                [("sessionId", or_empty (mcp_session_id req))] None])%list.
Proof.
  intros req s transport rt Hmethod Hpath Hsession Hhandle Hfind Hunique.
  assert (Hpresent : present (mcp_session_id req) = true).
  { unfold session_of in Hsession.
    destruct (present (mcp_session_id req)); [reflexivity | discriminate]. }
  unfold serve, route. rewrite Hmethod, Hpath. simpl.
  unfold delete_mcp. rewrite Hsession. unfold delegate. rewrite Hhandle.
  simpl. unfold onclose. simpl. rewrite Hfind, Hpresent. simpl.
  set (sid := or_empty (mcp_session_id req)).
  assert (Hgone : map_get sid (map_delete sid (streamableTransports s)) = None)
    by now apply map_get_delete_same.
  repeat split.
  - unfold session_of. simpl. rewrite Hpresent. fold sid.
    apply map_get_delete_absent. exact Hgone.
  - clear - Hgone. revert Hgone. unfold entries.
    induction (map_delete sid (streamableTransports s)) as [| [[k v] |] m IH];
      simpl; intros H; [reflexivity | |].
    + destruct (k =? sid); [discriminate |]. simpl. now rewrite IH.
    + now apply IH.
  - now rewrite <- app_assoc.
Qed.

End ClosureFacts.

(** ** The legacy connections *)

Section LegacyFacts.

Import HttpServer.

Variable S2T_CORS_ORIGINS : option string.
Variable URL_hostname : string -> option string.
Variable Runtime : Type.
Variable isInitializeRequest : value -> bool.
Variable uuid : nat -> string.
Variable connect : nat -> Runtime -> completion * Runtime.
Variable handleRequest :
  nat -> Request -> Runtime -> list callback * completion * Runtime.
Variable close : nat -> Runtime -> bool * completion * Runtime.
Variable sse_sessionId : nat -> Runtime -> string.
Variable handlePostMessage : nat -> Request -> Runtime -> completion * Runtime.
Variable process_uptime : Runtime -> Z.

Local Abbreviation app_serve :=
  (serve S2T_CORS_ORIGINS URL_hostname isInitializeRequest uuid connect
     handleRequest sse_sessionId handlePostMessage process_uptime).
Local Abbreviation app_step :=
  (step S2T_CORS_ORIGINS URL_hostname isInitializeRequest uuid connect
     handleRequest close sse_sessionId handlePostMessage process_uptime).

Implicit Types (s : Server Runtime) (req : Request).

(** X18.  GET /sse registers the connection before it connects: whether
    [connect] resolves or rejects, the new transport is stored under the
    identifier just drawn, after the connections already there, and the
    streamable store is not touched; when the response stream closes, the
    legacy store holds what it held before the connection. *)
Theorem legacy_connection_round_trip :
  forall req s,
    http_method req = "GET" ->
    path req = "/sse" ->
    map_get (uuid (drawn s)) (sseTransports s) = None ->
    entries (sseTransports (snd (app_serve req s)))
    = (entries (sseTransports s) ++ [(uuid (drawn s), allocated s)])%list
    /\ streamableTransports (snd (app_serve req s)) = streamableTransports s
    /\ sdk_calls (snd (app_serve req s))
       = (sdk_calls s ++ [CallConnect (allocated s)])%list
    /\ entries (sseTransports
                  (app_step (snd (app_serve req s)) (ResClose (uuid (drawn s)))))
       = entries (sseTransports s).
Proof.
  intros req s Hmethod Hpath Hfresh.
  unfold serve, route. rewrite Hmethod, Hpath. simpl.
  unfold get_sse. simpl.
  destruct (connect (allocated s) (runtime s)) as [c rt]. simpl.
  repeat split.
  - now apply entries_set_fresh.
  - now apply entries_delete_set_fresh.
Qed.

(** X19.  POST /messages finds its connection by the session identifier
    the transport carries, not by the key it is stored under: with a
    non-empty [sessionId] parameter, the reply is the 404 document, with
    the state unchanged, exactly when no stored transport carries that
    identifier; otherwise the message goes to a stored transport that
    carries it, by one call of [handlePostMessage], and both stores are
    left as they are. *)
Theorem legacy_message_routing :
  forall req s,
    http_method req = "POST" ->
    path req = "/messages" ->
    present (query_sessionId req) = true ->
    ((forall k transport,
         In (k, transport) (entries (sseTransports s)) ->
         sse_sessionId transport (runtime s) <> or_empty (query_sessionId req))
     /\ snd (fst (app_serve req s))
        = Json 404
            (VObj [("error",
                    VStr "Session not found. Connect via GET /sse first.")])
     /\ snd (app_serve req s) = s)
    \/ exists k matched,
         In (k, matched) (entries (sseTransports s))
         /\ sse_sessionId matched (runtime s) = or_empty (query_sessionId req)
         /\ snd (fst (app_serve req s))
            = reply_of matched (fst (handlePostMessage matched req (runtime s)))
         /\ sdk_calls (snd (app_serve req s))
            = (sdk_calls s ++ [CallHandlePostMessage matched])%list
         /\ sseTransports (snd (app_serve req s)) = sseTransports s
         /\ streamableTransports (snd (app_serve req s))
            = streamableTransports s.
Proof.
  intros req s Hmethod Hpath Hpresent.
  unfold serve, route. rewrite Hmethod, Hpath. simpl.
  unfold post_messages. rewrite Hpresent. simpl.
  destruct (find _ (entries (sseTransports s))) as [[k matched] |] eqn:Hfind.
  - right. exists k, matched.
    apply find_some in Hfind as [Hin Hmatch]. simpl in Hmatch.
    apply String.eqb_eq in Hmatch.
    destruct (handlePostMessage matched req (runtime s)) as [c rt]. simpl.
    repeat split; assumption.
  - left. repeat split. intros k transport Hin Heq.
    apply (find_none _ _ Hfind) in Hin. simpl in Hin.
    rewrite Heq, String.eqb_refl in Hin. discriminate.
Qed.

End LegacyFacts.

(** ** What shutdown logs *)

Section ShutdownLog.

Import HttpServer.

Variable Runtime : Type.
Variable close : nat -> Runtime -> bool * completion * Runtime.

Implicit Types (s : Server Runtime) (m : Map nat).

Local Abbreviation informative :=
  (Forall (fun entry : LogEntry => level entry = "info")).

Local Abbreviation failures :=
  (fun p : string * completion =>
     match snd p with
     | Resolved => []
     | Rejected err => [close_failure (fst p) err]
     end).

(** A settled promise [p] comes from closing the transport of the
    entry [e]. *)
Local Abbreviation settles :=
  (fun (p : string * completion) (e : string * nat) =>
     fst p = fst e /\ exists rt, snd p = snd (fst (close (snd e) rt))).

Lemma onclose_journal transport s :
  exists infos,
    journal (onclose transport s) = (journal s ++ infos)%list
    /\ informative infos.
Proof.
  unfold onclose.
  destruct (present (find_sid transport (streamableTransports s))).
  - eexists. split; [reflexivity |]. now repeat constructor.
  - exists []. now rewrite app_nil_r.
Qed.

Lemma close_one_outcome sid transport s :
  snd (close_one close sid transport s) = snd (fst (close transport (runtime s)))
  /\ exists infos,
       journal (fst (close_one close sid transport s))
       = (journal s ++ infos)%list
       /\ informative infos.
Proof.
  unfold close_one. simpl.
  destruct (close transport (runtime s)) as [[fired c] rt]. simpl.
  split; [reflexivity |]. destruct fired.
  - match goal with
    | |- context [onclose transport ?s1] =>
        destruct (onclose_journal transport s1) as (infos & -> & Hinfos)
    end.
    simpl. rewrite <- app_assoc. eexists. split; [reflexivity |].
    constructor; [reflexivity | exact Hinfos].
  - simpl. eexists. split; [reflexivity |]. now repeat constructor.
Qed.

Lemma sweep_outcomes (suffix pre : Map nat) s settled :
  streamableTransports s = (pre ++ suffix)%list ->
  exists added infos,
    snd (sweep close (List.length suffix) (List.length pre) s settled)
    = (settled ++ added)%list
    /\ Forall2 settles added (entries suffix)
    /\ journal (fst (sweep close (List.length suffix) (List.length pre) s settled))
       = (journal s ++ infos)%list
    /\ informative infos.
Proof.
  revert pre s settled.
  induction suffix as [| slot rest IH]; intros pre s settled Hs; simpl.
  - exists [], []. rewrite !app_nil_r. repeat split; constructor.
  - rewrite Hs, nth_error_app2, Nat.sub_diag by lia. simpl.
    destruct slot as [[sid transport] |].
    + destruct (close_one_keeps_suffix Runtime close transport s pre sid rest Hs)
        as [(pre' & x' & Hkeep & Hlen) _].
      destruct (close_one_outcome sid transport s) as [Hc (infos1 & Hj & Hinfos1)].
      destruct (close_one close sid transport s) as [s' c]. simpl in *.
      replace (pre' ++ x' :: rest)%list with ((pre' ++ [x']) ++ rest)%list in Hkeep
        by (now rewrite <- app_assoc).
      replace (S (List.length pre)) with (List.length (pre' ++ [x'])%list)
        by (rewrite length_app; simpl; lia).
      destruct (IH _ _ (settled ++ [(sid, c)])%list Hkeep)
        as (added & infos & -> & Hall & -> & Hinfos).
      exists ((sid, c) :: added), (infos1 ++ infos)%list.
      rewrite Hj, <- !app_assoc. repeat split.
      * constructor; [| exact Hall]. simpl. split; [reflexivity |].
        exists (runtime s). exact Hc.
      * apply Forall_app. now split.
    + replace (pre ++ None :: rest)%list with ((pre ++ [None]) ++ rest)%list in Hs
        by (now rewrite <- app_assoc).
      replace (S (List.length pre)) with (List.length (pre ++ [None])%list)
        by (rewrite length_app; simpl; lia).
      exact (IH _ _ settled Hs).
Qed.

Lemma catch_close_journal (l : list (string * completion)) s :
  journal (fold_left catch_close l s)
  = (journal s ++ flat_map failures l)%list.
Proof.
  revert s. induction l as [| [sid c] l IH]; intros s; simpl.
  - now rewrite app_nil_r.
  - rewrite IH. unfold catch_close. simpl. destruct c; simpl.
    + reflexivity.
    + now rewrite <- app_assoc.
Qed.

Lemma shutdown_journal signal s :
  exists added infos,
    Forall2 settles added (entries (streamableTransports s))
    /\ informative infos
    /\ journal (shutdown close signal s)
       = (journal s ++ infos ++ flat_map failures added)%list.
Proof.
  unfold shutdown.
  set (s1 := log "info" _ [] None s).
  destruct (sweep_outcomes (streamableTransports s1) [] s1 [] eq_refl)
    as (added & infos & Hsettled & Hall & Hjournal & Hinfos).
  change (List.length (@nil (option (string * nat)))) with 0%nat in *.
  destruct (sweep close (List.length (streamableTransports s1)) 0 s1 [])
    as [s2 settled].
  simpl in Hsettled, Hjournal. subst settled.
  exists added, (mkLog "info" ("Received " ++ signal ++ ", shutting down gracefully")
                   [] None :: infos).
  repeat split.
  - exact Hall.
  - constructor; [reflexivity | exact Hinfos].
  - simpl. rewrite catch_close_journal, Hjournal. simpl.
    now rewrite <- !app_assoc.
Qed.

(** X20.  Shutdown reports the sessions it could not close, and only
    those: for a stored session whose transport's [close] rejects with
    [e], the log of the shutdown holds the error entry naming that
    session with [String(e)]; and when every [close] resolves, shutdown
    adds no entry of level error. *)
Theorem rejected_closes_are_logged :
  forall (signal : string) s,
    (forall sid transport e,
        In (sid, transport) (entries (streamableTransports s)) ->
        (forall rt, snd (fst (close transport rt)) = Rejected e) ->
        In (close_failure sid e) (journal (shutdown close signal s)))
    /\ ((forall transport rt, snd (fst (close transport rt)) = Resolved) ->
        forall entry,
          In entry (journal (shutdown close signal s)) ->
          level entry = "error" ->
          In entry (journal s)).
Proof.
  intros signal s.
  destruct (shutdown_journal signal s) as (added & infos & Hall & Hinfos & ->).
  split.
  - intros sid transport e Hin Hrejects.
    apply in_or_app. right. apply in_or_app. right.
    induction Hall as [| p e0 added stored [Hsid (rt & Hc)] Hrest IH];
      [contradiction |].
    simpl. apply in_or_app. destruct Hin as [-> | Hin].
    + left. simpl in *. rewrite Hc, Hrejects, Hsid. now left.
    + right. now apply IH.
  - intros Hresolves entry Hin Herror.
    assert (Hnone : flat_map failures added = []).
    { clear - Hall Hresolves.
      induction Hall as [| p e0 added stored [_ (rt & Hc)] Hrest IH];
        [reflexivity |].
      simpl. now rewrite Hc, Hresolves, IH. }
    rewrite Hnone, app_nil_r in Hin.
    apply in_app_or in Hin as [Hin | Hin]; [exact Hin |].
    rewrite Forall_forall in Hinfos. apply Hinfos in Hin.
    rewrite Hin in Herror. discriminate.
Qed.

(** X21.  A second signal finds nothing left to close: shutting down a
    server that has been shut down only adds the entry that the signal
    was received. *)
Theorem second_signal_only_logs :
  forall (first second : string) s,
    shutdown close second (shutdown close first s)
    = log "info" ("Received " ++ second ++ ", shutting down gracefully") [] None
        (shutdown close first s).
Proof.
  intros first second s.
  assert (Hstate : streamableTransports (shutdown close first s) = []
                   /\ sseTransports (shutdown close first s) = []
                   /\ listening (shutdown close first s) = false).
  { unfold shutdown.
    destruct (sweep close _ 0 (log "info" _ [] None s) []) as [s2 settled].
    now repeat split. }
  destruct Hstate as (Hstreamable & Hsse & Hlistening).
  destruct (shutdown close first s) as [st sse al dr rt jn calls lst].
  simpl in *. subst. reflexivity.
Qed.

End ShutdownLog.

(* ========================================================================= *)
(** * The further properties at work *)
(* ========================================================================= *)

(** X1 on the embedding handler with the test suite's mock client. *)
Lemma handler_calls_at_most_once_witness :
  wire_of s2t_embed
  = Some (mkWire "/embed" "POST" ["text"; "model"; "chunk_size"; "chunk_overlap"])
  /\ (stops_early
        (case_body render_as_json aci_not_linked local_not_linked s2t_embed
           (VObj [("text", VStr "Hello world")])
           (createMockApiClient (response_value mockEmbedResponse))
           (mkState tt []))
        (mkState tt [])
      \/ exists b,
           body_fits
             (mkWire "/embed" "POST"
                ["text"; "model"; "chunk_size"; "chunk_overlap"]) b
           /\ calls
                (snd (case_body render_as_json aci_not_linked local_not_linked
                        s2t_embed (VObj [("text", VStr "Hello world")])
                        (createMockApiClient (response_value mockEmbedResponse))
                        (mkState tt [])))
              = ([] ++ [mkCall "/embed" (Some "POST") b])%list
           /\ world
                (snd (case_body render_as_json aci_not_linked local_not_linked
                        s2t_embed (VObj [("text", VStr "Hello world")])
                        (createMockApiClient (response_value mockEmbedResponse))
                        (mkState tt [])))
              = snd (callApi
                       (createMockApiClient (response_value mockEmbedResponse))
                       "/embed" (Some "POST") b tt)).
Proof.
  split; [reflexivity |].
  exact (handler_calls_at_most_once unit render_as_json aci_not_linked
           local_not_linked s2t_embed
           (mkWire "/embed" "POST"
              ["text"; "model"; "chunk_size"; "chunk_overlap"])
           (VObj [("text", VStr "Hello world")])
           (createMockApiClient (response_value mockEmbedResponse))
           (mkState tt []) eq_refl).
Defined.

(** X2 on the usage handler with the suite's rejecting client. *)
Lemma remote_failure_propagates_unchanged_witness :
  matching_case SWITCH "s2t_usage" = Some s2t_usage
  /\ wire_of s2t_usage = Some (mkWire "/usage" "GET" [])
  /\ (stops_early
        (case_body render_as_json aci_not_linked local_not_linked s2t_usage
           (VObj []) (createRejectingApiClient (new_Error "Network error"))
           (mkState tt []))
        (mkState tt [])
      \/ (fst (case_body render_as_json aci_not_linked local_not_linked
                 s2t_usage (VObj [])
                 (createRejectingApiClient (new_Error "Network error"))
                 (mkState tt []))
          = Throw (new_Error "Network error")
          /\ fst (callTool render_as_json aci_not_linked local_not_linked
                    "s2t_usage" (VObj [])
                    (createRejectingApiClient (new_Error "Network error"))
                    (mkState tt []))
             = Return (failure (errorMessage (new_Error "Network error"))))).
Proof.
  split; [reflexivity | split; [reflexivity |]].
  exact (remote_failure_propagates_unchanged unit render_as_json aci_not_linked
           local_not_linked "s2t_usage" s2t_usage (mkWire "/usage" "GET" [])
           (VObj []) (createRejectingApiClient (new_Error "Network error"))
           (mkState tt []) (new_Error "Network error")
           eq_refl eq_refl (fun b => eq_refl)).
Defined.

(** X3 on a request for [s2t_embed] that carries no arguments. *)
Lemma missing_arguments_fail_witness :
  first_read s2t_embed = Some "text"
  /\ nullish VUndef = true
  /\ case_body render_as_json aci_not_linked local_not_linked s2t_embed VUndef
       (createMockApiClient VNull) (mkState tt [])
     = (Throw (new_Error ("Cannot read properties of " ++ kind_of_nullish VUndef
                          ++ " (reading '" ++ "text" ++ "')")),
        mkState tt []).
Proof.
  split; [reflexivity | split; [reflexivity |]].
  exact (proj1 (missing_arguments_fail_before_any_call unit render_as_json
                  aci_not_linked local_not_linked s2t_embed VUndef
                  (createMockApiClient VNull) (mkState tt []))
           "text" eq_refl eq_refl).
Defined.

(** X4 on a bag for [s2t_embed] with a field the handler does not
    know. *)
Lemma handler_reads_declared_fields_only_witness :
  case_body render_as_json aci_not_linked local_not_linked s2t_embed
    (VObj [("text", VStr "Hello world")])
    (createMockApiClient (response_value mockEmbedResponse)) (mkState tt [])
  = case_body render_as_json aci_not_linked local_not_linked s2t_embed
      (VObj [("text", VStr "Hello world"); ("verbose", VBool true)])
      (createMockApiClient (response_value mockEmbedResponse)) (mkState tt []).
Proof.
  apply (handler_reads_declared_fields_only unit render_as_json aci_not_linked
           local_not_linked s2t_embed
           (mkWire "/embed" "POST"
              ["text"; "model"; "chunk_size"; "chunk_overlap"])
           (VObj [("text", VStr "Hello world")])
           (VObj [("text", VStr "Hello world"); ("verbose", VBool true)])
           (createMockApiClient (response_value mockEmbedResponse))
           (mkState tt []) eq_refl).
  intros k Hin. simpl in Hin.
  destruct Hin as [<- | [<- | [<- | [<- | []]]]]; reflexivity.
Defined.

(** X5 on a risk classification that names the action only. *)
Lemma optional_fields_take_declared_defaults_witness :
  In ("environment", VStr "local") (declared_defaults s2t_classify_action_risk)
  /\ forallb (valid_string [("action", VStr "deploy")])
       (guarded s2t_classify_action_risk) = true
  /\ exists fs,
       calls (snd (case_body render_as_json aci_not_linked local_not_linked
                     s2t_classify_action_risk (VObj [("action", VStr "deploy")])
                     (createMockApiClient VNull) (mkState tt [])))
       = ([] ++ [mkCall RISK_ENDPOINT (Some "POST") (VObj fs)])%list
       /\ lookup "environment" fs
          = Some (if existsb (String.eqb "environment")
                       (coalesced s2t_classify_action_risk)
                  then coalesce (field [("action", VStr "deploy")] "environment")
                         (VStr "local")
                  else or_else (field [("action", VStr "deploy")] "environment")
                         (VStr "local"))
       /\ (lookup "environment" [("action", VStr "deploy")] = None ->
           lookup "environment" fs = Some (VStr "local")).
Proof.
  split; [simpl; tauto | split; [reflexivity |]].
  exact (optional_fields_take_declared_defaults unit render_as_json
           aci_not_linked local_not_linked s2t_classify_action_risk
           (mkWire RISK_ENDPOINT "POST" ["action"; "environment"; "context"])
           "environment" (VStr "local") [("action", VStr "deploy")]
           (createMockApiClient VNull) (mkState tt [])
           eq_refl (or_introl eq_refl) eq_refl).
Defined.

(** X8 on a usage request answered with status 429. *)
Lemma remote_error_message_reaches_the_caller_witness :
  ok (mkResponse false 429
        (Return (VObj [("error",
                        VObj [("message", VStr "Rate limit exceeded")])])))
  = false
  /\ (stops_early
        (case_body render_as_json aci_not_linked local_not_linked s2t_usage
           (VObj [])
           (createApiClient
              (fetch_always
                 (mkResponse false 429
                    (Return (VObj [("error",
                                    VObj [("message",
                                           VStr "Rate limit exceeded")])]))))
              "https://api.example/v1" "key")
           (mkState tt []))
        (mkState tt [])
      \/ fst (callTool render_as_json aci_not_linked local_not_linked
                "s2t_usage" (VObj [])
                (createApiClient
                   (fetch_always
                      (mkResponse false 429
                         (Return (VObj [("error",
                                         VObj [("message",
                                                VStr "Rate limit exceeded")])]))))
                   "https://api.example/v1" "key")
                (mkState tt []))
         = Return (failure "Rate limit exceeded")).
Proof.
  split; [reflexivity |].
  apply (remote_error_message_reaches_the_caller unit
           (fetch_always
              (mkResponse false 429
                 (Return (VObj [("error",
                                 VObj [("message",
                                        VStr "Rate limit exceeded")])]))))
           render_as_json aci_not_linked local_not_linked
           "s2t_usage" s2t_usage (mkWire "/usage" "GET" []) (VObj [])
           "https://api.example/v1" "key" (mkState tt [])
           (mkResponse false 429
              (Return (VObj [("error",
                              VObj [("message", VStr "Rate limit exceeded")])])))
           (VObj [("error", VObj [("message", VStr "Rate limit exceeded")])])
           "Rate limit exceeded");
    try reflexivity.
  discriminate.
Defined.

(** X9 on a listed name and on a name that is not listed. *)
Lemma listed_tools_are_the_dispatched_ones_witness :
  In "s2t_catalog" (map name TOOLS)
  /\ (exists t,
         matching_case SWITCH "s2t_catalog" = Some t
         /\ switch_name render_as_json aci_not_linked local_not_linked
              "s2t_catalog" (VObj []) (createMockApiClient VNull) (mkState tt [])
            = case_body render_as_json aci_not_linked local_not_linked t
                (VObj []) (createMockApiClient VNull) (mkState tt []))
  /\ callTool render_as_json aci_not_linked local_not_linked
       "s2t_catalogue" (VObj []) (createMockApiClient VNull) (mkState tt [])
     = (Return (failure ("Unknown tool: " ++ "s2t_catalogue")), mkState tt []).
Proof.
  assert (Hlisted : In "s2t_catalog" (map name TOOLS)) by (simpl; tauto).
  assert (Hunlisted : ~ In "s2t_catalogue" (map name TOOLS)).
  { simpl. intros H.
    repeat (destruct H as [H | H]; [discriminate H |]). exact H. }
  split; [exact Hlisted |].
  destruct (proj2 (proj2 (proj2 listed_tools_are_the_dispatched_ones))
              unit render_as_json aci_not_linked local_not_linked
              "s2t_catalog" (VObj []) (createMockApiClient VNull) (mkState tt []))
    as [Hknown _].
  destruct (proj2 (proj2 (proj2 listed_tools_are_the_dispatched_ones))
              unit render_as_json aci_not_linked local_not_linked
              "s2t_catalogue" (VObj []) (createMockApiClient VNull)
              (mkState tt []))
    as [_ Hunknown].
  split; [exact (Hknown Hlisted) | exact (Hunknown Hunlisted)].
Defined.

(** X10 on an operation both entry points serve and on one that only
    the newer serves. *)
Lemma stdio_entry_serves_five_tools_witness :
  In "s2t_usage" (map name Stdio.TOOLS)
  /\ Stdio.callTool render_as_json "s2t_usage" (VObj [])
       (createMockApiClient VNull) (mkState tt [])
     = callTool render_as_json aci_not_linked local_not_linked "s2t_usage"
         (VObj []) (createMockApiClient VNull) (mkState tt [])
  /\ Stdio.callTool render_as_json "s2t_classify_action_risk"
       (VObj [("action", VStr "deploy")]) (createMockApiClient VNull)
       (mkState tt [])
     = (Return (failure ("Unknown tool: " ++ "s2t_classify_action_risk")),
        mkState tt []).
Proof.
  assert (Hlisted : In "s2t_usage" (map name Stdio.TOOLS)) by (simpl; tauto).
  assert (Hunlisted : ~ In "s2t_classify_action_risk" (map name Stdio.TOOLS)).
  { simpl. intros H.
    repeat (destruct H as [H | H]; [discriminate H |]). exact H. }
  split; [exact Hlisted |]. split.
  - exact (proj1 (proj1 (stdio_entry_serves_five_tools unit render_as_json
                           aci_not_linked local_not_linked "s2t_usage" (VObj [])
                           (createMockApiClient VNull) (mkState tt []))
                    Hlisted)).
  - exact (proj2 (stdio_entry_serves_five_tools unit render_as_json
                    aci_not_linked local_not_linked "s2t_classify_action_risk"
                    (VObj [("action", VStr "deploy")])
                    (createMockApiClient VNull) (mkState tt []))
             Hunlisted).
Defined.

(** X11 on an allow-list of two origins. *)
Lemma allowed_origins_round_trip_witness :
  forallb listable ["https://app.example.com"; "https://admin.example.com"]
  = true
  /\ HttpServer.set_has "https://admin.example.com"
       (HttpServer.ALLOWED_ORIGINS
          (Some (join_with ","
                   ["https://app.example.com"; "https://admin.example.com"])))
     = HttpServer.set_has "https://admin.example.com"
         ["https://app.example.com"; "https://admin.example.com"].
Proof.
  split; [reflexivity |].
  exact (proj1 (proj1 allowed_origins_round_trip
                  ["https://app.example.com"; "https://admin.example.com"]
                  eq_refl)
           "https://admin.example.com").
Defined.


(** X13 on the first session of a server. *)
Lemma opened_session_is_found_witness :
  Loopback.isInitializeRequest Loopback.initialize = true
  /\ snd (fst (Loopback.serve None
                 (Loopback.mcp "POST" None None Loopback.initialize)
                 (startup tt)))
     = HttpServer.Delegated 0
  /\ HttpServer.session_of
       (bearing "session-0" (Loopback.mcp "POST" None None Loopback.tools_list))
       (snd (Loopback.serve None
               (Loopback.mcp "POST" None None Loopback.initialize)
               (startup tt)))
     = Some 0%nat.
Proof.
  assert (Hid : Loopback.uuid (HttpServer.drawn (startup tt)) <> "")
    by discriminate.
  destruct (opened_session_is_found None Loopback.URL_hostname unit
              Loopback.isInitializeRequest Loopback.uuid Loopback.connect
              Loopback.handleRequest Loopback.sse_sessionId
              Loopback.handlePostMessage Loopback.process_uptime
              (Loopback.mcp "POST" None None Loopback.initialize)
              (startup tt) tt tt eq_refl eq_refl eq_refl eq_refl eq_refl eq_refl
              Hid)
    as (Hreply & _ & Hfound & _).
  split; [reflexivity | split; [exact Hreply |]].
  exact (Hfound (Loopback.mcp "POST" None None Loopback.tools_list)).
Defined.

(** X14 on a server with one open session. *)
Lemma stored_tokens_are_distinct_and_issued_witness :
  In "session-0" (keys (HttpServer.streamableTransports Loopback.opened))
  /\ NoDup (keys (HttpServer.streamableTransports Loopback.opened))
  /\ exists n,
       (n < HttpServer.drawn Loopback.opened)%nat
       /\ Loopback.uuid n = "session-0".
Proof.
  assert (Hin : In "session-0"
                  (keys (HttpServer.streamableTransports Loopback.opened)))
    by (left; reflexivity).
  destruct (stored_tokens_are_distinct_and_issued None Loopback.URL_hostname
              unit Loopback.isInitializeRequest Loopback.uuid Loopback.connect
              Loopback.handleRequest Loopback.close Loopback.sse_sessionId
              Loopback.handlePostMessage Loopback.process_uptime tt
              [HttpServer.Http (Loopback.mcp "POST" None None Loopback.initialize)])
    as [Hdistinct Hissued].
  split; [exact Hin | split; [exact Hdistinct | exact (Hissued _ Hin)]].
Defined.

(** X15 on the transport of the only open session. *)
Lemma closed_transport_is_forgotten_witness :
  HttpServer.find_sid 0 (HttpServer.streamableTransports Loopback.opened)
  = Some "session-0"
  /\ NoDup (keys (HttpServer.streamableTransports Loopback.opened))
  /\ HttpServer.map_get "session-0"
       (HttpServer.streamableTransports
          (Loopback.run None Loopback.opened [HttpServer.TransportClose 0]))
     = None.
Proof.
  assert (Hunique : NoDup (keys (HttpServer.streamableTransports Loopback.opened))).
  { change (NoDup ["session-0"]). constructor; [intros [] | constructor]. }
  assert (Hsid : "session-0" <> "") by discriminate.
  destruct (proj2 (closed_transport_is_forgotten None Loopback.URL_hostname
                     unit Loopback.isInitializeRequest Loopback.uuid
                     Loopback.connect Loopback.handleRequest Loopback.close
                     Loopback.sse_sessionId Loopback.handlePostMessage
                     Loopback.process_uptime 0%nat Loopback.opened)
              "session-0" eq_refl Hsid Hunique)
    as (_ & Hgone & _).
  split; [reflexivity | split; [exact Hunique | exact Hgone]].
Defined.

(** X16 on a transport that refuses the DELETE. *)
Lemma rejected_delete_keeps_the_session_witness :
  HttpServer.session_of Loopback.terminate Loopback.opened = Some 0%nat
  /\ snd (fst (HttpServer.serve None Loopback.URL_hostname
                 Loopback.isInitializeRequest Loopback.uuid Loopback.connect
                 (fun _ _ rt =>
                    ([], HttpServer.Rejected (new_Error "stream closed"), rt))
                 Loopback.sse_sessionId Loopback.handlePostMessage
                 Loopback.process_uptime Loopback.terminate Loopback.opened))
     = HttpServer.Failed (new_Error "stream closed")
  /\ HttpServer.session_of Loopback.terminate
       (snd (HttpServer.serve None Loopback.URL_hostname
               Loopback.isInitializeRequest Loopback.uuid Loopback.connect
               (fun _ _ rt =>
                  ([], HttpServer.Rejected (new_Error "stream closed"), rt))
               Loopback.sse_sessionId Loopback.handlePostMessage
               Loopback.process_uptime Loopback.terminate Loopback.opened))
     = Some 0%nat.
Proof.
  destruct (rejected_delete_keeps_the_session None Loopback.URL_hostname unit
              Loopback.isInitializeRequest Loopback.uuid Loopback.connect
              (fun _ _ rt =>
                 ([], HttpServer.Rejected (new_Error "stream closed"), rt))
              Loopback.sse_sessionId Loopback.handlePostMessage
              Loopback.process_uptime Loopback.terminate Loopback.opened
              0%nat (new_Error "stream closed") tt
              eq_refl eq_refl eq_refl eq_refl)
    as (Hreply & _ & _ & Hkept).
  split; [reflexivity | split; [exact Hreply | exact Hkept]].
Defined.

(** X17 on the termination of the only open session. *)
Lemma delete_with_close_logs_twice_witness :
  HttpServer.find_sid 0 (HttpServer.streamableTransports Loopback.opened)
  = HttpServer.mcp_session_id Loopback.terminate
  /\ HttpServer.session_of Loopback.terminate Loopback.terminated = None
  /\ HttpServer.journal Loopback.terminated
     = (HttpServer.journal Loopback.opened
        ++ [HttpServer.mkLog "info" "Streamable HTTP session closed"
              [("sessionId",
                HttpServer.or_empty (HttpServer.mcp_session_id Loopback.terminate))]
              None;
            HttpServer.mkLog "info"
              "Streamable HTTP session terminated via DELETE"
              [("sessionId",
                HttpServer.or_empty (HttpServer.mcp_session_id Loopback.terminate))]
              None])%list.
Proof.
  assert (Hunique : NoDup (keys (HttpServer.streamableTransports Loopback.opened))).
  { change (NoDup ["session-0"]). constructor; [intros [] | constructor]. }
  destruct (delete_with_close_logs_twice None Loopback.URL_hostname unit
              Loopback.isInitializeRequest Loopback.uuid Loopback.connect
              Loopback.handleRequest Loopback.sse_sessionId
              Loopback.handlePostMessage Loopback.process_uptime
              Loopback.terminate Loopback.opened 0%nat tt
              eq_refl eq_refl eq_refl eq_refl eq_refl Hunique)
    as (_ & Hgone & _ & Hlog).
  split; [reflexivity | split; [exact Hgone | exact Hlog]].
Defined.

(** X18 on the first legacy connection of a server. *)
Lemma legacy_connection_round_trip_witness :
  HttpServer.map_get (Loopback.uuid 0)
    (HttpServer.sseTransports (startup tt)) = None
  /\ HttpServer.entries
       (HttpServer.sseTransports
          (snd (Loopback.serve None
                  (HttpServer.mkRequest "GET" "/sse" None None None VUndef)
                  (startup tt))))
     = ([] ++ [(Loopback.uuid 0, 0%nat)])%list
  /\ HttpServer.entries
       (HttpServer.sseTransports
          (Loopback.run None
             (snd (Loopback.serve None
                     (HttpServer.mkRequest "GET" "/sse" None None None VUndef)
                     (startup tt)))
             [HttpServer.ResClose (Loopback.uuid 0)]))
     = [].
Proof.
  destruct (legacy_connection_round_trip None Loopback.URL_hostname unit
              Loopback.isInitializeRequest Loopback.uuid Loopback.connect
              Loopback.handleRequest Loopback.close Loopback.sse_sessionId
              Loopback.handlePostMessage Loopback.process_uptime
              (HttpServer.mkRequest "GET" "/sse" None None None VUndef)
              (startup tt) eq_refl eq_refl eq_refl)
    as (Hstored & _ & _ & Hclosed).
  split; [reflexivity | split; [exact Hstored | exact Hclosed]].
Defined.

(** X19 on a message for the first legacy connection. *)
Lemma legacy_message_routing_witness :
  HttpServer.present (Some "legacy-0") = true
  /\ exists k matched,
       In (k, matched)
         (HttpServer.entries
            (HttpServer.sseTransports
               (snd (Loopback.serve None
                       (HttpServer.mkRequest "GET" "/sse" None None None VUndef)
                       (startup tt)))))
       /\ Loopback.sse_sessionId matched tt = "legacy-0"
       /\ snd (fst (Loopback.serve None
                      (HttpServer.mkRequest "POST" "/messages" None None
                         (Some "legacy-0") Loopback.tools_list)
                      (snd (Loopback.serve None
                              (HttpServer.mkRequest "GET" "/sse" None None None
                                 VUndef)
                              (startup tt)))))
          = HttpServer.Delegated matched.
Proof.
  split; [reflexivity |].
  destruct (legacy_message_routing None Loopback.URL_hostname unit
              Loopback.isInitializeRequest Loopback.uuid Loopback.connect
              Loopback.handleRequest Loopback.sse_sessionId
              Loopback.handlePostMessage Loopback.process_uptime
              (HttpServer.mkRequest "POST" "/messages" None None
                 (Some "legacy-0") Loopback.tools_list)
              (snd (Loopback.serve None
                      (HttpServer.mkRequest "GET" "/sse" None None None VUndef)
                      (startup tt)))
              eq_refl eq_refl eq_refl)
    as [(Hnone & _) | (k & matched & Hin & Hid & Hreply & _)].
  - exfalso. apply (Hnone (Loopback.uuid 0) 0%nat); [left |]; reflexivity.
  - exists k, matched. split; [exact Hin | split; [exact Hid | exact Hreply]].
Defined.

(** X20 on two sessions, the second of which fails to close. *)
Lemma rejected_closes_are_logged_witness :
  In ("session-1", 1%nat)
    (HttpServer.entries
       (HttpServer.streamableTransports
          (Loopback.run None (startup tt)
             [HttpServer.Http (Loopback.mcp "POST" None None Loopback.initialize);
              HttpServer.Http (Loopback.mcp "POST" None None Loopback.initialize)])))
  /\ In (close_failure "session-1" (new_Error "write after end"))
       (HttpServer.journal
          (HttpServer.shutdown Loopback.close "SIGTERM"
             (Loopback.run None (startup tt)
                [HttpServer.Http
                   (Loopback.mcp "POST" None None Loopback.initialize);
                 HttpServer.Http
                   (Loopback.mcp "POST" None None Loopback.initialize)]))).
Proof.
  assert (Hin : In ("session-1", 1%nat)
                  (HttpServer.entries
                     (HttpServer.streamableTransports
                        (Loopback.run None (startup tt)
                           [HttpServer.Http
                              (Loopback.mcp "POST" None None Loopback.initialize);
                            HttpServer.Http
                              (Loopback.mcp "POST" None None
                                 Loopback.initialize)]))))
    by (right; left; reflexivity).
  split; [exact Hin |].
  exact (proj1 (rejected_closes_are_logged unit Loopback.close "SIGTERM"
                  (Loopback.run None (startup tt)
                     [HttpServer.Http
                        (Loopback.mcp "POST" None None Loopback.initialize);
                      HttpServer.Http
                        (Loopback.mcp "POST" None None Loopback.initialize)]))
           "session-1" 1%nat (new_Error "write after end") Hin
           (fun rt => eq_refl)).
Defined.

(** X23 on an OAuth validation that names the provider only. *)
Lemma unguarded_required_field_is_forwarded_witness :
  In "client_id" (required_of "s2t_validate_oauth")
  /\ lookup "client_id" [("provider", VStr "google")] = None
  /\ exists fs,
       calls (snd (case_body render_as_json aci_not_linked local_not_linked
                     s2t_validate_oauth (VObj [("provider", VStr "google")])
                     (createMockApiClient VNull) (mkState tt [])))
       = ([] ++ [mkCall "/validate/oauth" (Some "POST") (VObj fs)])%list
       /\ lookup "client_id" fs = Some VUndef.
Proof.
  assert (Hrequired : In "client_id" (required_of "s2t_validate_oauth"))
    by (simpl; tauto).
  split; [exact Hrequired | split; [reflexivity |]].
  exact (unguarded_required_field_is_forwarded unit render_as_json
           aci_not_linked local_not_linked "s2t_validate_oauth"
           s2t_validate_oauth
           (mkWire "/validate/oauth" "POST"
              ["provider"; "client_id"; "redirect_uris"; "scopes";
               "token_endpoint"; "authorization_endpoint"])
           "client_id" [("provider", VStr "google")]
           (createMockApiClient VNull) (mkState tt [])
           eq_refl eq_refl eq_refl Hrequired eq_refl).
Defined.

(** A HEAD request is served by the [app.get] routes: HEAD /sse opens a
    legacy connection as GET /sse does, and HEAD /mcp without a session
    gets the 400 document of GET /mcp. *)
Example head_is_served_as_get :
  HttpServer.entries
    (HttpServer.sseTransports
       (snd (Loopback.serve None
               (HttpServer.mkRequest "HEAD" "/sse" None None None VUndef)
               (startup tt))))
  = [("session-0", 0%nat)]
  /\ snd (fst (Loopback.serve None
                 (HttpServer.mkRequest "HEAD" "/sse" None None None VUndef)
                 (startup tt)))
     = HttpServer.Delegated 0
  /\ snd (fst (Loopback.serve None
                 (HttpServer.mkRequest "HEAD" "/mcp" None None None VUndef)
                 (startup tt)))
     = HttpServer.Json 400 HttpServer.INVALID_SESSION.
Proof. repeat split. Qed.
